(** * FundMonitor99: market-data client and intraday store

    A shallow embedding of
      - [backend/app/services/intraday_store.py]   (module [IntradayStore])
      - [backend/app/services/eastmoney_client.py] (module [EastMoneyClient])
    together with the facts the specification states about them.

    Python values are embedded as follows.  Decoded JSON is the inductive
    [json]; a [dict] is an association list in insertion order; an exception
    is a constructor of [exn] carried by [Raise]; the wall clock, the
    directory of artifacts, the caches and the network are fields of an
    explicit world that every operation receives and returns; one call is
    modelled at one reading of the clock, but for a cache hit, which tests
    the cache at one reading and indexes it at a later one.  The library
    functions the code calls but does not define ([datetime.fromisoformat],
    [datetime.strptime], [json.loads], [re.search], [float]) are members of
    type classes, so every general theorem holds for whatever these
    functions compute. *)

From Stdlib Require Import ZArith String Ascii List Bool Lia.
From stdpp Require Import gmap strings list fin_maps pretty.

#[local] Set Warnings "-register-all".
Local Open Scope Z_scope.

(* ===================================================================== *)
(** * Python runtime                                                      *)
(* ===================================================================== *)

Module Py.

(** ** Exceptions *)

Inductive exn : Type :=
| TypeError | AttributeError | ValueError | KeyError | OSError
| OverflowError | JSONDecodeError | ConnectError.

Inductive result (A : Type) : Type :=
| Ok (a : A)
| Raise (e : exn).
Arguments Ok {A} a.
Arguments Raise {A} e.

Definition bind {A B} (r : result A) (k : A -> result B) : result B :=
  match r with
  | Ok a => k a
  | Raise e => Raise e
  end.

Notation "x <- r ;; k" := (bind r (fun x => k))
  (at level 100, r at next level, right associativity).

(** [try: body / except Exception: handler]. *)
Definition try_except {A} (body : result A) (handler : exn -> A) : A :=
  match body with
  | Ok a => a
  | Raise e => handler e
  end.

Fixpoint mapM {A B} (f : A -> result B) (l : list A) : result (list B) :=
  match l with
  | [] => Ok []
  | a :: l' => b <- f a ;; bs <- mapM f l' ;; Ok (b :: bs)
  end.

(** ** Strings *)

Definition startswith (s p : string) : bool := String.prefix p s.

Definition endswith (s p : string) : bool :=
  (String.length p <=? String.length s)%nat &&
  String.eqb (substring (String.length s - String.length p) (String.length p) s) p.

(** [kw in s] on [str]: [kw] occurs in [s] as a contiguous block.  A string
    literal is the sequence of its UTF-8 bytes; UTF-8 being
    self-synchronising, a block of bytes that encodes [kw] occurs in the
    encoding of [s] exactly where the code points of [kw] occur in [s]. *)
Fixpoint str_in (kw s : string) : bool :=
  String.prefix kw s ||
  match s with
  | EmptyString => false
  | String _ s' => str_in kw s'
  end.

(** [",".join(l)] *)
Definition join (sep : string) (l : list string) : string := String.concat sep l.

(** Zero-padded decimal of width [w] ([%02d], [%04d], [%06d]). *)
Definition digit (n : Z) : ascii := ascii_of_nat (48 + Z.to_nat (n mod 10)).

Fixpoint zpad (w : nat) (n : Z) : string :=
  match w with
  | O => EmptyString
  | S w' => String (digit (n / 10 ^ Z.of_nat w')) (zpad w' n)
  end.

(** ** Decoded JSON, with [F] the type of Python floats *)

Section Json.

Context {F : Type}.

Inductive json : Type :=
| JNull
| JBool (b : bool)
| JInt (z : Z)
| JFloat (f : F)
| JStr (s : string)
| JArr (l : list json)
| JObj (kv : list (string * json)).

End Json.
Arguments json F : clear implicits.

(** ** [dict] with [str] keys: association list in insertion order *)

Section Dict.

Context {V : Type}.

Fixpoint dict_get (k : string) (d : list (string * V)) : option V :=
  match d with
  | [] => None
  | (k', v) :: d' => if String.eqb k k' then Some v else dict_get k d'
  end.

(** [d[k] = v]: overwrite in place, or append a new key. *)
Fixpoint dict_set (k : string) (v : V) (d : list (string * V)) : list (string * V) :=
  match d with
  | [] => [(k, v)]
  | (k', v') :: d' =>
      if String.eqb k k' then (k, v) :: d' else (k', v') :: dict_set k v d'
  end.

(** [k in d] *)
Definition dict_mem (k : string) (d : list (string * V)) : bool :=
  match dict_get k d with Some _ => true | None => false end.

End Dict.

(** ** Floats *)

Class PyFloat (F : Type) : Type := {
  (** [x == 0.0] *)
  float_is_zero : F -> bool;
  (** [float(n)] for an [int]; raises [OverflowError] when too large *)
  float_of_int : Z -> result F;
  (** [float(s)] for a [str]; raises [ValueError] when [s] is no number *)
  float_of_str : string -> result F;
}.

Section Values.

Context {F : Type} `{PyFloat F}.

(** [bool(x)] *)
Definition truthy (j : json F) : bool :=
  match j with
  | JNull => false
  | JBool b => b
  | JInt z => negb (z =? 0)
  | JFloat f => negb (float_is_zero f)
  | JStr s => negb (String.eqb s "")
  | JArr l => match l with [] => false | _ => true end
  | JObj kv => match kv with [] => false | _ => true end
  end.

(** [float(x)] *)
Definition py_float (j : json F) : result F :=
  match j with
  | JInt z => float_of_int z
  | JBool b => float_of_int (if b then 1 else 0)
  | JFloat f => Ok f
  | JStr s => float_of_str s
  | JNull | JArr _ | JObj _ => Raise TypeError
  end.

(** [x == 0] *)
Definition eq_zero (j : json F) : bool :=
  match j with
  | JInt z => z =? 0
  | JBool b => negb b
  | JFloat f => float_is_zero f
  | _ => false
  end.

(** [x.get(k)] and [x.get(k, dflt)]: only a [dict] has the method. *)
Definition get (j : json F) (k : string) : result (option (json F)) :=
  match j with
  | JObj kv => Ok (dict_get k kv)
  | _ => Raise AttributeError
  end.

Definition get_default (j : json F) (k : string) (dflt : json F) : result (json F) :=
  o <- get j k ;; Ok (default dflt o).

(** [for item in x]: a list yields its items, a [str] its characters (one
    per byte here; the callers only tell an empty string from a non-empty
    one), a [dict] its keys; anything else is not iterable. *)
Definition chars (s : string) : list string :=
  map (fun c => String c EmptyString) (list_ascii_of_string s).

Definition iter (j : json F) : result (list (json F)) :=
  match j with
  | JArr l => Ok l
  | JStr s => Ok (map JStr (chars s))
  | JObj kv => Ok (map (fun p => JStr (fst p)) kv)
  | _ => Raise TypeError
  end.

End Values.

(** ** [datetime] *)

Record date : Type := mk_date { year : Z; month : Z; day : Z }.
Record time : Type := mk_time { hour : Z; minute : Z; second : Z; microsecond : Z }.
Record datetime : Type := mk_datetime { dt_date : date; dt_time : time }.

(** Comparison is lexicographic on the fields, as for the tuples Python
    compares. *)
Definition date_cmp (a b : date) : comparison :=
  match year a ?= year b with
  | Eq => match month a ?= month b with
          | Eq => day a ?= day b
          | c => c
          end
  | c => c
  end.

Definition time_cmp (a b : time) : comparison :=
  match hour a ?= hour b with
  | Eq => match minute a ?= minute b with
          | Eq => match second a ?= second b with
                  | Eq => microsecond a ?= microsecond b
                  | c => c
                  end
          | c => c
          end
  | c => c
  end.

Definition datetime_cmp (a b : datetime) : comparison :=
  match date_cmp (dt_date a) (dt_date b) with
  | Eq => time_cmp (dt_time a) (dt_time b)
  | c => c
  end.

Definition is_lt (c : comparison) : bool := match c with Lt => true | _ => false end.
Definition is_le (c : comparison) : bool := match c with Gt => false | _ => true end.

Definition date_ltb (a b : date) : bool := is_lt (date_cmp a b).
Definition time_leb (a b : time) : bool := is_le (time_cmp a b).
Definition datetime_ltb (a b : datetime) : bool := is_lt (datetime_cmp a b).
Definition datetime_leb (a b : datetime) : bool := is_le (datetime_cmp a b).

(** [datetime.combine(d, t)] *)
Definition combine (d : date) (t : time) : datetime := mk_datetime d t.

(** [date.toordinal()], the proleptic Gregorian day number. *)
Definition is_leap (y : Z) : bool :=
  (y mod 4 =? 0) && (negb (y mod 100 =? 0) || (y mod 400 =? 0)).

Definition days_before_year (y : Z) : Z :=
  let p := y - 1 in p * 365 + p / 4 - p / 100 + p / 400.

Definition days_in_month (y m : Z) : Z :=
  if m =? 2 then (if is_leap y then 29 else 28)
  else if (m =? 4) || (m =? 6) || (m =? 9) || (m =? 11) then 30
  else 31.

Definition days_before_month (y m : Z) : Z :=
  fold_left (fun acc k => acc + days_in_month y (Z.of_nat k)) (seq 1 (Z.to_nat (m - 1))) 0.

Definition toordinal (d : date) : Z :=
  days_before_year (year d) + days_before_month (year d) (month d) + day d.

(** [(a - b).days] *)
Definition days_between (a b : date) : Z := toordinal a - toordinal b.

(** [strftime("%Y-%m-%d")], [strftime("%H:%M:%S")] and [isoformat()]. *)
Definition strftime_ymd (d : date) : string :=
  zpad 4 (year d) +:+ "-" +:+ zpad 2 (month d) +:+ "-" +:+ zpad 2 (day d).

Definition strftime_hms (t : time) : string :=
  zpad 2 (hour t) +:+ ":" +:+ zpad 2 (minute t) +:+ ":" +:+ zpad 2 (second t).

Definition isoformat (d : datetime) : string :=
  strftime_ymd (dt_date d) +:+ "T" +:+ strftime_hms (dt_time d) +:+
  (if microsecond (dt_time d) =? 0 then "" else "." +:+ zpad 6 (microsecond (dt_time d))).

(** What [datetime.fromisoformat] makes of a string: a naive datetime, an
    aware one (the string carries a UTC offset), or [ValueError]. *)
Inductive iso_parse : Type :=
| IsoNaive (d : datetime)
| IsoAware (d : datetime)
| IsoInvalid.

Class PyDatetime : Type := {
  fromisoformat : string -> iso_parse;
  (** [datetime.strptime(s, "%Y-%m-%d").date()], [None] for [ValueError] *)
  strptime_ymd : string -> option date;
}.

(** ** [pathlib] *)

Fixpoint rfind_dot (s : string) : option nat :=
  match s with
  | EmptyString => None
  | String c s' =>
      match rfind_dot s' with
      | Some i => Some (S i)
      | None => if Ascii.eqb c "."%char then Some O else None
      end
  end.

(** [PurePath.stem]: the name without its last suffix; a leading or a
    trailing dot starts no suffix. *)
Definition stem (name : string) : string :=
  match rfind_dot name with
  | Some i =>
      if (0 <? i)%nat && (i <? String.length name - 1)%nat
      then substring 0 i name else name
  | None => name
  end.

End Py.

(* ===================================================================== *)
(** * backend/app/services/intraday_store.py                              *)
(* ===================================================================== *)

Module IntradayStore.
Import Py.

Section Store.

Context {F : Type} `{PyFloat F} `{PyDatetime}.

(** ** The world the store runs in *)

(** A file of [INTRADAY_DIR], as [json.load] sees it: a document, or bytes
    that are no JSON text (so that [json.load] raises). *)
Inductive file : Type :=
| Doc (data : json F)
| Unreadable.

(** What the operating system does with [open(path, "w")] followed by
    [json.dump]: both succeed; [open] raises and the file keeps its content;
    or [open] truncates the file and the dump raises half-way. *)
Inductive fs_write : Type := WriteOk | OpenFails | DumpFails.

Record world : Type := mk_world {
  now : datetime;                (* datetime.now() *)
  disk : gmap string file;       (* INTRADAY_DIR: file name -> content *)
  write_outcome : fs_write;
  unlink_fails : string -> bool; (* the files whose removal the system refuses *)
}.

Definition set_disk (d : gmap string file) (w : world) : world :=
  mk_world (now w) d (write_outcome w) (unlink_fails w).

(** ** Operations of [dict], [list] and [str] on decoded JSON *)

(** [k in x] *)
Definition contains (x : json F) (k : string) : result bool :=
  match x with
  | JObj kv => Ok (dict_mem k kv)
  | JArr l => Ok (existsb (fun e => match e with JStr s => String.eqb s k | _ => false end) l)
  | JStr s => Ok (str_in k s)
  | _ => Raise TypeError
  end.

(** [x[k]] *)
Definition getitem (x : json F) (k : string) : result (json F) :=
  match x with
  | JObj kv => match dict_get k kv with Some v => Ok v | None => Raise KeyError end
  | _ => Raise TypeError
  end.

(** [x[k] = v] *)
Definition setitem (x : json F) (k : string) (v : json F) : result (json F) :=
  match x with
  | JObj kv => Ok (JObj (dict_set k v kv))
  | _ => Raise TypeError
  end.

(** [x.append(v)] *)
Definition append (x v : json F) : result (json F) :=
  match x with
  | JArr l => Ok (JArr (l ++ [v]))
  | _ => Raise AttributeError
  end.

(** ** Constants *)

Definition MARKET_OPEN : time := mk_time 9 30 0 0.
Definition MARKET_CLOSE : time := mk_time 15 0 0 0.
Definition CLEAR_TIME : time := mk_time 9 0 0 0.

(** ** Functions *)

Definition _get_today_file (w : world) : string :=
  strftime_ymd (dt_date (now w)) +:+ ".json".

Definition empty_data (w : world) : json F :=
  JObj [("date", JStr (strftime_ymd (dt_date (now w)))); ("funds", JObj [])].

(** [last_update < clear_datetime], the left operand as parsed: comparing
    an aware datetime with a naive one raises [TypeError]. *)
Definition parsed_ltb (p : iso_parse) (b : datetime) : result bool :=
  match p with
  | IsoNaive a => Ok (datetime_ltb a b)
  | IsoAware _ => Raise TypeError
  | IsoInvalid => Raise ValueError
  end.

(** [last_update.date()] *)
Definition parsed_date (p : iso_parse) : result date :=
  match p with
  | IsoNaive a | IsoAware a => Ok (dt_date a)
  | IsoInvalid => Raise ValueError
  end.

Definition _should_clear_data (w : world) (data : json F) : result bool :=
  last <- get data "last_update" ;;
  if negb (truthy (default JNull last)) then Ok false
  else
    Ok (try_except
          (s <- match default JNull last with
                | JStr s => Ok s
                | _ => Raise TypeError
                end ;;
           let last_update := fromisoformat s in
           d <- parsed_date last_update ;;
           if date_ltb d (dt_date (now w)) then Ok true
           else
             let clear_datetime := combine (dt_date (now w)) CLEAR_TIME in
             if datetime_leb clear_datetime (now w)
             then (before <- parsed_ltb last_update clear_datetime ;;
                   if before then Ok true else Ok false)
             else Ok false)
          (fun _ => false)).

(** [json.load(f)] *)
Definition json_load (f : file) : result (json F) :=
  match f with
  | Doc data => Ok data
  | Unreadable => Raise JSONDecodeError
  end.

Definition _read_intraday_data (w : world) : json F :=
  try_except
    (match disk w !! _get_today_file w with
     | Some f =>
         data <- json_load f ;;
         clear <- _should_clear_data w data ;;
         if clear then Ok (empty_data w) else Ok data
     | None => Ok (empty_data w)
     end)
    (fun _ => empty_data w).

(** [open(file_path, "w")] then [json.dump(data, f)] *)
Definition dump (path : string) (data : json F) (w : world) : result unit * world :=
  match write_outcome w with
  | WriteOk => (Ok tt, set_disk (<[path := Doc data]> (disk w)) w)
  | OpenFails => (Raise OSError, w)
  | DumpFails => (Raise OSError, set_disk (<[path := Unreadable]> (disk w)) w)
  end.

Definition _write_intraday_data (data : json F) (w : world) : bool * world :=
  let (r, w') := dump (_get_today_file w) data w in
  (try_except (_ <- r ;; Ok true) (fun _ => false), w').

Definition _is_trading_time (w : world) : bool :=
  let now := dt_time (now w) in
  time_leb MARKET_OPEN now && time_leb now MARKET_CLOSE.

(** The lines both writers share:
    [if code not in data["funds"]: data["funds"][code] = []] and
    [data["funds"][code].append({"time": timestamp, "change": change})]. *)
Definition add_point (timestamp code : string) (change : F) (data : json F)
  : result (json F) :=
  funds <- getitem data "funds" ;;
  present <- contains funds code ;;
  funds <- (if present then Ok funds else setitem funds code (JArr [])) ;;
  points <- getitem funds code ;;
  points <- append points (JObj [("time", JStr timestamp); ("change", JFloat change)]) ;;
  funds <- setitem funds code points ;;
  setitem data "funds" funds.

(** [if "funds" not in data: data["funds"] = {}] *)
Definition ensure_funds (data : json F) : result (json F) :=
  present <- contains data "funds" ;;
  if present then Ok data else setitem data "funds" (JObj []).

Definition save_fund_change (code : string) (change : F) (timestamp : option string)
    (w : world) : result bool * world :=
  if negb (_is_trading_time w) then (Ok false, w)
  else
    let timestamp := default (strftime_hms (dt_time (now w))) timestamp in
    let data := _read_intraday_data w in
    match
      data <- setitem data "last_update" (JStr (isoformat (now w))) ;;
      data <- ensure_funds data ;;
      add_point timestamp code change data
    with
    | Ok data => let (ok, w') := _write_intraday_data data w in (Ok ok, w')
    | Raise e => (Raise e, w)
    end.

(** The loop body of [save_funds_changes_batch]. *)
Definition add_change (timestamp : string) (data : result (json F))
    (item : string * option F) : result (json F) :=
  data <- data ;;
  match snd item with
  | None => Ok data
  | Some change => add_point timestamp (fst item) change data
  end.

Definition save_funds_changes_batch (changes : list (string * option F))
    (w : world) : result bool * world :=
  if negb (_is_trading_time w) then (Ok false, w)
  else
    let timestamp := strftime_hms (dt_time (now w)) in
    let data := _read_intraday_data w in
    match
      data <- setitem data "last_update" (JStr (isoformat (now w))) ;;
      data <- ensure_funds data ;;
      fold_left (add_change timestamp) changes (Ok data)
    with
    | Ok data => let (ok, w') := _write_intraday_data data w in (Ok ok, w')
    | Raise e => (Raise e, w)
    end.

Definition get_fund_intraday (code : string) (w : world) : result (json F) * world :=
  let data := _read_intraday_data w in
  (funds <- get_default data "funds" (JObj []) ;; get_default funds code (JArr []), w).

(** The loop body of [get_funds_intraday_batch]: [result[code] = ...]. *)
Definition collect (funds_data : json F) (acc : result (list (string * json F)))
    (code : string) : result (list (string * json F)) :=
  acc <- acc ;;
  points <- get_default funds_data code (JArr []) ;;
  Ok (dict_set code points acc).

Definition get_funds_intraday_batch (codes : list string) (w : world)
  : result (list (string * json F)) * world :=
  let data := _read_intraday_data w in
  (funds_data <- get_default data "funds" (JObj []) ;;
   fold_left (collect funds_data) codes (Ok []), w).

Definition clear_intraday_data (w : world) : bool * world :=
  _write_intraday_data (empty_data w) w.

(** [file_path.unlink()]: the file goes, or the call raises and the file
    stays. *)
Definition unlink (name : string) (w : world) : result unit * world :=
  if unlink_fails w name
  then (Raise OSError, w)
  else (Ok tt, set_disk (delete name (disk w)) w).

(** [INTRADAY_DIR.glob("*.json")]: the entries are listed once, before the
    loop runs. *)
Definition glob_json (w : world) : list string :=
  List.filter (fun name => endswith name ".json") (elements (dom (disk w))).

(** The loop body of [cleanup_old_files], with its own [try]. *)
Definition cleanup_file (keep_days : Z) (today : date) (acc : Z * world)
    (name : string) : Z * world :=
  try_except
    (let date_str := stem name in
     file_date <- match strptime_ymd date_str with
                  | Some d => Ok d
                  | None => Raise ValueError
                  end ;;
     let days_diff := days_between today file_date in
     if keep_days <? days_diff
     then
       let (removed, w') := unlink name (snd acc) in
       _ <- removed ;;
       Ok (fst acc + 1, w')
     else Ok acc)
    (fun _ => acc).

Definition cleanup_old_files (keep_days : Z) (w : world) : Z * world :=
  let today := dt_date (now w) in
  fold_left (cleanup_file keep_days today) (glob_json w) (0, w).

(** ** Vocabulary for the statements about the store *)

(** Microseconds since midnight. *)
Definition us_of_day (t : time) : Z :=
  ((hour t * 60 + minute t) * 60 + second t) * 1000000 + microsecond t.

(** The times of day a [datetime.time] can hold. *)
Definition valid_time (t : time) : Prop :=
  0 <= hour t < 24 /\ 0 <= minute t < 60 /\ 0 <= second t < 60 /\
  0 <= microsecond t < 1000000.

(** The trading window, 09:30 to 15:00 with both ends. *)
Definition in_trading_window (t : time) : Prop :=
  us_of_day MARKET_OPEN <= us_of_day t <= us_of_day MARKET_CLOSE.

(** STALE in the words of the specification: [last_update] is from a prior
    calendar date, or from today but before today's 09:00 while the current
    time is at or after it. *)
Definition stale_by_spec (last_update now : datetime) : Prop :=
  date_cmp (dt_date last_update) (dt_date now) = Lt \/
  (dt_date last_update = dt_date now /\
   datetime_cmp last_update (combine (dt_date now) CLEAR_TIME) = Lt /\
   datetime_cmp (combine (dt_date now) CLEAR_TIME) now <> Gt).

(** The test [_should_clear_data] makes on a parsed naive [last_update]. *)
Definition stale (last_update now : datetime) : bool :=
  date_ltb (dt_date last_update) (dt_date now) ||
  (datetime_leb (combine (dt_date now) CLEAR_TIME) now &&
   datetime_ltb last_update (combine (dt_date now) CLEAR_TIME)).

(** The mapping under ["funds"] of a document; a document without the key
    gets the empty mapping on a write. *)
Definition funds_of (data : json F) : option (list (string * json F)) :=
  match data with
  | JObj kv =>
      match dict_get "funds" kv with
      | None => Some []
      | Some (JObj funds) => Some funds
      | Some _ => None
      end
  | _ => None
  end.

Definition list_or_absent (o : option (json F)) : bool :=
  match o with
  | None | Some (JArr _) => true
  | Some _ => false
  end.

(** A point can be appended for each of [codes]: ["funds"] is a mapping and
    what it holds under each code, if anything, is a list. *)
Definition appendable (codes : list string) (data : json F) : bool :=
  forallb (fun code =>
             match funds_of data with
             | Some funds => list_or_absent (dict_get code funds)
             | None => false
             end) codes.

(** The sample a write appends: [{"time": timestamp, "change": change}]. *)
Definition point (timestamp : string) (change : F) : json F :=
  JObj [("time", JStr timestamp); ("change", JFloat change)].

(** Whether the file write reports success. *)
Definition write_ok (w : world) : bool :=
  match write_outcome w with
  | WriteOk => true
  | OpenFails | DumpFails => false
  end.

(** The codes of a batch that carry a value. *)
Definition codes_of (changes : list (string * option F)) : list string :=
  omap (fun item => match snd item with Some _ => Some (fst item) | None => None end) changes.

(** What a read is to return for [code] from the mapping [funds]: the list
    stored under the code, or the empty list. *)
Definition stored (funds : list (string * json F)) (code : string) : json F :=
  default (JArr []) (dict_get code funds).

(** The test the loop of [cleanup_old_files] makes on one file name. *)
Definition too_old (keep_days : Z) (today : date) (name : string) : bool :=
  match strptime_ymd (stem name) with
  | Some file_date => keep_days <? days_between today file_date
  | None => false
  end.

(** The files [cleanup_old_files keep_days] is to delete: those matched by
    [*.json] whose stem is a date more than [keep_days] days before today. *)
Definition expired (keep_days : Z) (w : world) (name : string) : bool :=
  endswith name ".json" &&
  match strptime_ymd (stem name) with
  | Some file_date => keep_days <? days_between (dt_date (now w)) file_date
  | None => false
  end.

(** The files [cleanup_old_files keep_days] does delete: the expired ones
    whose removal is not refused. *)
Definition removed (keep_days : Z) (w : world) (name : string) : bool :=
  expired keep_days w name && negb (unlink_fails w name).
(** ** More of the module *)

Definition _time_to_minutes (t : time) : Z := hour t * 60 + minute t.

(** The list a document holds under [code]; the empty list when it holds
    none. *)
Definition points (funds : list (string * json F)) (code : string) : list (json F) :=
  match dict_get code funds with
  | Some (JArr l) => l
  | _ => []
  end.

(** The worlds a later call of the same day can find after [w1]: the files
    are those of [w1], the date is that of [w]. *)
Definition later_same_day (w w1 w2 : world) : Prop :=
  disk w2 = disk w1 /\ dt_date (now w2) = dt_date (now w).


(** The samples a batch appends for [code]: one per item of the batch that
    names the code and carries a value, in the order of the batch. *)
Definition samples_for (timestamp code : string) (changes : list (string * option F))
  : list (json F) :=
  omap (fun item =>
          if String.eqb (fst item) code
          then option_map (point timestamp) (snd item)
          else None) changes.

(** The document a writer leaves when it starts from the fresh document:
    the keys in the order the code creates them. *)
Definition fresh_with (w : world) (funds : list (string * json F)) : json F :=
  JObj [("date", JStr (strftime_ymd (dt_date (now w))));
        ("funds", JObj funds);
        ("last_update", JStr (isoformat (now w)))].
End Store.

Arguments file F : clear implicits.
Arguments world F : clear implicits.

End IntradayStore.

(* ===================================================================== *)
(** * backend/app/services/eastmoney_client.py                            *)
(* ===================================================================== *)

Module EastMoneyClient.
Import Py.

(** Decoding that the client leaves to libraries. *)
Class PyText (F : Type) : Type := {
  (** [json.loads(s)] and [response.json()] *)
  json_loads : string -> result (json F);
  (** group 1 of [re.search(r"jsonpgz\((.*?)\);?$", text)] *)
  search_jsonpgz : string -> option string;
  (** [a == b] on hashable values, as a [dict] compares its keys *)
  key_eqb : json F -> json F -> bool;
}.

(** ** The time-to-live cache *)

Section Cache.

Context {V : Type}.

Record entry : Type := mk_entry { e_key : string; e_value : V; e_inserted : Z }.

(** Modelled from the spec: the bounded time-to-live cache type
    ([TTLCache(maxsize, ttl)] in [__init__]) is imported, not defined in the
    sources.  An entry is a value with its insertion timestamp; it is served
    while its age is within the namespace's TTL; on overflow the
    oldest-inserted entry goes.  [serves_at_ttl] says whether an entry aged
    exactly [ttl] is still served: the data model of the specification says
    it is, the imported library expires it; no theorem below depends on the
    choice.  [entries] is ordered oldest first. *)
Record ttl_cache : Type := mk_cache {
  maxsize : nat;
  ttl : Z;
  serves_at_ttl : bool;
  entries : list entry;
}.

(** Modelled from the spec: an entry is valid while [now - insertion] is
    within the TTL. *)
Definition fresh (c : ttl_cache) (t : Z) (e : entry) : bool :=
  if serves_at_ttl c then t - e_inserted e <=? ttl c else t - e_inserted e <? ttl c.

Definition has_key (k : string) (e : entry) : bool := String.eqb (e_key e) k.

Definition cache_find (c : ttl_cache) (k : string) : option entry :=
  List.find (has_key k) (entries c).

(** Modelled from the spec: [key in cache] at time [t]; an expired entry is
    logically absent. *)
Definition cache_contains (c : ttl_cache) (t : Z) (k : string) : bool :=
  match cache_find c k with
  | Some e => fresh c t e
  | None => false
  end.

(** Modelled from the spec: [cache[key]] at time [t], [KeyError] when the
    key is absent or its entry expired. *)
Definition cache_getitem (c : ttl_cache) (t : Z) (k : string) : result V :=
  match cache_find c k with
  | Some e => if fresh c t e then Ok (e_value e) else Raise KeyError
  | None => Raise KeyError
  end.

(** Modelled from the spec: [cache[key] = value] at time [t] stores the
    value with the current timestamp; expired entries are purged, an entry
    under the same key is replaced, and on overflow the oldest entries make
    room.  A cache of capacity 0 takes no value ([ValueError]). *)
Definition cache_setitem (c : ttl_cache) (t : Z) (k : string) (v : V)
  : result ttl_cache :=
  match maxsize c with
  | O => Raise ValueError
  | S room =>
      let live := List.filter (fresh c t) (entries c) in
      let others := List.filter (fun e => negb (has_key k e)) live in
      let kept := skipn (length others - room) others in
      Ok (mk_cache (maxsize c) (ttl c) (serves_at_ttl c) (kept ++ [mk_entry k v t]))
  end.

End Cache.

Arguments entry V : clear implicits.
Arguments ttl_cache V : clear implicits.

Section Client.

Context {F : Type} `{PyFloat F} `{PyText F}.

(** ** Records the client returns *)

(** The [dict] built by [get_fund_estimate]. *)
Record quote : Type := mk_quote {
  q_code : json F;
  q_name : json F;
  q_nav : option F;
  q_nav_date : json F;
  q_estimate_nav : option F;
  q_estimate_change : option F;
  q_estimate_time : json F;
}.

(** One element of ["records"] in [get_fund_nav_history]. *)
Record nav_record : Type := mk_nav_record {
  r_date : json F;
  r_nav : option F;
  r_acc_nav : option F;
  r_change : option F;
}.

(** The [dict] returned by [get_fund_nav_history]. *)
Record nav_page : Type := mk_nav_page {
  total : json F;
  page : Z;
  per_page : Z;
  records : list nav_record;
}.

(** The [dict] built by [get_fund_detail]. *)
Record fund_detail : Type := mk_fund_detail {
  d_code : string;
  d_name : string;
  d_type : string;
  d_company : string;
  d_manager : string;
  d_scale : option F;
  d_changes : list (string * F);
}.

(** ** The network and the client object *)

Record response : Type := mk_response { status_code : Z; text : string }.

Record request : Type := mk_request {
  url : string;
  params : list (string * string);
  headers : list (string * string);   (* per-request headers, if any *)
}.

Record client : Type := mk_client {
  timer : Z;                                  (* the caches' clock *)
  lapse : Z;            (* what the clock advances between the membership
                           test and the indexing of a cache hit *)
  _realtime_cache : ttl_cache quote;
  _history_cache : ttl_cache nav_page;
  network : request -> result response;       (* what [client.get] yields *)
  sent : list request;                        (* requests issued, latest last *)
}.

Definition set_realtime_cache (c : ttl_cache quote) (w : client) : client :=
  mk_client (timer w) (lapse w) c (_history_cache w) (network w) (sent w).

Definition set_history_cache (c : ttl_cache nav_page) (w : client) : client :=
  mk_client (timer w) (lapse w) (_realtime_cache w) c (network w) (sent w).

Definition send (req : request) (w : client) : client :=
  mk_client (timer w) (lapse w) (_realtime_cache w) (_history_cache w) (network w) (sent w ++ [req]).

(** ** Coroutines

    Every [async def] of the client suspends at most once, at
    [await self.client.get(...)].  Up to that point it runs without
    interruption; [Await req k] is the suspended coroutine, which resumes as
    [k] with the outcome of the request. *)
Inductive coro (A : Type) : Type :=
| Return (a : A)
| Await (req : request) (k : result response -> client -> A * client).
Arguments Return {A} a.
Arguments Await {A} req k.

Definition task (A : Type) : Type := client -> coro A * client.

(** Run a coroutine up to its suspension; the request goes out there. *)
Definition start {A} (f : task A) (w : client) : coro A * client :=
  let (c, w1) := f w in
  match c with
  | Return _ => (c, w1)
  | Await req _ => (c, send req w1)
  end.

(** Resume a suspended coroutine with the outcome of its request. *)
Definition finish {A} (c : coro A) (w : client) : A * client :=
  match c with
  | Return a => (a, w)
  | Await req k => k (network w req) w
  end.

(** [await f(...)] of a single call. *)
Definition run {A} (f : task A) (w : client) : A * client :=
  let (c, w1) := start f w in finish c w1.

(** [await asyncio.gather] of the tasks, with [return_exceptions=True]: the event loop
    starts the tasks in order, each up to its request; then the answers come
    in and every task runs to its end. The results keep the order of the
    tasks. *)
Fixpoint start_all {A} (tasks : list (task A)) (w : client) : list (coro A) * client :=
  match tasks with
  | [] => ([], w)
  | f :: tasks' =>
      let (c, w1) := start f w in
      let (cs, w2) := start_all tasks' w1 in
      (c :: cs, w2)
  end.

Fixpoint finish_all {A} (cs : list (coro A)) (w : client) : list A * client :=
  match cs with
  | [] => ([], w)
  | c :: cs' =>
      let (a, w1) := finish c w in
      let (rs, w2) := finish_all cs' w1 in
      (a :: rs, w2)
  end.

Definition gather {A} (tasks : list (task A)) (w : client) : list A * client :=
  let (cs, w1) := start_all tasks w in finish_all cs w1.

(** ** Constants *)

Definition FUND_ESTIMATE_URL (code : string) : string :=
  "https://fundgz.1234567.com.cn/js/" +:+ code +:+ ".js".
Definition FUND_NAV_HISTORY_URL : string := "https://api.fund.eastmoney.com/f10/lsjz".
Definition STOCK_QUOTE_URL : string := "https://push2.eastmoney.com/api/qt/ulist.np/get".

Definition HEADERS : list (string * string) :=
  [("User-Agent", "Mozilla/5.0 (Macintosh; Intel Mac OS X 10_15_7) AppleWebKit/537.36 (KHTML, like Gecko) Chrome/120.0.0.0 Safari/537.36");
   ("Referer", "https://fund.eastmoney.com/");
   ("Accept", "text/html,application/xhtml+xml,application/xml;q=0.9,*/*;q=0.8")].

(** ** get_fund_estimate *)

(** [float(data.get(k, 0)) if data.get(k) else None] *)
Definition float_or_none (data : json F) (k : string) : result (option F) :=
  c <- get data k ;;
  if truthy (default JNull c)
  then (v <- get_default data k (JInt 0) ;; f <- py_float v ;; Ok (Some f))
  else Ok None.

Definition estimate_of (code : string) (data : json F) : result quote :=
  fundcode <- get_default data "fundcode" (JStr code) ;;
  name <- get_default data "name" (JStr "") ;;
  nav <- float_or_none data "dwjz" ;;
  nav_date <- get_default data "jzrq" (JStr "") ;;
  estimate_nav <- float_or_none data "gsz" ;;
  estimate_change <- float_or_none data "gszzl" ;;
  estimate_time <- get_default data "gztime" (JStr "") ;;
  Ok (mk_quote fundcode name nav nav_date estimate_nav estimate_change estimate_time).

(** The [try] block of [get_fund_estimate] from the answer on; [None] when
    control falls through to the final [return None]. *)
Definition estimate_body (code cache_key : string) (answer : result response)
    (w : client) : result (option (quote * client)) :=
  response <- answer ;;
  if status_code response =? 200 then
    match search_jsonpgz (text response) with
    | Some group1 =>
        data <- json_loads group1 ;;
        result <- estimate_of code data ;;
        cache <- cache_setitem (_realtime_cache w) (timer w) cache_key result ;;
        Ok (Some (result, set_realtime_cache cache w))
    | None => Ok None
    end
  else Ok None.

(** [self.client.get(self.FUND_ESTIMATE_URL.format(code=code))] *)
Definition estimate_request (code : string) : request :=
  mk_request (FUND_ESTIMATE_URL code) [] [].

(** [f"estimate_{code}"] *)
Definition estimate_key (code : string) : string := "estimate_" +:+ code.

(** [get_fund_estimate] from the answer of the request on. *)
Definition estimate_resume (code : string) (answer : result response) (w : client)
  : result (option quote) * client :=
  match try_except (estimate_body code (estimate_key code) answer w) (fun _ => None) with
  | Some (result, w') => (Ok (Some result), w')
  | None => (Ok None, w)
  end.

Definition get_fund_estimate (code : string) : task (result (option quote)) :=
  fun w =>
  let cache_key := estimate_key code in
  if cache_contains (_realtime_cache w) (timer w) cache_key
  then (Return (v <- cache_getitem (_realtime_cache w) (timer w + lapse w) cache_key ;;
                Ok (Some v)), w)
  else (Await (estimate_request code) (estimate_resume code), w).

(** ** get_fund_estimates_batch *)

(** The loop [if isinstance(result, dict): valid_results.append(result)]. *)
Definition valid_results (results : list (result (option quote))) : list quote :=
  omap (fun r => match r with Ok (Some q) => Some q | _ => None end) results.

Definition get_fund_estimates_batch (codes : list string) (w : client)
  : list quote * client :=
  let tasks := map get_fund_estimate codes in
  let (results, w') := gather tasks w in
  (valid_results results, w').

(** ** get_fund_nav_history *)

(** [f"{x}"] of an optional string: [None] prints as its name. *)
Definition str_of_opt (o : option string) : string := default "None" o.

(** [x or ""] *)
Definition or_empty (o : option string) : string := default "" o.

Definition empty_page (page per_page : Z) : nav_page :=
  mk_nav_page (JInt 0) page per_page [].

Definition record_of (item : json F) : result nav_record :=
  date <- get_default item "FSRQ" (JStr "") ;;
  nav <- float_or_none item "DWJZ" ;;
  acc_nav <- float_or_none item "LJJZ" ;;
  change <- float_or_none item "JZZZL" ;;
  Ok (mk_nav_record date nav acc_nav change).

(** The page built from a decoded payload whose [ErrCode] is 0. *)
Definition page_of (page per_page : Z) (data : json F) : result nav_page :=
  total <- get_default data "TotalCount" (JInt 0) ;;
  d <- get_default data "Data" (JObj []) ;;
  l <- get_default d "LSJZList" (JArr []) ;;
  items <- iter l ;;
  records <- mapM record_of items ;;
  Ok (mk_nav_page total page per_page records).

(** The [try] block of [get_fund_nav_history] from the answer on; [None]
    when control falls through to the final [return]. *)
Definition history_body (cache_key : string) (page per_page : Z)
    (answer : result response) (w : client) : result (option (nav_page * client)) :=
  response <- answer ;;
  if status_code response =? 200 then
    data <- json_loads (text response) ;;
    err <- get data "ErrCode" ;;
    if eq_zero (default JNull err) then
      result <- page_of page per_page data ;;
      cache <- cache_setitem (_history_cache w) (timer w) cache_key result ;;
      Ok (Some (result, set_history_cache cache w))
    else Ok None
  else Ok None.

Definition history_request (code : string) (page per_page : Z)
    (start_date end_date : option string) : request :=
  mk_request FUND_NAV_HISTORY_URL
    [("fundCode", code);
     ("pageIndex", pretty page);
     ("pageSize", pretty per_page);
     ("startDate", or_empty start_date);
     ("endDate", or_empty end_date)]
    (dict_set "Referer" ("https://fundf10.eastmoney.com/jjjz_" +:+ code +:+ ".html") HEADERS).

(** [f"history_{code}_{page}_{per_page}_{start_date}_{end_date}"] *)
Definition history_key (code : string) (page per_page : Z)
    (start_date end_date : option string) : string :=
  "history_" +:+ code +:+ "_" +:+ pretty page +:+ "_" +:+ pretty per_page +:+ "_" +:+
  str_of_opt start_date +:+ "_" +:+ str_of_opt end_date.

Definition get_fund_nav_history (code : string) (page per_page : Z)
    (start_date end_date : option string) : task (result nav_page) :=
  fun w =>
  let cache_key := history_key code page per_page start_date end_date in
  if cache_contains (_history_cache w) (timer w) cache_key
  then (Return (cache_getitem (_history_cache w) (timer w + lapse w) cache_key), w)
  else
    (Await (history_request code page per_page start_date end_date)
       (fun answer w =>
          match try_except (history_body cache_key page per_page answer w) (fun _ => None) with
          | Some (result, w') => (Ok result, w')
          | None => (Ok (empty_page page per_page), w)
          end),
     w).

(** ** get_stock_quotes *)

(** The body of the loop that builds [secids]. *)
Definition secid (code : string) : string :=
  if startswith code "6" || startswith code "5" || startswith code "9"
  then "1." +:+ code
  else "0." +:+ code.

Definition quote_request (stock_codes : list string) : request :=
  mk_request STOCK_QUOTE_URL
    [("fltt", "2");
     ("invt", "2");
     ("fields", "f2,f3,f12,f14");
     ("secids", join "," (map secid stock_codes))]
    [].

(** [result[code] = v] for a key that came out of the payload: a [list] or
    a [dict] cannot be hashed. *)
Fixpoint assoc_set (k : json F) (v : F) (d : list (json F * F)) : list (json F * F) :=
  match d with
  | [] => [(k, v)]
  | (k', v') :: d' => if key_eqb k k' then (k', v) :: d' else (k', v') :: assoc_set k v d'
  end.

Definition setitem_by_key (d : list (json F * F)) (k : json F) (v : F)
  : result (list (json F * F)) :=
  match k with
  | JArr _ | JObj _ => Raise TypeError
  | _ => Ok (assoc_set k v d)
  end.

(** The loop body over [data["data"]["diff"]]. *)
Definition add_quote (acc : result (list (json F * F))) (item : json F)
  : result (list (json F * F)) :=
  acc <- acc ;;
  code <- get_default item "f12" (JStr "") ;;
  change <- get item "f3" ;;
  match change with
  | Some change =>
      if truthy code && negb (match change with JNull => true | _ => false end)
      then (v <- py_float change ;; setitem_by_key acc code v)
      else Ok acc
  | None => Ok acc
  end.

Definition quotes_of (data : json F) : result (list (json F * F)) :=
  d <- get data "data" ;;
  if truthy (default JNull d) then
    diff <- get (default JNull d) "diff" ;;
    if truthy (default JNull diff) then
      items <- iter (default JNull diff) ;;
      fold_left add_quote items (Ok [])
    else Ok []
  else Ok [].

(** The [try] block of [get_stock_quotes] from the answer on. *)
Definition quotes_body (answer : result response) : result (option (list (json F * F))) :=
  response <- answer ;;
  if status_code response =? 200 then
    data <- json_loads (text response) ;;
    result <- quotes_of data ;;
    Ok (Some result)
  else Ok None.

Definition get_stock_quotes (stock_codes : list string) : task (list (json F * F)) :=
  fun w =>
  match stock_codes with
  | [] => (Return [], w)
  | _ =>
      (Await (quote_request stock_codes)
         (fun answer w =>
            (default [] (try_except (quotes_body answer) (fun _ => None)), w)),
       w)
  end.

(** ** get_fund_sector *)

Definition sector_keywords : list (string * list string) :=
  [
    ("光伏", ["光伏"; "太阳能"]);
    ("锂电", ["锂电"; "锂电池"; "动力电池"; "电池"]);
    ("储能", ["储能"]);
    ("新能源车", ["新能源车"; "新能源汽车"; "智能汽车"; "智能驾驶"; "电动车"]);
    ("新能源", ["新能源"; "清洁能源"; "绿色能源"; "碳中和"]);
    ("半导体", ["半导体"; "芯片"; "集成电路"]);
    ("人工智能", ["人工智能"; "AI"; "机器人"; "智能制造"]);
    ("云计算", ["云计算"; "大数据"; "数据中心"]);
    ("软件", ["软件"; "计算机"; "信息技术"]);
    ("通信", ["通信"; "5G"; "物联网"]);
    ("互联网", ["互联网"; "数字经济"; "电子商务"]);
    ("电子", ["电子"; "消费电子"]);
    ("科技", ["科技"; "科创"; "创新"]);
    ("创新药", ["创新药"; "生物医药"; "生物制药"]);
    ("医疗器械", ["医疗器械"; "医疗设备"]);
    ("中药", ["中药"; "中医"]);
    ("医疗服务", ["医疗服务"; "医疗健康"]);
    ("医药", ["医药"; "医疗"; "生物"; "健康"; "养老"]);
    ("白酒", ["白酒"; "酒"]);
    ("食品饮料", ["食品"; "饮料"; "乳业"; "调味品"]);
    ("家电", ["家电"; "家居"]);
    ("汽车", ["汽车"; "整车"]);
    ("零售", ["零售"; "商贸"; "电商"]);
    ("旅游", ["旅游"; "酒店"; "餐饮"; "免税"]);
    ("品牌消费", ["品牌"; "奢侈品"; "纺织服装"]);
    ("消费", ["消费"; "内需"]);
    ("银行", ["银行"]);
    ("证券", ["证券"; "券商"; "非银"]);
    ("保险", ["保险"]);
    ("地产", ["地产"; "房地产"; "基建"]);
    ("金融", ["金融"]);
    ("高端制造", ["高端制造"; "先进制造"; "装备制造"]);
    ("机械", ["机械"; "工程机械"]);
    ("化工", ["化工"; "材料"; "新材料"; "稀土"]);
    ("钢铁", ["钢铁"; "有色"; "煤炭"]);
    ("制造", ["制造"; "工业"]);
    ("航空航天", ["航空"; "航天"; "商业航天"; "卫星"]);
    ("军工装备", ["军工装备"; "国防装备"]);
    ("船舶", ["船舶"; "海洋"; "海工"]);
    ("军工", ["军工"; "国防"]);
    ("养殖", ["养殖"; "畜牧"; "猪"; "鸡"]);
    ("种植", ["种植"; "种业"; "粮食"]);
    ("农业", ["农业"; "农产品"]);
    ("煤炭", ["煤炭"]);
    ("石油", ["石油"; "油气"; "天然气"]);
    ("电力", ["电力"; "公用事业"; "水电"; "火电"; "核电"]);
    ("资源", ["资源"; "能源"]);
    ("港股", ["港股"; "恒生"; "H股"]);
    ("美股", ["美股"; "纳斯达克"; "标普"]);
    ("QDII", ["QDII"; "海外"; "全球"]);
    ("红利", ["红利"; "高股息"; "分红"]);
    ("价值", ["价值"; "蓝筹"; "龙头"]);
    ("成长", ["成长"]);
    ("量化", ["量化"]);
    ("指数", ["指数"; "ETF"; "LOF"]);
    ("债券", ["债券"; "纯债"; "信用债"; "利率债"; "可转债"]);
    ("货币", ["货币"; "现金"])
  ].

(** [for kw in keywords: if kw in name: return sector] *)
Definition matches (name : string) (keywords : list string) : bool :=
  existsb (fun kw => str_in kw name) keywords.

(** [for sector, keywords in sector_keywords: ...]; [None] when the loop
    ends without a [return]. *)
Fixpoint scan (name : string) (table : list (string * list string)) : option string :=
  match table with
  | [] => None
  | (sector, keywords) :: table' =>
      if matches name keywords then Some sector else scan name table'
  end.

(** [get_fund_sector] from the point where [get_fund_detail(code)] has
    answered [detail]. *)
Definition get_fund_sector (detail : option fund_detail) : string :=
  match detail with
  | Some detail =>
      let name := d_name detail in
      default "综合" (scan name sector_keywords)
  | None => "综合"
  end.

(** ** Vocabulary for the statements about the client *)

(** The first character of [code] is one of 6, 5, 9. *)
Definition first_is_659 (code : string) : Prop :=
  exists c rest, code = String c rest /\
    (c = "6"%char \/ c = "5"%char \/ c = "9"%char).

(** [kw] is a substring of [s]. *)
Definition substring_of (kw s : string) : Prop :=
  exists a b, s = a +:+ kw +:+ b.

(** Some keyword of the tuple is a substring of [name]. *)
Definition tuple_matches (name : string) (tuple : string * list string) : Prop :=
  exists kw, kw ∈ snd tuple /\ substring_of kw name.

(** The client at a later call: the clock reads [t] when the call tests the
    cache and [t + d] when it indexes it; the network answers as [net]. *)
Definition later (t d : Z) (net : request -> result response) (w : client) : client :=
  mk_client t d (_realtime_cache w) (_history_cache w) net (sent w).

(** The payload carries [ErrCode] equal to 0. *)
Definition err_code_is_zero (data : json F) : bool :=
  match get data "ErrCode" with
  | Ok err => eq_zero (default JNull err)
  | Raise _ => false
  end.

(** What a single [await get_fund_estimate(code)] yields in [w]. *)
Definition estimate (code : string) (w : client) : result (option quote) :=
  fst (run (get_fund_estimate code) w).

(** The coroutine [get_fund_estimate code] started in [w], at its
    suspension or at its end. *)
Definition pending (code : string) (w : client) : coro (result (option quote)) :=
  fst (get_fund_estimate code w).

(** What a hit of [get_fund_estimate] answers: the value the cache holds
    at the second reading of the clock, or [KeyError]. *)
Definition hit_answer (code : string) (w : client) : result (option quote) :=
  v <- cache_getitem (_realtime_cache w) (timer w + lapse w) (estimate_key code) ;;
  Ok (Some v).

(** Two clients that differ in the log of requests only. *)
Definition same_state (w w' : client) : Prop :=
  timer w' = timer w /\ lapse w' = lapse w /\
  _realtime_cache w' = _realtime_cache w /\ network w' = network w.

(** Two clients with the same network and the same cache capacity. *)
Definition same_env (w w' : client) : Prop :=
  network w' = network w /\
  maxsize (_realtime_cache w') = maxsize (_realtime_cache w).

(** The quote a single call yields, if it yields one. *)
Definition quote_of (code : string) (w : client) : option quote :=
  match estimate code w with
  | Ok (Some q) => Some q
  | _ => None
  end.


(** ** More vocabulary *)

(** The labels of the first [n] tuples of the table of [get_fund_sector]. *)
Definition labels_upto (n : nat) : list string := map fst (take n sector_keywords).

(** The codes of a batch that miss the quote cache, hence go to the
    network. *)
Definition uncached (codes : list string) (w : client) : list string :=
  List.filter
    (fun code => negb (cache_contains (_realtime_cache w) (timer w) (estimate_key code)))
    codes.
End Client.

Arguments Return {F A} a.
Arguments Await {F A} req k.
Arguments quote F : clear implicits.
Arguments nav_record F : clear implicits.
Arguments nav_page F : clear implicits.
Arguments fund_detail F : clear implicits.
Arguments client F : clear implicits.

(** ** search_funds *)

(** The methods of [str] the search leaves to the library. *)
Class PyStr : Type := {
  (** [s.lower()] *)
  str_lower : string -> string;
}.

Section Search.

Context {F : Type} `{PyFloat F} `{PyStr}.

(** [x.lower()]: only a [str] has the method. *)
Definition lower (x : json F) : result string :=
  match x with
  | JStr s => Ok (str_lower s)
  | _ => Raise AttributeError
  end.

(** The condition of the loop; [or] evaluates its right operand only when
    the left one is false. *)
Definition fund_matches (keyword_lower : string) (fund : json F) : result bool :=
  code <- IntradayStore.getitem fund "code" ;;
  code <- lower code ;;
  if str_in keyword_lower code then Ok true
  else
    name <- IntradayStore.getitem fund "name" ;;
    name <- lower name ;;
    if str_in keyword_lower name then Ok true
    else
      abbr <- get_default fund "abbr" (JStr "") ;;
      abbr <- lower abbr ;;
      Ok (str_in keyword_lower abbr).

(** [for fund in all_funds: ...], with its [break]. *)
Fixpoint search_loop (keyword_lower : string) (limit : Z)
    (all_funds matched : list (json F)) : result (list (json F)) :=
  match all_funds with
  | [] => Ok matched
  | fund :: rest =>
      m <- fund_matches keyword_lower fund ;;
      if m then
        let matched := matched ++ [fund] in
        if limit <=? Z.of_nat (length matched) then Ok matched
        else search_loop keyword_lower limit rest matched
      else search_loop keyword_lower limit rest matched
  end.

(** [search_funds] from the point where [get_fund_list()] has answered
    [all_funds]. *)
Definition search_funds (all_funds : list (json F)) (keyword : string) (limit : Z)
  : result (list (json F)) :=
  let keyword_lower := str_lower keyword in
  search_loop keyword_lower limit all_funds [].

(** The entry [get_fund_list] builds from an item. *)
Definition fund_entry (code abbr name type : json F) : json F :=
  JObj [("code", code); ("abbr", abbr); ("name", name); ("type", type)].

(** The fund matches the keyword, and testing it raises nothing. *)
Definition hit (keyword_lower : string) (fund : json F) : bool :=
  match fund_matches keyword_lower fund with
  | Ok true => true
  | _ => false
  end.

(** The test of the loop goes through on [fund]. *)
Definition searchable (keyword_lower : string) (fund : json F) : Prop :=
  exists b, fund_matches keyword_lower fund = Ok b.

End Search.

(** ** get_fund_holdings *)

(** What the holdings page leaves to [re] and [str]. *)
Class PyHtml : Type := {
  (** group 1 of [re.search(r"<tbody>(.*?)</tbody>", text, re.DOTALL)] *)
  search_tbody : string -> option string;
  (** [re.findall(r"<tr>(.*?)</tr>", tbody, re.DOTALL)] *)
  findall_rows : string -> list string;
  (** group 1 of [re.search(r"<td class='tol'><a[^>]*>([^<]+)</a></td>", row)] *)
  search_stock_name : string -> option string;
  (** group 1 of [re.search(r"<td><a[^>]*>(\d+)</a></td>", row)] *)
  search_stock_code : string -> option string;
  (** [re.findall(r"<td class='tor'>([^<]*%?)</td>", row)] *)
  findall_ratios : string -> list string;
  (** [s.strip()] *)
  strip : string -> string;
}.

Section Holdings.

Context {F : Type} `{PyFloat F} `{PyText F} `{PyHtml}.

Definition FUND_HOLDINGS_URL : string :=
  "https://fundf10.eastmoney.com/FundArchivesDatas.aspx".

(** The [dict] appended to [holdings]; [ratio] is the [int] 0 or a
    [float]. *)
Record holding : Type := mk_holding {
  stock_name : string;
  stock_code : string;
  ratio : json F;
}.

(** A holding after [holding["change"] = ...]. *)
Record holding_quote : Type := mk_holding_quote {
  hq_holding : holding;
  hq_change : option F;
}.

(** [match.replace("%", "")] *)
Fixpoint remove_percent (s : string) : string :=
  match s with
  | EmptyString => EmptyString
  | String c s' =>
      if Ascii.eqb c "%"%char then remove_percent s' else String c (remove_percent s')
  end.

(** The loop over [ratio_matches]: the first cell with a percent sign that
    [float] accepts; 0 when there is none. *)
Fixpoint ratio_of (ratio_matches : list string) : json F :=
  match ratio_matches with
  | [] => JInt 0
  | m :: rest =>
      if str_in "%" m then
        match float_of_str (remove_percent m) with
        | Ok f => JFloat f
        | Raise _ => ratio_of rest
        end
      else ratio_of rest
  end.

(** The body of the loop over [rows]; [None] where the row adds nothing. *)
Definition holding_of_row (row : string) : option holding :=
  match search_stock_name row with
  | None => None
  | Some group1 =>
      let stock_name := strip group1 in
      let stock_code := default "" (search_stock_code row) in
      let ratio := ratio_of (findall_ratios row) in
      if negb (String.eqb stock_name "")
      then Some (mk_holding stock_name stock_code ratio)
      else None
  end.

(** [holdings] when the status is 200. *)
Definition holdings_of (text : string) : list holding :=
  match search_tbody text with
  | Some tbody => omap holding_of_row (findall_rows tbody)
  | None => []
  end.

(** The [try] block of [get_fund_holdings] from the answer on. *)
Definition holdings_body (answer : result response) : result (option (list holding)) :=
  response <- answer ;;
  if status_code response =? 200
  then Ok (Some (take 10 (holdings_of (text response))))
  else Ok None.

Definition holdings_request (code : string) : request :=
  mk_request FUND_HOLDINGS_URL [("type", "jjcc"); ("code", code); ("topline", "10")] [].

Definition get_fund_holdings (code : string) : @task F (list holding) :=
  fun w =>
  (Await (holdings_request code)
     (fun answer w => (default [] (try_except (holdings_body answer) (fun _ => None)), w)),
   w).

(** ** get_fund_holdings_with_quotes *)

(** [quotes.get(stock_code)] *)
Fixpoint quotes_get (quotes : list (json F * F)) (k : json F) : option F :=
  match quotes with
  | [] => None
  | (k', v) :: quotes' => if key_eqb k k' then Some v else quotes_get quotes' k
  end.

(** [[h["stock_code"] for h in holdings if h.get("stock_code")]] *)
Definition codes_of_holdings (holdings : list holding) : list string :=
  omap (fun h => if negb (String.eqb (stock_code h) "") then Some (stock_code h) else None)
    holdings.

(** The coroutine awaits [get_fund_holdings] and then, if there are
    holdings, [get_stock_quotes]; the two calls run one after the other. *)
Definition get_fund_holdings_with_quotes (code : string) (w : client F)
  : list holding_quote * client F :=
  let (holdings, w1) := run (get_fund_holdings code) w in
  match holdings with
  | [] => ([], w1)
  | _ =>
      let stock_codes := codes_of_holdings holdings in
      let (quotes, w2) := run (get_stock_quotes stock_codes) w1 in
      (map (fun h => mk_holding_quote h (quotes_get quotes (JStr (stock_code h)))) holdings,
       w2)
  end.

End Holdings.

Arguments holding F : clear implicits.
Arguments holding_quote F : clear implicits.

(** ** get_fund_detail *)

(** The regular expressions of [get_fund_detail], each by the group it
    captures in the page. *)
Class PyDetailHtml : Type := {
  (** the name: the text of the [div] inside the [div] of class
      [fundDetail-tit] *)
  search_fund_name : string -> option string;
  (** the type: the text of the link after the label of the type *)
  search_fund_type : string -> option string;
  (** the scale: the number before the unit, digits with an optional
      fraction *)
  search_scale : string -> option string;
  (** the manager: the text of the link after the label of the manager *)
  search_manager : string -> option string;
  (** the company: the text of the link after the label of the company *)
  search_company : string -> option string;
  (** the change of a period: the run of digits, dots and minus signs before
      the percent sign, for the pattern that [change_patterns] pairs with
      the key *)
  search_change : string -> string -> option string;
}.

Section Detail.

Context {F : Type} `{PyFloat F} `{PyDetailHtml}.

(** The keys of [change_patterns], in its order. *)
Definition change_keys : list string :=
  ["change_1m"; "change_3m"; "change_6m"; "change_1y"; "change_3y";
   "change_since_establish"].

(** The body of the loop over [change_patterns]. *)
Definition add_period_change (html : string) (changes : result (list (string * F)))
    (key : string) : result (list (string * F)) :=
  changes <- changes ;;
  match search_change key html with
  | Some group1 => f <- float_of_str group1 ;; Ok (dict_set key f changes)
  | None => Ok changes
  end.

(** [result] when the status is 200. *)
Definition detail_of (code html : string) : result (fund_detail F) :=
  let name := default "" (search_fund_name html) in
  let fund_type := default "" (search_fund_type html) in
  scale <- match search_scale html with
           | Some group1 => f <- float_of_str group1 ;; Ok (Some f)
           | None => Ok None
           end ;;
  let manager := default "" (search_manager html) in
  let company := default "" (search_company html) in
  changes <- fold_left (add_period_change html) change_keys (Ok []) ;;
  Ok (mk_fund_detail code name fund_type company manager scale changes).

(** The [try] block of [get_fund_detail] from the answer on. *)
Definition detail_body (code : string) (answer : result response)
  : result (option (fund_detail F)) :=
  response <- answer ;;
  if status_code response =? 200
  then (result <- detail_of code (text response) ;; Ok (Some result))
  else Ok None.

(** [f"https://fund.eastmoney.com/{code}.html"] *)
Definition detail_request (code : string) : request :=
  mk_request ("https://fund.eastmoney.com/" +:+ code +:+ ".html") [] [].

(** [get_fund_detail] from the answer of its request on, for a call that
    finds nothing in the cache of details. *)
Definition detail_resume (code : string) (answer : result response)
  : option (fund_detail F) :=
  try_except (detail_body code answer) (fun _ => None).

(** The pattern of [key] finds something in the page. *)
Definition period_found (html key : string) : bool :=
  match search_change key html with Some _ => true | None => false end.

End Detail.

End EastMoneyClient.

(* ===================================================================== *)
(** * A concrete runtime for the worked examples                          *)
(* ===================================================================== *)

(** The general statements below hold for every implementation of the
    library functions.  The worked examples run on this one: floats are
    integers, dates and timestamps are read in the zero-padded forms that
    [strftime] and [isoformat] print, and JSON texts are read without
    escapes, fractions or white space. *)

Module Reference.
Import Py.

Definition digit_val (c : ascii) : option Z :=
  let n := nat_of_ascii c in
  if (48 <=? n)%nat && (n <=? 57)%nat then Some (Z.of_nat (n - 48)) else None.

Fixpoint digits_from (acc : Z) (s : list ascii) : option Z :=
  match s with
  | [] => Some acc
  | c :: s' =>
      match digit_val c with
      | Some d => digits_from (acc * 10 + d) s'
      | None => None
      end
  end.

(** A non-empty run of decimal digits. *)
Definition parse_digits (s : string) : option Z :=
  match list_ascii_of_string s with
  | [] => None
  | l => digits_from 0 l
  end.

Definition char_at (i : nat) (s : string) (c : ascii) : bool :=
  match String.get i s with
  | Some c' => Ascii.eqb c c'
  | None => false
  end.

Definition field (i n : nat) (s : string) : option Z := parse_digits (substring i n s).

Definition valid_date (y m d : Z) : bool :=
  (1 <=? y) && (y <=? 9999) && (1 <=? m) && (m <=? 12) &&
  (1 <=? d) && (d <=? days_in_month y m).

(** [YYYY-MM-DD] *)
Definition read_date (s : string) : option date :=
  if (String.length s =? 10)%nat && char_at 4 s "-" && char_at 7 s "-" then
    y ← field 0 4 s; m ← field 5 2 s; d ← field 8 2 s;
    if valid_date y m d then Some (mk_date y m d) else None
  else None.

(** [HH:MM:SS] *)
Definition read_time (s : string) (us : Z) : option time :=
  if (String.length s =? 8)%nat && char_at 2 s ":" && char_at 5 s ":" then
    h ← field 0 2 s; m ← field 3 2 s; sec ← field 6 2 s;
    if (h <? 24) && (m <? 60) && (sec <? 60) then Some (mk_time h m sec us) else None
  else None.

(** [YYYY-MM-DDTHH:MM:SS], optionally followed by [.ffffff], or by an
    offset [+HH:MM], which makes the result aware. *)
Definition read_iso (s : string) : iso_parse :=
  let n := String.length s in
  match read_date (substring 0 10 s), read_time (substring 11 8 s) 0 with
  | Some d, Some t =>
      if negb (char_at 10 s "T") then IsoInvalid
      else if (n =? 19)%nat then IsoNaive (mk_datetime d t)
      else if (n =? 26)%nat && char_at 19 s "." then
        match field 20 6 s with
        | Some us => IsoNaive (mk_datetime d (mk_time (hour t) (minute t) (second t) us))
        | None => IsoInvalid
        end
      else if (n =? 25)%nat && char_at 19 s "+" && char_at 22 s ":" then
        match field 20 2 s, field 23 2 s with
        | Some _, Some _ => IsoAware (mk_datetime d t)
        | _, _ => IsoInvalid
        end
      else IsoInvalid
  | _, _ => IsoInvalid
  end.

#[export] Instance float_Z : PyFloat Z := {
  float_is_zero z := z =? 0;
  float_of_int z := Ok z;
  float_of_str s :=
    match parse_digits s with
    | Some z => Ok z
    | None => Raise ValueError
    end;
}.

#[export] Instance datetime_ref : PyDatetime := {
  fromisoformat := read_iso;
  strptime_ymd := read_date;
}.

(** ** JSON texts *)

Definition dq : ascii := "034"%char.

(** [quoted s] is [s] between double quotes. *)
Definition quoted (s : string) : string :=
  String dq (s +:+ String dq EmptyString).

Fixpoint take_string (acc s : list ascii) : option (string * list ascii) :=
  match s with
  | [] => None
  | c :: s' =>
      if Ascii.eqb c dq then Some (string_of_list_ascii (rev acc), s')
      else take_string (c :: acc) s'
  end.

Fixpoint take_digits (acc : Z) (s : list ascii) : Z * list ascii :=
  match s with
  | [] => (acc, [])
  | c :: s' =>
      match digit_val c with
      | Some d => take_digits (acc * 10 + d) s'
      | None => (acc, s)
      end
  end.

Definition is_digit (c : ascii) : bool :=
  match digit_val c with Some _ => true | None => false end.

Fixpoint read_value (fuel : nat) (s : list ascii) : option (json Z * list ascii) :=
  match fuel with
  | O => None
  | S fuel' =>
      match s with
      | "{"%char :: "}"%char :: s' => Some (JObj [], s')
      | "{"%char :: s' => '(kv, s'') ← read_members fuel' s'; Some (JObj kv, s'')
      | "["%char :: "]"%char :: s' => Some (JArr [], s')
      | "["%char :: s' => '(l, s'') ← read_elements fuel' s'; Some (JArr l, s'')
      | "n"%char :: "u"%char :: "l"%char :: "l"%char :: s' => Some (JNull, s')
      | "t"%char :: "r"%char :: "u"%char :: "e"%char :: s' => Some (JBool true, s')
      | "f"%char :: "a"%char :: "l"%char :: "s"%char :: "e"%char :: s' =>
          Some (JBool false, s')
      | "-"%char :: c :: s' =>
          if is_digit c then let (z, s'') := take_digits 0 (c :: s') in Some (JInt (- z), s'')
          else None
      | c :: s' =>
          if Ascii.eqb c dq then '(str, s'') ← take_string [] s'; Some (JStr str, s'')
          else if is_digit c then let (z, s'') := take_digits 0 s in Some (JInt z, s'')
          else None
      | [] => None
      end
  end
with read_members (fuel : nat) (s : list ascii)
  : option (list (string * json Z) * list ascii) :=
  match fuel with
  | O => None
  | S fuel' =>
      match s with
      | c :: s1 =>
          if Ascii.eqb c dq then
            '(k, s2) ← take_string [] s1;
            match s2 with
            | ":"%char :: s3 =>
                '(v, s4) ← read_value fuel' s3;
                match s4 with
                | ","%char :: s5 =>
                    '(kv, s6) ← read_members fuel' s5;
                    Some (if dict_mem k kv then kv else (k, v) :: kv, s6)
                | "}"%char :: s5 => Some ([(k, v)], s5)
                | _ => None
                end
            | _ => None
            end
          else None
      | [] => None
      end
  end
with read_elements (fuel : nat) (s : list ascii)
  : option (list (json Z) * list ascii) :=
  match fuel with
  | O => None
  | S fuel' =>
      '(v, s1) ← read_value fuel' s;
      match s1 with
      | ","%char :: s2 => '(l, s3) ← read_elements fuel' s2; Some (v :: l, s3)
      | "]"%char :: s2 => Some ([v], s2)
      | _ => None
      end
  end.

Definition read_json (s : string) : result (json Z) :=
  let l := list_ascii_of_string s in
  match read_value (S (length l)) l with
  | Some (v, []) => Ok v
  | _ => Raise JSONDecodeError
  end.

(** The payload of a text of the form [jsonpgz(...);]. *)
Definition read_jsonpgz (s : string) : option string :=
  let n := String.length s in
  if String.prefix "jsonpgz(" s && (10 <=? n)%nat &&
     String.eqb (substring (n - 2) 2 s) ");"
  then Some (substring 8 (n - 10) s)
  else None.

(** Equality of the values a [dict] takes as keys. *)
Definition as_number (j : json Z) : option Z :=
  match j with
  | JInt z | JFloat z => Some z
  | JBool b => Some (if b then 1 else 0)
  | _ => None
  end.

Definition key_eq (a b : json Z) : bool :=
  match a, b with
  | JStr x, JStr y => String.eqb x y
  | JNull, JNull => true
  | _, _ =>
      match as_number a, as_number b with
      | Some x, Some y => x =? y
      | _, _ => false
      end
  end.

#[export] Instance text_ref : EastMoneyClient.PyText Z := {
  EastMoneyClient.json_loads := read_json;
  EastMoneyClient.search_jsonpgz := read_jsonpgz;
  EastMoneyClient.key_eqb := key_eq;
}.

(** ** Worlds of the worked examples: 1 March 2024 *)

Import IntradayStore.

Definition on_2024_03_01 (h m s : Z) : datetime :=
  mk_datetime (mk_date 2024 3 1) (mk_time h m s 0).

(** Every file can be removed. *)
Definition removals_succeed : string -> bool := fun _ => false.

(** Today's artifact with one sample, written at the given instant. *)
Definition artifact (last_update : string) : json Z :=
  JObj [("date", JStr "2024-03-01");
        ("last_update", JStr last_update);
        ("funds", JObj [("000001", JArr [point "08:49:58" 12])])].

(** A store that holds [doc] as today's artifact, at time [t], with the
    file system answering [o] to a write. *)
Definition store_with (doc : json Z) (t : datetime) (o : fs_write) : world Z :=
  mk_world t {[ "2024-03-01.json" := Doc doc ]} o removals_succeed.

(** A directory for the retention sweep: artifacts of 10 and of 3 days ago,
    today's artifact, a file whose name is no date, and a file that is no
    [.json]. *)
Definition sweep_dir : world Z :=
  mk_world (on_2024_03_01 12 0 0)
    (<[ "2024-02-20.json" := Doc (JObj []) ]>
     (<[ "2024-02-27.json" := Doc (JObj []) ]>
      (<[ "2024-03-01.json" := Doc (artifact "2024-03-01T10:00:00") ]>
       (<[ "notes.json" := Unreadable ]>
        {[ "2024-02-20.txt" := Unreadable ]}))))
    WriteOk removals_succeed.

(** The same directory, in which the artifact of 10 days ago cannot be
    removed. *)
Definition locked_dir : world Z :=
  mk_world (now sweep_dir) (disk sweep_dir) WriteOk
    (fun name => String.eqb name "2024-02-20.json").

(** ** A network for the worked examples *)

Import EastMoneyClient.

(** [jsonpgz({"fundcode":code,"name":"Fund","dwjz":"10","gsz":"12","gszzl":"3"});] *)
Definition estimate_text (code : string) : string :=
  "jsonpgz({" +:+ quoted "fundcode" +:+ ":" +:+ quoted code +:+ "," +:+
  quoted "name" +:+ ":" +:+ quoted "Fund" +:+ "," +:+
  quoted "dwjz" +:+ ":" +:+ quoted "10" +:+ "," +:+
  quoted "gsz" +:+ ":" +:+ quoted "12" +:+ "," +:+
  quoted "gszzl" +:+ ":" +:+ quoted "3" +:+ "});".

(** [{"ErrCode":0,"TotalCount":1,"Data":{"LSJZList":[{"FSRQ":"2024-02-29","DWJZ":"10"}]}}] *)
Definition history_text : string :=
  "{" +:+ quoted "ErrCode" +:+ ":0," +:+ quoted "TotalCount" +:+ ":1," +:+
  quoted "Data" +:+ ":{" +:+ quoted "LSJZList" +:+ ":[{" +:+
  quoted "FSRQ" +:+ ":" +:+ quoted "2024-02-29" +:+ "," +:+
  quoted "DWJZ" +:+ ":" +:+ quoted "10" +:+ "}]}}".

(** [{"ErrCode":-999}] *)
Definition history_error_text : string := "{" +:+ quoted "ErrCode" +:+ ":-999}".

(** The funds 000001 and 000003 are served; every request about 000002
    fails to connect; the history of 000004 comes with an error code, that
    of 000005 with a body that is no JSON; anything else is not found. *)
Definition net (req : request) : result response :=
  if String.eqb (url req) (FUND_ESTIMATE_URL "000001") then
    Ok (mk_response 200 (estimate_text "000001"))
  else if String.eqb (url req) (FUND_ESTIMATE_URL "000003") then
    Ok (mk_response 200 (estimate_text "000003"))
  else if String.eqb (url req) (FUND_ESTIMATE_URL "000002") then Raise ConnectError
  else if String.eqb (url req) FUND_NAV_HISTORY_URL then
    match dict_get "fundCode" (params req) with
    | Some "000001" => Ok (mk_response 200 history_text)
    | Some "000002" => Raise ConnectError
    | Some "000004" => Ok (mk_response 200 history_error_text)
    | Some "000005" => Ok (mk_response 200 "<html>busy</html>")
    | _ => Ok (mk_response 404 "")
    end
  else Ok (mk_response 404 "").

(** A client that has just been constructed, its clock at [t] and standing
    still during a call; the quote cache lives 10 seconds, the history
    cache an hour. *)
Definition client_at (t : Z) : client Z :=
  mk_client t 0 (mk_cache 500 10 false []) (mk_cache 100 3600 false []) net [].

(** The quote the network holds for a served fund. *)
Definition served (code : string) : quote Z :=
  mk_quote (JStr code) (JStr "Fund") (Some 10) (JStr "") (Some 12) (Some 3) (JStr "").


(** ** A network that serves stock quotes *)

(** [{"data":{"diff":[{"f12":"600519","f3":1},{"f12":"000858","f3":CHANGE}]}}] *)
Definition quotes_text (change : string) : string :=
  "{" +:+ quoted "data" +:+ ":{" +:+ quoted "diff" +:+ ":[{" +:+
  quoted "f12" +:+ ":" +:+ quoted "600519" +:+ "," +:+ quoted "f3" +:+ ":1},{" +:+
  quoted "f12" +:+ ":" +:+ quoted "000858" +:+ "," +:+ quoted "f3" +:+ ":" +:+ change +:+
  "}]}}".

(** The quote endpoint answers with [body]; everything else is as in
    [net]. *)
Definition quote_net (body : string) (req : request) : result response :=
  if String.eqb (url req) STOCK_QUOTE_URL then Ok (mk_response 200 body) else net req.

Definition quote_client (body : string) : client Z :=
  mk_client 0 0 (mk_cache 500 10 false []) (mk_cache 100 3600 false []) (quote_net body) [].

(** ** Lower case and HTML for the worked examples *)

(** [str.lower] on the letters A to Z; every other byte is left as it
    is. *)
Definition lower_ascii (c : ascii) : ascii :=
  let n := nat_of_ascii c in
  if (65 <=? n)%nat && (n <=? 90)%nat then ascii_of_nat (n + 32) else c.

Fixpoint lower_str (s : string) : string :=
  match s with
  | EmptyString => EmptyString
  | String c s' => String (lower_ascii c) (lower_str s')
  end.

#[export] Instance str_ref : PyStr := {
  str_lower := lower_str;
}.

(** The text before and the text after the first occurrence of [pat]. *)
Fixpoint split_at (pat s : string) : option (string * string) :=
  if String.prefix pat s
  then Some (EmptyString, substring (String.length pat) (String.length s - String.length pat) s)
  else
    match s with
    | EmptyString => None
    | String c s' => '(a, b) ← split_at pat s'; Some (String c a, b)
    end.

(** The text between the first [opening] and the first [closing] after it,
    and what follows. *)
Definition between (opening closing s : string) : option (string * string) :=
  '(_, s1) ← split_at opening s; split_at closing s1.

Fixpoint all_between (fuel : nat) (opening closing s : string) : list string :=
  match fuel with
  | O => []
  | S fuel' =>
      match between opening closing s with
      | Some (m, rest) => m :: all_between fuel' opening closing rest
      | None => []
      end
  end.

(** The text of a link [<a ...>text</a></td>] that follows [opening]. *)
Definition link_after (opening row : string) : option string :=
  '(_, s1) ← split_at opening row;
  '(_, s2) ← split_at ">" s1;
  '(t, _) ← split_at "</a></td>" s2;
  if negb (String.eqb t "") && negb (str_in "<" t) then Some t else None.

Fixpoint strip_left (s : string) : string :=
  match s with
  | String " " s' => strip_left s'
  | _ => s
  end.

Definition rev_string (s : string) : string :=
  string_of_list_ascii (rev (list_ascii_of_string s)).

(** The regular expressions of [get_fund_holdings], read on rows that are
    well formed; [strip] removes blanks. *)
#[export] Instance html_ref : PyHtml := {
  search_tbody text := fst <$> between "<tbody>" "</tbody>" text;
  findall_rows tbody := all_between (String.length tbody) "<tr>" "</tr>" tbody;
  search_stock_name row := link_after "<td class='tol'><a" row;
  search_stock_code row :=
    t ← link_after "<td><a" row;
    match parse_digits t with Some _ => Some t | None => None end;
  findall_ratios row := all_between (String.length row) "<td class='tor'>" "</td>" row;
  strip s := rev_string (strip_left (rev_string (strip_left s)));
}.

(** A table of three rows: a stock with a code, a row without a link to a
    code, and a row whose name is blank. *)
Definition holdings_page : string :=
  "<table><tbody>" +:+
  "<tr><td>1</td><td><a href='a'>600519</a></td><td class='tol'><a href='b'> 贵州茅台 </a></td><td class='tor'>--</td><td class='tor'>9%</td></tr>" +:+
  "<tr><td>2</td><td>-</td><td class='tol'><a href='c'>某债券</a></td><td class='tor'>x%</td><td class='tor'>5%</td></tr>" +:+
  "<tr><td>3</td><td><a href='d'>000858</a></td><td class='tol'><a href='e'>  </a></td><td class='tor'>4%</td></tr>" +:+
  "</tbody></table>".

(** The holdings endpoint answers with [page], the quote endpoint as in
    [quote_net]. *)
Definition holdings_net (page : result response) (body : string) (req : request)
  : result response :=
  if String.eqb (url req) FUND_HOLDINGS_URL then page else quote_net body req.

Definition holdings_client (page : result response) (body : string) : client Z :=
  mk_client 0 0 (mk_cache 500 10 false []) (mk_cache 100 3600 false [])
    (holdings_net page body) [].

(** Three funds as [get_fund_list] builds them. *)
Definition three_funds : list (json Z) :=
  [fund_entry (JStr "000001") (JStr "HXCZHH") (JStr "华夏成长混合") (JStr "混合型");
   fund_entry (JStr "110022") (JStr "YFDXFHY") (JStr "易方达消费行业") (JStr "股票型");
   fund_entry (JStr "161725") (JStr "ZSZZBJ") (JStr "招商中证白酒") (JStr "指数型")].

(** ** A network with an odd estimate *)

(** [jsonpgz({"fundcode":"000007","gsz":GSZ});] *)
Definition odd_estimate_text (gsz : string) : string :=
  "jsonpgz({" +:+ quoted "fundcode" +:+ ":" +:+ quoted "000007" +:+ "," +:+
  quoted "gsz" +:+ ":" +:+ gsz +:+ "});".

(** The estimate of the fund 000007 is [body]; everything else is as in
    [net]. *)
Definition odd_net (body : string) (req : request) : result response :=
  if String.eqb (url req) (FUND_ESTIMATE_URL "000007")
  then Ok (mk_response 200 body) else net req.

Definition odd_client (body : string) : client Z :=
  mk_client 0 0 (mk_cache 500 10 false []) (mk_cache 100 3600 false []) (odd_net body) [].

(** ** A network with an odd history *)

(** [{"ErrCode":0,"TotalCount":2,"Data":{"LSJZList":[{"FSRQ":"2024-02-29","DWJZ":"10"},{"FSRQ":"2024-02-28","DWJZ":"10","JZZZL":CHANGE}]}}] *)
Definition odd_history_text (change : string) : string :=
  "{" +:+ quoted "ErrCode" +:+ ":0," +:+ quoted "TotalCount" +:+ ":2," +:+
  quoted "Data" +:+ ":{" +:+ quoted "LSJZList" +:+ ":[{" +:+
  quoted "FSRQ" +:+ ":" +:+ quoted "2024-02-29" +:+ "," +:+
  quoted "DWJZ" +:+ ":" +:+ quoted "10" +:+ "},{" +:+
  quoted "FSRQ" +:+ ":" +:+ quoted "2024-02-28" +:+ "," +:+
  quoted "DWJZ" +:+ ":" +:+ quoted "10" +:+ "," +:+
  quoted "JZZZL" +:+ ":" +:+ change +:+ "}]}}".

(** [{"ErrCode":0,"Data":null}] *)
Definition null_history_text : string :=
  "{" +:+ quoted "ErrCode" +:+ ":0," +:+ quoted "Data" +:+ ":null}".

(** The history endpoint answers with [body]; everything else is as in
    [net]. *)
Definition history_net (body : string) (req : request) : result response :=
  if String.eqb (url req) FUND_NAV_HISTORY_URL
  then Ok (mk_response 200 body) else net req.

Definition history_client (body : string) : client Z :=
  mk_client 0 0 (mk_cache 500 10 false []) (mk_cache 100 3600 false []) (history_net body) [].

(** ** A profile page for the worked examples *)

(** The text after the first [marker], up to the first [closing] behind
    it. *)
Definition after_until (marker closing html : string) : option string :=
  '(_, s1) ← split_at marker html; '(t, _) ← split_at closing s1; Some t.

(** The label that the pattern of a period looks for. *)
Definition period_label (key : string) : string :=
  if String.eqb key "change_1m" then "近1月："
  else if String.eqb key "change_3m" then "近3月："
  else if String.eqb key "change_6m" then "近6月："
  else if String.eqb key "change_1y" then "近1年："
  else if String.eqb key "change_3y" then "近3年："
  else "成立来：".

Definition title_opening : string :=
  "<div class=" +:+ quoted "fundDetail-tit" +:+ "><div>".

(** The patterns of [get_fund_detail], read on a page that is well formed
    and carries no class on its inner tags. *)
#[export] Instance detail_ref : PyDetailHtml := {
  search_fund_name html := after_until title_opening "</div>" html;
  search_fund_type html :=
    '(_, s1) ← split_at "类型：" html; '(_, s2) ← split_at "<a" s1;
    after_until ">" "</a>" s2;
  search_scale html :=
    '(s1, _) ← split_at "亿元" html; '(_, s2) ← split_at "规模：" s1;
    match parse_digits s2 with Some _ => Some s2 | None => None end;
  search_manager html :=
    '(_, s1) ← split_at "基金经理" html; '(_, s2) ← split_at "<a" s1;
    after_until ">" "</a>" s2;
  search_company html :=
    '(_, s1) ← split_at "管 理 人" html; '(_, s2) ← split_at "<a" s1;
    after_until ">" "</a>" s2;
  search_change key html := after_until (period_label key +:+ "</span><span>") "%" html;
}.

(** A profile page with the changes of one month and of three years. *)
Definition detail_page (three_years : string) : string :=
  title_opening +:+ "招商中证白酒指数</div></div>" +:+
  "<td>类型：<a href='t'>指数型</a></td><td>规模：120亿元</td>" +:+
  "<span>近1月：</span><span>2%</span>" +:+
  "<span>近3年：</span><span>" +:+ three_years +:+ "%</span>".
End Reference.

(* ===================================================================== *)
(** * Facts about the intraday store                                      *)
(* ===================================================================== *)

Module IntradayStoreSpec.
Import Py IntradayStore.

(** ** Dictionaries *)

Section DictFacts.

Context {V : Type}.

Lemma dict_get_set_eq (k : string) (v : V) (d : list (string * V)) :
  dict_get k (dict_set k v d) = Some v.
Proof.
  induction d as [|[k' v'] d IH]; simpl.
  - by rewrite String.eqb_refl.
  - destruct (String.eqb k k') eqn:E; simpl.
    + by rewrite String.eqb_refl.
    + by rewrite E.
Qed.

Lemma dict_get_set_ne (k k' : string) (v : V) (d : list (string * V)) :
  k <> k' -> dict_get k (dict_set k' v d) = dict_get k d.
Proof.
  intros Hne. induction d as [|[k'' v''] d IH]; simpl.
  - apply String.eqb_neq in Hne. by rewrite Hne.
  - destruct (String.eqb k' k'') eqn:E; simpl.
    + apply String.eqb_eq in E. subst k''.
      apply String.eqb_neq in Hne. by rewrite Hne.
    + by rewrite IH.
Qed.

End DictFacts.

(** ** Dates and times *)

Lemma date_cmp_refl (d : date) : date_cmp d d = Eq.
Proof. unfold date_cmp. by rewrite !Z.compare_refl. Qed.

Lemma date_cmp_eq (a b : date) : date_cmp a b = Eq -> a = b.
Proof.
  destruct a as [y m d], b as [y' m' d']. unfold date_cmp. simpl.
  destruct (y ?= y') eqn:Ey; try discriminate.
  destruct (m ?= m') eqn:Em; try discriminate.
  intros Ed. apply Z.compare_eq in Ey, Em, Ed. by subst.
Qed.

Lemma time_leb_us (a b : time) :
  valid_time a -> valid_time b ->
  time_leb a b = true <-> us_of_day a <= us_of_day b.
Proof.
  intros (Ha1 & Ha2 & Ha3 & Ha4) (Hb1 & Hb2 & Hb3 & Hb4).
  unfold time_leb, time_cmp, us_of_day, is_le.
  destruct (hour a ?= hour b) eqn:Eh;
    [ apply Z.compare_eq in Eh | rewrite Z.compare_lt_iff in Eh
    | rewrite Z.compare_gt_iff in Eh ];
    [ | split; [ intros _; nia | done ] | split; [ done | intros ?; nia ] ].
  destruct (minute a ?= minute b) eqn:Em;
    [ apply Z.compare_eq in Em | rewrite Z.compare_lt_iff in Em
    | rewrite Z.compare_gt_iff in Em ];
    [ | split; [ intros _; nia | done ] | split; [ done | intros ?; nia ] ].
  destruct (second a ?= second b) eqn:Es;
    [ apply Z.compare_eq in Es | rewrite Z.compare_lt_iff in Es
    | rewrite Z.compare_gt_iff in Es ];
    [ | split; [ intros _; nia | done ] | split; [ done | intros ?; nia ] ].
  destruct (microsecond a ?= microsecond b) eqn:Eu;
    [ apply Z.compare_eq in Eu | rewrite Z.compare_lt_iff in Eu
    | rewrite Z.compare_gt_iff in Eu ].
  - split; [ intros _; nia | done ].
  - split; [ intros _; nia | done ].
  - split; [ done | intros ?; nia ].
Qed.

Section StoreFacts.

Context {F : Type} `{PyFloat F} `{PyDatetime}.

Implicit Types (w : world F) (kv funds : list (string * json F)) (data : json F).

(** ** Staleness *)

(** The test of the code and the words of the specification agree. *)
Lemma stale_spec (last_update now : datetime) :
  stale last_update now = true <-> stale_by_spec last_update now.
Proof.
  unfold stale, stale_by_spec, date_ltb, datetime_leb, datetime_ltb, is_lt, is_le.
  set (clear := combine (dt_date now) CLEAR_TIME).
  destruct (date_cmp (dt_date last_update) (dt_date now)) eqn:Ed; simpl.
  - apply date_cmp_eq in Ed.
    destruct (datetime_cmp clear now) eqn:E1, (datetime_cmp last_update clear) eqn:E2;
      simpl; split; try done; try (intros _; right; done);
      intros [? | (_ & ? & ?)]; done.
  - split; [ intros _; by left | done ].
  - split.
    + destruct (datetime_cmp clear now); simpl; try done;
        unfold datetime_cmp, clear, combine; simpl; by rewrite Ed.
    + intros [? | (Heq & _)]; [ done | ].
      rewrite Heq, date_cmp_refl in Ed. done.
Qed.

(** What [_should_clear_data] answers on a document whose [last_update] is
    a string that parses to a naive datetime. *)
Lemma should_clear_naive w kv s last_update :
  dict_get "last_update" kv = Some (JStr s) ->
  s <> "" ->
  fromisoformat s = IsoNaive last_update ->
  _should_clear_data w (JObj kv) = Ok (stale last_update (now w)).
Proof.
  intros Hget Hs Hparse. unfold _should_clear_data. simpl. rewrite Hget. simpl.
  apply String.eqb_neq in Hs. rewrite Hs. simpl. rewrite Hparse. simpl.
  unfold stale. f_equal.
  destruct (date_ltb (dt_date last_update) (dt_date (now w))); simpl; [ done | ].
  destruct (datetime_leb _ (now w)); simpl; [ | done ].
  by destruct (datetime_ltb last_update _).
Qed.

Lemma should_clear_absent w kv :
  dict_get "last_update" kv = None -> _should_clear_data w (JObj kv) = Ok false.
Proof. intros Hget. unfold _should_clear_data. simpl. by rewrite Hget. Qed.

(** ** Reading *)

Lemma read_doc w data :
  disk w !! _get_today_file w = Some (Doc data) ->
  _read_intraday_data w =
    match _should_clear_data w data with
    | Ok false => data
    | _ => empty_data w
    end.
Proof.
  intros Hd. unfold _read_intraday_data. rewrite Hd. simpl.
  destruct (_should_clear_data w data) as [[|]|]; reflexivity.
Qed.

(** [_read_intraday_data] always hands out a [dict]. *)
Lemma read_is_dict w : exists kv, _read_intraday_data w = JObj kv.
Proof.
  unfold _read_intraday_data.
  destruct (disk w !! _get_today_file w) as [[data|]|]; simpl;
    try (eexists; reflexivity).
  destruct data; simpl; try (eexists; reflexivity).
  destruct (_should_clear_data w (JObj kv)) as [[|]|] eqn:E; simpl;
    eexists; reflexivity.
Qed.

Lemma collect_fold funds codes acc :
  fold_left (collect (JObj funds)) codes (Ok acc) =
  Ok (fold_left (fun acc code => dict_set code (stored funds code) acc) codes acc).
Proof.
  revert acc. induction codes as [|c codes IH]; intros acc; simpl; [ done | ].
  apply IH.
Qed.

Lemma fold_dict_set_get {V} (g : string -> V) codes (acc : list (string * V)) code :
  dict_get code (fold_left (fun acc c => dict_set c (g c) acc) codes acc) =
  if decide (code ∈ codes) then Some (g code) else dict_get code acc.
Proof.
  revert acc. induction codes as [|c codes IH]; intros acc; simpl.
  - destruct (decide (code ∈ [])) as [Hin|Hin]; [ by apply elem_of_nil in Hin | done ].
  - rewrite IH.
    destruct (decide (code ∈ codes)) as [Hin|Hnin].
    + rewrite decide_True; [ done | by right ].
    + destruct (decide (code = c)) as [->|Hne].
      * rewrite decide_True; [ | by left ]. apply dict_get_set_eq.
      * rewrite decide_False.
        -- by apply dict_get_set_ne.
        -- intros Hin. apply elem_of_cons in Hin as [? | ?]; done.
Qed.

Lemma batch_of_doc w funds codes :
  get_default (_read_intraday_data w) "funds" (JObj []) = Ok (JObj funds) ->
  exists r,
    get_funds_intraday_batch codes w = (Ok r, w) /\
    forall code, code ∈ codes -> dict_get code r = Some (stored funds code).
Proof.
  intros Hf. unfold get_funds_intraday_batch. rewrite Hf. simpl.
  rewrite collect_fold. eexists. split; [ reflexivity | ].
  intros code Hin. rewrite fold_dict_set_get. by rewrite decide_True.
Qed.


Lemma funds_of_empty w :
  get_default (empty_data w) "funds" (JObj []) = Ok (JObj []).
Proof. reflexivity. Qed.

Lemma intraday_of_doc w funds code :
  get_default (_read_intraday_data w) "funds" (JObj []) = Ok (JObj funds) ->
  get_fund_intraday code w = (Ok (stored funds code), w).
Proof. intros Hf. unfold get_fund_intraday. by rewrite Hf. Qed.

(** C2. Let today's artifact carry a [last_update] that parses to the naive
    datetime [last_update].  If it is stale in the words of the
    specification (from a prior calendar date, or from today before 09:00
    while it is now 09:00 or later), [get_fund_intraday] returns the empty
    list for every code and [get_funds_intraday_batch] maps every requested
    code to the empty list, and the world, hence the file on disk, is as
    before.  If it is not stale, the reads see the stored document: each
    code yields the list stored under it (the empty list when the code is
    not stored), again without touching the world. *)
Theorem stale_artifact_reads_empty w kv s last_update :
  disk w !! _get_today_file w = Some (Doc (JObj kv)) ->
  dict_get "last_update" kv = Some (JStr s) ->
  s <> "" ->
  fromisoformat s = IsoNaive last_update ->
  (stale_by_spec last_update (now w) ->
     (forall code, get_fund_intraday code w = (Ok (JArr []), w)) /\
     (forall codes, exists r,
        get_funds_intraday_batch codes w = (Ok r, w) /\
        forall code, code ∈ codes -> dict_get code r = Some (JArr [])))
  /\
  (~ stale_by_spec last_update (now w) ->
     _read_intraday_data w = JObj kv /\
     forall funds, dict_get "funds" kv = Some (JObj funds) ->
       (forall code, get_fund_intraday code w = (Ok (stored funds code), w)) /\
       (forall codes, exists r,
          get_funds_intraday_batch codes w = (Ok r, w) /\
          forall code, code ∈ codes -> dict_get code r = Some (stored funds code))).
Proof.
  intros Hdisk Hget Hs Hparse.
  pose proof (read_doc w _ Hdisk) as Hread.
  rewrite (should_clear_naive w kv s last_update Hget Hs Hparse) in Hread.
  split; intros Hstale.
  - apply stale_spec in Hstale. rewrite Hstale in Hread.
    assert (Hf : get_default (_read_intraday_data w) "funds" (JObj []) = Ok (JObj [])).
    { rewrite Hread. apply funds_of_empty. }
    split.
    + intros code. by rewrite (intraday_of_doc w [] code Hf).
    + intros codes. destruct (batch_of_doc w [] codes Hf) as (r & Hr & Hall).
      exists r. split; [ done | ]. intros code Hin. by rewrite (Hall code Hin).
  - assert (Hns : stale last_update (now w) = false).
    { destruct (stale last_update (now w)) eqn:E; [ | done ].
      exfalso. apply Hstale. by apply stale_spec. }
    rewrite Hns in Hread. split; [ done | ].
    intros funds Hfunds.
    assert (Hf : get_default (_read_intraday_data w) "funds" (JObj []) = Ok (JObj funds)).
    { rewrite Hread. unfold get_default. simpl. by rewrite Hfunds. }
    split.
    + intros code. by apply intraday_of_doc.
    + intros codes. by apply batch_of_doc.
Qed.

(** C10. A document without a [last_update] key is never classified as
    stale, whatever the clock says: [_should_clear_data] answers [False],
    and when it is today's artifact the reads go to the stored document.
    The document [clear_intraday_data] writes has no such key, so it is
    never stale either, and after a successful clear it is today's
    artifact. *)
Theorem no_last_update_never_stale :
  (forall kv, dict_get "last_update" kv = None ->
     forall w,
       _should_clear_data w (JObj kv) = Ok false /\
       (disk w !! _get_today_file w = Some (Doc (JObj kv)) ->
          _read_intraday_data w = JObj kv /\
          forall code,
            get_fund_intraday code w =
              (funds <- get_default (JObj kv) "funds" (JObj []) ;;
               get_default funds code (JArr []), w)))
  /\
  (forall w0 w, _should_clear_data w (empty_data w0) = Ok false)
  /\
  (forall w0, write_outcome w0 = WriteOk ->
     fst (clear_intraday_data w0) = true /\
     disk (snd (clear_intraday_data w0)) !! _get_today_file w0 = Some (Doc (empty_data w0))).
Proof.
  split; [ | split ].
  - intros kv Hget w. split; [ by apply should_clear_absent | ].
    intros Hdisk.
    assert (Hread : _read_intraday_data w = JObj kv).
    { rewrite (read_doc w _ Hdisk). by rewrite should_clear_absent. }
    split; [ done | ]. intros code. unfold get_fund_intraday. by rewrite Hread.
  - intros w0 w. by apply should_clear_absent.
  - intros w0 Hok. unfold clear_intraday_data, _write_intraday_data, dump.
    rewrite Hok. simpl. split; [ done | ]. apply lookup_insert_eq.
Qed.

(** ** The retention sweep *)

(** The loop body removes a file when its name is too old and the removal
    is not refused; in every other case, a refused removal included, it
    leaves the count and the directory as they are. *)
Lemma cleanup_file_eq keep_days today (acc : Z * world F) name :
  cleanup_file keep_days today acc name =
  if too_old keep_days today name && negb (unlink_fails (snd acc) name)
  then (fst acc + 1, set_disk (delete name (disk (snd acc))) (snd acc))
  else acc.
Proof.
  unfold cleanup_file, too_old, unlink.
  destruct (strptime_ymd (stem name)) as [d|]; simpl; [ | done ].
  destruct (keep_days <? days_between today d); simpl; [ | done ].
  by destruct (unlink_fails (snd acc) name).
Qed.

Lemma cleanup_fold keep_days today (l : list string) :
  forall acc : Z * world F,
    NoDup l ->
    (forall x, x ∈ l -> is_Some (disk (snd acc) !! x)) ->
    let goes := fun name =>
      too_old keep_days today name && negb (unlink_fails (snd acc) name) in
    let r := fold_left (cleanup_file keep_days today) l acc in
    (forall name,
       disk (snd r) !! name =
       if decide (name ∈ l /\ goes name = true)
       then None else disk (snd acc) !! name) /\
    fst r = fst acc + Z.of_nat (length (List.filter goes l)) /\
    Z.of_nat (size (disk (snd r))) =
      Z.of_nat (size (disk (snd acc))) - Z.of_nat (length (List.filter goes l)) /\
    now (snd r) = now (snd acc) /\
    write_outcome (snd r) = write_outcome (snd acc) /\
    unlink_fails (snd r) = unlink_fails (snd acc).
Proof.
  induction l as [|a l IH]; intros acc Hnd Hin; cbv zeta; simpl.
  - repeat split; lia.
  - apply NoDup_cons in Hnd as [Hna Hnd].
    rewrite cleanup_file_eq.
    destruct (too_old keep_days today a && negb (unlink_fails (snd acc) a)) eqn:Ea.
    + destruct (Hin a) as [fa Hfa]; [ by left | ].
      specialize (IH (fst acc + 1, set_disk (delete a (disk (snd acc))) (snd acc)) Hnd).
      destruct IH as (IH1 & IH2 & IH3 & IH4 & IH5 & IH6).
      { intros x Hx. simpl. rewrite lookup_delete_ne.
        - apply Hin. by right.
        - intros ->. done. }
      simpl in *. repeat split.
      * intros name. rewrite IH1.
        destruct (decide (name = a)) as [->|Hne].
        -- rewrite (decide_True (P := a ∈ a :: l /\ _)); [ | split; [ by left | done ] ].
           destruct (decide (a ∈ l /\ _)); [ done | ].
           apply lookup_delete_eq.
        -- rewrite lookup_delete_ne; [ | done ].
           destruct (decide (name ∈ l /\ _)) as [[H1 H2]|Hn].
           ++ rewrite decide_True; [ done | split; [ by right | done ] ].
           ++ rewrite decide_False; [ done | ].
              intros [Hx Hy]. apply Hn. split; [ | done ].
              apply elem_of_cons in Hx as [?|?]; done.
      * rewrite IH2. lia.
      * rewrite IH3. rewrite map_size_delete_Some; [ | by eexists ].
        assert (size (disk (snd acc)) <> 0%nat).
        { apply map_size_non_empty_iff. intros He. rewrite He in Hfa.
          by rewrite lookup_empty in Hfa. }
        lia.
      * done.
      * done.
      * done.
    + specialize (IH acc Hnd).
      destruct IH as (IH1 & IH2 & IH3 & IH4 & IH5 & IH6).
      { intros x Hx. apply Hin. by right. }
      simpl in *. repeat split; try done.
      intros name. rewrite IH1.
      destruct (decide (name ∈ l /\ _)) as [[H1 H2]|Hn].
      * rewrite decide_True; [ done | split; [ by right | done ] ].
      * rewrite decide_False; [ done | ].
        intros [Hx Hy]. apply Hn. split; [ | done ].
        apply elem_of_cons in Hx as [->|?]; [ congruence | done ].
Qed.

Lemma glob_json_spec w name :
  name ∈ glob_json w <-> endswith name ".json" = true /\ is_Some (disk w !! name).
Proof.
  unfold glob_json. rewrite list_elem_of_In, filter_In, <- list_elem_of_In.
  rewrite elem_of_elements, elem_of_dom. tauto.
Qed.

Lemma glob_json_nodup w : NoDup (glob_json w).
Proof.
  unfold glob_json.
  apply NoDup_ListNoDup, List.NoDup_filter, NoDup_ListNoDup, NoDup_elements.
Qed.

Lemma removed_filter keep_days w (l : list string) :
  List.filter (fun name => too_old keep_days (dt_date (now w)) name &&
                           negb (unlink_fails w name))
    (List.filter (fun name => endswith name ".json") l) =
  List.filter (removed keep_days w) l.
Proof.
  induction l as [|a l IH]; simpl; [ done | ].
  unfold removed at 1, expired. fold (too_old keep_days (dt_date (now w)) a).
  destruct (endswith a ".json"); simpl; [ | done ].
  destruct (too_old keep_days (dt_date (now w)) a && negb (unlink_fails w a));
    by rewrite IH.
Qed.

(** The sweep, file by file, with its count. *)
Lemma cleanup_spec keep_days w :
  let r := cleanup_old_files keep_days w in
  (forall name,
     disk (snd r) !! name =
     if removed keep_days w name then None else disk w !! name) /\
  fst r = Z.of_nat (size (disk w)) - Z.of_nat (size (disk (snd r))) /\
  fst r = Z.of_nat (length (List.filter (removed keep_days w) (elements (dom (disk w))))) /\
  now (snd r) = now w /\
  write_outcome (snd r) = write_outcome w /\
  unlink_fails (snd r) = unlink_fails w.
Proof.
  unfold cleanup_old_files. cbv zeta.
  pose proof (cleanup_fold keep_days (dt_date (now w)) (glob_json w) (0, w)
                (glob_json_nodup w)) as Hfold.
  cbv zeta in Hfold. simpl in Hfold.
  set (r := fold_left (cleanup_file keep_days (dt_date (now w))) (glob_json w) (0, w)) in *.
  destruct Hfold as (H1 & H2 & H3 & H4 & H5 & H6).
  { intros x Hx. by apply glob_json_spec in Hx as [_ ?]. }
  split; [ | split; [ | split ] ]; [ | | | done ].
  - intros name. rewrite H1. unfold removed, expired.
    fold (too_old keep_days (dt_date (now w)) name).
    destruct (decide (name ∈ glob_json w /\ _)) as [[Hg Ht]|Hn].
    + apply glob_json_spec in Hg as [He _]. rewrite He. simpl. by rewrite Ht.
    + destruct (endswith name ".json") eqn:He; simpl; [ | done ].
      destruct (too_old keep_days (dt_date (now w)) name &&
                negb (unlink_fails w name)) eqn:Ht; [ | done ].
      destruct (disk w !! name) eqn:Hl; [ | done ].
      exfalso. apply Hn. split; [ | done ]. apply glob_json_spec. eauto.
  - rewrite H2, H3. lia.
  - rewrite H2. unfold glob_json. by rewrite removed_filter.
Qed.

(** C8, as the code has it.  For every [keep_days] and every content of
    the directory, [cleanup_old_files] removes exactly the files matched by
    [*.json] whose stem parses as a date more than [keep_days] days before
    today and whose removal is not refused; a file whose removal raises is
    kept and is not counted; every other file, in particular every file
    whose stem is no date, is left as it was, and no exception comes out;
    the number returned is the number of files removed.  When no removal
    is refused, the files removed are exactly the expired ones. *)
Theorem cleanup_removes_expired keep_days w :
  let r := cleanup_old_files keep_days w in
  (forall name,
     disk (snd r) !! name =
     if removed keep_days w name then None else disk w !! name) /\
  (forall name, strptime_ymd (stem name) = None ->
     disk (snd r) !! name = disk w !! name) /\
  (forall name, unlink_fails w name = true ->
     disk (snd r) !! name = disk w !! name) /\
  fst r = Z.of_nat (size (disk w)) - Z.of_nat (size (disk (snd r))) /\
  fst r = Z.of_nat (length (List.filter (removed keep_days w) (elements (dom (disk w))))) /\
  ((forall name, unlink_fails w name = false) ->
     (forall name,
        disk (snd r) !! name =
        if expired keep_days w name then None else disk w !! name) /\
     fst r =
       Z.of_nat (length (List.filter (expired keep_days w) (elements (dom (disk w)))))) /\
  now (snd r) = now w /\
  write_outcome (snd r) = write_outcome w /\
  unlink_fails (snd r) = unlink_fails w.
Proof.
  cbv zeta. destruct (cleanup_spec keep_days w) as (Hdisk & Hsize & Hcount & Hrest).
  split; [ exact Hdisk | ].
  split.
  { intros name Hnone. rewrite Hdisk. unfold removed, expired. rewrite Hnone.
    by rewrite andb_false_r. }
  split.
  { intros name Hf. rewrite Hdisk. unfold removed. rewrite Hf.
    by rewrite andb_false_r. }
  split; [ exact Hsize | ]. split; [ exact Hcount | ]. split; [ | exact Hrest ].
  intros Hall.
  assert (Hsame : forall name, removed keep_days w name = expired keep_days w name).
  { intros name. unfold removed. rewrite Hall. apply andb_true_r. }
  split.
  - intros name. by rewrite Hdisk, Hsame.
  - rewrite Hcount. do 2 f_equal. clear Hcount.
    induction (elements (dom (disk w))) as [|a l IH]; simpl; [ done | ].
    by rewrite Hsame, IH.
Qed.

(** ** Writing *)

Lemma dict_set_set {V} (k : string) (v1 v2 : V) (d : list (string * V)) :
  dict_set k v2 (dict_set k v1 d) = dict_set k v2 d.
Proof.
  induction d as [|[k' v'] d IH]; simpl.
  - by rewrite String.eqb_refl.
  - destruct (String.eqb k k') eqn:E; simpl.
    + by rewrite String.eqb_refl.
    + by rewrite E, IH.
Qed.

Lemma trading_window_spec w :
  valid_time (dt_time (now w)) ->
  _is_trading_time w = true <-> in_trading_window (dt_time (now w)).
Proof.
  intros Hv. unfold _is_trading_time, in_trading_window.
  rewrite andb_true_iff.
  rewrite !time_leb_us; try done;
    unfold valid_time, MARKET_OPEN, MARKET_CLOSE; simpl; lia.
Qed.

(** [add_point] on a document whose ["funds"] is a mapping. *)
Lemma add_point_spec timestamp code change kv funds :
  dict_get "funds" kv = Some (JObj funds) ->
  match dict_get code funds with
  | None =>
      add_point timestamp code change (JObj kv) =
      Ok (JObj (dict_set "funds" (JObj (dict_set code (JArr [point timestamp change]) funds)) kv))
  | Some (JArr l) =>
      add_point timestamp code change (JObj kv) =
      Ok (JObj (dict_set "funds"
                  (JObj (dict_set code (JArr (l ++ [point timestamp change])) funds)) kv))
  | Some _ => exists e, add_point timestamp code change (JObj kv) = Raise e
  end.
Proof.
  intros Hf. unfold add_point. simpl. rewrite Hf. simpl.
  unfold dict_mem. destruct (dict_get code funds) as [v|] eqn:Hc; simpl.
  - rewrite Hc. destruct v; simpl; eauto.
  - rewrite dict_get_set_eq. simpl. by rewrite dict_set_set.
Qed.

(** [add_point] raises when ["funds"] holds anything but a mapping. *)
Lemma add_point_not_a_dict timestamp code change kv :
  match dict_get "funds" kv with Some (JObj _) => False | _ => True end ->
  exists e, add_point timestamp code change (JObj kv) = Raise e.
Proof.
  intros Hf. unfold add_point. simpl.
  destruct (dict_get "funds" kv) as [v|]; simpl; [ | eauto ].
  destruct v as [ | b | z | f | s | l | kv0 ]; simpl; eauto; try done.
  - destruct (str_in code s); simpl; eauto.
  - destruct (existsb _ l); simpl; eauto.
Qed.

(** The first two statements of a writer: stamp [last_update], make sure
    ["funds"] is there. *)
Lemma prepare_spec kv (stamp : json F) :
  exists kv1,
    ensure_funds (JObj (dict_set "last_update" stamp kv)) = Ok (JObj kv1) /\
    dict_get "funds" kv1 = Some (default (JObj []) (dict_get "funds" kv)).
Proof.
  unfold ensure_funds. simpl. unfold dict_mem.
  assert (Hne : dict_get "funds" (dict_set "last_update" stamp kv) = dict_get "funds" kv).
  { by apply dict_get_set_ne. }
  rewrite Hne. destruct (dict_get "funds" kv) as [v|] eqn:Hf; simpl.
  - eexists. split; [ reflexivity | done ].
  - eexists. split; [ reflexivity | ]. by rewrite dict_get_set_eq.
Qed.

Lemma funds_of_prepared kv :
  match funds_of (JObj kv) with
  | Some funds => default (JObj []) (dict_get "funds" kv) = JObj funds
  | None => match default (JObj []) (dict_get "funds" kv) with
            | JObj _ => False
            | _ => True
            end
  end.
Proof.
  unfold funds_of. destruct (dict_get "funds" kv) as [v|]; simpl; [ | done ].
  destruct v; done.
Qed.

Lemma fold_raise timestamp (changes : list (string * option F)) e :
  fold_left (add_change timestamp) changes (Raise e) = Raise e.
Proof. induction changes as [|c changes IH]; simpl; done. Qed.

Lemma fold_cons_some timestamp code change (changes : list (string * option F)) data :
  fold_left (add_change timestamp) ((code, Some change) :: changes) (Ok data) =
  fold_left (add_change timestamp) changes (add_point timestamp code change data).
Proof. reflexivity. Qed.

Lemma fold_cons_none timestamp code (changes : list (string * option F)) data :
  fold_left (add_change timestamp) ((code, None) :: changes) (Ok data) =
  fold_left (add_change timestamp) changes (Ok data).
Proof. reflexivity. Qed.

Lemma list_or_absent_after_set code (v : list (json F)) funds (cs : list string) :
  list_or_absent (dict_get code funds) = true ->
  forallb (fun c => list_or_absent (dict_get c (dict_set code (JArr v) funds))) cs =
  forallb (fun c => list_or_absent (dict_get c funds)) cs.
Proof.
  intros Hok. induction cs as [|c cs IHc]; simpl; [ done | ].
  rewrite IHc. f_equal.
  destruct (decide (c = code)) as [->|Hne].
  - by rewrite dict_get_set_eq, Hok.
  - by rewrite dict_get_set_ne.
Qed.

(** The loop of the batch writer on a document whose ["funds"] is a
    mapping: it goes through when every code that carries a value holds a
    list or nothing, and raises otherwise. *)
Lemma fold_add_change timestamp (changes : list (string * option F)) :
  forall kv funds,
    dict_get "funds" kv = Some (JObj funds) ->
    if forallb (fun code => list_or_absent (dict_get code funds)) (codes_of changes)
    then exists kv', fold_left (add_change timestamp) changes (Ok (JObj kv)) = Ok (JObj kv')
    else exists e, fold_left (add_change timestamp) changes (Ok (JObj kv)) = Raise e.
Proof.
  induction changes as [|[code [change|]] changes IH]; intros kv funds Hf.
  - simpl. eauto.
  - rewrite fold_cons_some.
    change (codes_of ((code, Some change) :: changes)) with (code :: codes_of changes).
    cbn [forallb].
    pose proof (add_point_spec timestamp code change kv funds Hf) as Hadd.
    pose proof (fun v => list_or_absent_after_set code v funds (codes_of changes)) as Hsame.
    destruct (dict_get code funds) as [v|] eqn:Hc.
    + destruct v as [ | b | z | f | s' | l | kv0 ]; cbn [list_or_absent andb];
        cbv beta iota in Hadd;
        try (lazymatch type of Hadd with
             | ex _ => destruct Hadd as [e He]; rewrite He, fold_raise; by eauto
             end).
      rewrite Hadd. rewrite <- (Hsame (l ++ [point timestamp change]) eq_refl).
      apply IH. apply dict_get_set_eq.
    + cbn [list_or_absent andb]. rewrite Hadd.
      rewrite <- (Hsame [point timestamp change] eq_refl).
      apply IH. apply dict_get_set_eq.
  - rewrite fold_cons_none.
    change (codes_of ((code, None) :: changes)) with (codes_of changes).
    by apply IH.
Qed.

Lemma fold_not_a_dict timestamp (changes : list (string * option F)) kv :
  match dict_get "funds" kv with Some (JObj _) => False | _ => True end ->
  match codes_of changes with
  | [] => fold_left (add_change timestamp) changes (Ok (JObj kv)) = Ok (JObj kv)
  | _ => exists e, fold_left (add_change timestamp) changes (Ok (JObj kv)) = Raise e
  end.
Proof.
  intros Hf. induction changes as [|[code [change|]] changes IH].
  - done.
  - rewrite fold_cons_some.
    change (codes_of ((code, Some change) :: changes)) with (code :: codes_of changes).
    destruct (add_point_not_a_dict timestamp code change kv Hf) as [e ->].
    rewrite fold_raise. eauto.
  - rewrite fold_cons_none.
    change (codes_of ((code, None) :: changes)) with (codes_of changes). done.
Qed.

Lemma appendable_funds codes kv funds :
  funds_of (JObj kv) = Some funds ->
  appendable codes (JObj kv) = forallb (fun code => list_or_absent (dict_get code funds)) codes.
Proof. intros Hf. unfold appendable. by rewrite Hf. Qed.

Lemma appendable_no_funds codes kv :
  funds_of (JObj kv) = None ->
  appendable codes (JObj kv) = match codes with [] => true | _ => false end.
Proof.
  intros Hf. unfold appendable. rewrite Hf. destruct codes; [ done | ].
  reflexivity.
Qed.

(** The in-memory update of [save_fund_change]: it goes through exactly on
    a document that is [appendable] for the code. *)
Lemma single_update timestamp code change kv (stamp : json F) :
  let r := (data <- setitem (JObj kv) "last_update" stamp ;;
            data <- ensure_funds data ;;
            add_point timestamp code change data) in
  if appendable [code] (JObj kv)
  then exists data', r = Ok data'
  else exists e, r = Raise e.
Proof.
  cbn [setitem bind]. cbv zeta.
  destruct (prepare_spec kv stamp) as (kv1 & -> & Hf1). cbn [bind].
  pose proof (funds_of_prepared kv) as Hp.
  destruct (funds_of (JObj kv)) as [funds|] eqn:Hfo.
  - rewrite (appendable_funds _ _ _ Hfo). cbn [forallb]. rewrite andb_true_r.
    rewrite Hp in Hf1.
    pose proof (add_point_spec timestamp code change kv1 funds Hf1) as Hadd.
    destruct (dict_get code funds) as [v|]; [ destruct v | ]; simpl; eauto.
  - rewrite (appendable_no_funds _ _ Hfo).
    apply add_point_not_a_dict. rewrite Hf1.
    by destruct (default (JObj []) (dict_get "funds" kv)).
Qed.

(** The in-memory update of [save_funds_changes_batch]. *)
Lemma batch_update (changes : list (string * option F)) timestamp kv (stamp : json F) :
  let r := (data <- setitem (JObj kv) "last_update" stamp ;;
            data <- ensure_funds data ;;
            fold_left (add_change timestamp) changes (Ok data)) in
  if appendable (codes_of changes) (JObj kv)
  then exists data', r = Ok data'
  else exists e, r = Raise e.
Proof.
  cbn [setitem bind]. cbv zeta.
  destruct (prepare_spec kv stamp) as (kv1 & -> & Hf1). cbn [bind].
  pose proof (funds_of_prepared kv) as Hp.
  destruct (funds_of (JObj kv)) as [funds|] eqn:Hfo.
  - rewrite (appendable_funds _ _ _ Hfo). rewrite Hp in Hf1.
    pose proof (fold_add_change timestamp changes kv1 funds Hf1) as Hfold.
    destruct (forallb _ (codes_of changes)).
    + destruct Hfold as [kv' ->]. eauto.
    + done.
  - rewrite (appendable_no_funds _ _ Hfo).
    assert (Hnd : match dict_get "funds" kv1 with Some (JObj _) => False | _ => True end).
    { rewrite Hf1. by destruct (default (JObj []) (dict_get "funds" kv)). }
    pose proof (fold_not_a_dict timestamp changes kv1 Hnd) as Hfold.
    destruct (codes_of changes); [ eauto | done ].
Qed.

Lemma write_result data w :
  fst (_write_intraday_data data w) = write_ok w.
Proof.
  unfold _write_intraday_data, dump, write_ok.
  by destruct (write_outcome w).
Qed.

(** [save_fund_change] inside the trading window. *)
Lemma save_fund_change_inside code change timestamp w :
  _is_trading_time w = true ->
  if appendable [code] (_read_intraday_data w)
  then fst (save_fund_change code change timestamp w) = Ok (write_ok w)
  else exists e, save_fund_change code change timestamp w = (Raise e, w).
Proof.
  intros Ht. unfold save_fund_change. rewrite Ht. cbn [negb].
  destruct (read_is_dict w) as [kv ->].
  pose proof (single_update (default (strftime_hms (dt_time (now w))) timestamp)
                code change kv (JStr (isoformat (now w)))) as Hu.
  cbv zeta in Hu |- *.
  destruct (appendable [code] (JObj kv)).
  - destruct Hu as [data' ->].
    pose proof (write_result data' w) as Hw.
    destruct (_write_intraday_data data' w) as [ok w']. simpl in *. by subst.
  - destruct Hu as [e ->]. eauto.
Qed.

(** [save_funds_changes_batch] inside the trading window. *)
Lemma save_batch_inside changes w :
  _is_trading_time w = true ->
  if appendable (codes_of changes) (_read_intraday_data w)
  then fst (save_funds_changes_batch changes w) = Ok (write_ok w)
  else exists e, save_funds_changes_batch changes w = (Raise e, w).
Proof.
  intros Ht. unfold save_funds_changes_batch. rewrite Ht. cbn [negb].
  destruct (read_is_dict w) as [kv ->].
  pose proof (batch_update changes (strftime_hms (dt_time (now w)))
                kv (JStr (isoformat (now w)))) as Hu.
  cbv zeta in Hu |- *.
  destruct (appendable (codes_of changes) (JObj kv)).
  - destruct Hu as [data' ->].
    pose proof (write_result data' w) as Hw.
    destruct (_write_intraday_data data' w) as [ok w']. simpl in *. by subst.
  - destruct Hu as [e ->]. eauto.
Qed.

Lemma window_boundaries w us :
  0 <= us < 1000000 ->
  (dt_time (now w) = mk_time 9 29 59 us -> _is_trading_time w = false) /\
  (dt_time (now w) = mk_time 9 30 0 us -> _is_trading_time w = true) /\
  (dt_time (now w) = mk_time 15 0 0 0 -> _is_trading_time w = true) /\
  (dt_time (now w) = mk_time 15 0 1 us -> _is_trading_time w = false).
Proof.
  intros Hus. unfold _is_trading_time.
  repeat split; intros ->; try reflexivity.
  unfold time_leb, time_cmp, MARKET_OPEN, MARKET_CLOSE. simpl.
  destruct us; try reflexivity. lia.
Qed.

(** C1, as the code has it.  Outside the trading window both writers
    return [False] and leave the world, hence the artifact, as it was.  They
    return [True] exactly when three things hold: the time of day is inside
    the window, the samples of the resolved artifact can be appended to,
    and the file write succeeds; so a write that fails inside the window
    returns [False].  The window is the interval from 09:30 to 15:00 with
    both ends: 09:29:59 is outside, 09:30:00 and 15:00:00 are inside,
    15:00:01 is outside. *)
Theorem save_gated_by_window_and_write code change timestamp changes w :
  (_is_trading_time w = false ->
     save_fund_change code change timestamp w = (Ok false, w) /\
     save_funds_changes_batch changes w = (Ok false, w)) /\
  (fst (save_fund_change code change timestamp w) = Ok true <->
     _is_trading_time w = true /\
     appendable [code] (_read_intraday_data w) = true /\
     write_ok w = true) /\
  (fst (save_funds_changes_batch changes w) = Ok true <->
     _is_trading_time w = true /\
     appendable (codes_of changes) (_read_intraday_data w) = true /\
     write_ok w = true) /\
  (valid_time (dt_time (now w)) ->
     (_is_trading_time w = true <-> in_trading_window (dt_time (now w)))) /\
  (forall us, 0 <= us < 1000000 ->
     (dt_time (now w) = mk_time 9 29 59 us -> _is_trading_time w = false) /\
     (dt_time (now w) = mk_time 9 30 0 us -> _is_trading_time w = true) /\
     (dt_time (now w) = mk_time 15 0 0 0 -> _is_trading_time w = true) /\
     (dt_time (now w) = mk_time 15 0 1 us -> _is_trading_time w = false)).
Proof.
  split; [ | split; [ | split; [ | split ] ] ].
  - intros Ht. unfold save_fund_change, save_funds_changes_batch. by rewrite Ht.
  - destruct (_is_trading_time w) eqn:Ht.
    + pose proof (save_fund_change_inside code change timestamp w Ht) as Hin.
      destruct (appendable [code] (_read_intraday_data w)).
      * rewrite Hin. split.
        -- intros Hok. by injection Hok as ->.
        -- intros (_ & _ & ->). done.
      * destruct Hin as [e ->]. simpl. split; [ done | ]. by intros (_ & ? & _).
    + unfold save_fund_change. rewrite Ht. simpl. split; [ done | ]. by intros (? & _).
  - destruct (_is_trading_time w) eqn:Ht.
    + pose proof (save_batch_inside changes w Ht) as Hin.
      destruct (appendable (codes_of changes) (_read_intraday_data w)).
      * rewrite Hin. split.
        -- intros Hok. by injection Hok as ->.
        -- intros (_ & _ & ->). done.
      * destruct Hin as [e ->]. simpl. split; [ done | ]. by intros (_ & ? & _).
    + unfold save_funds_changes_batch. rewrite Ht. simpl. split; [ done | ].
      by intros (? & _).
  - apply trading_window_spec.
  - apply window_boundaries.
Qed.

End StoreFacts.

(** ** Worked examples on the reference runtime *)

Import Reference.

(** The claim C1 as stated fails: at 10:00, inside the trading window, on a
    well-formed artifact, a write that the file system refuses makes both
    writers return [False]. *)
Lemma save_inside_window_refused_write :
  let w := store_with (artifact "2024-03-01T09:45:00") (on_2024_03_01 10 0 0) OpenFails in
  _is_trading_time w = true /\
  in_trading_window (dt_time (now w)) /\
  save_fund_change "000001" 5 None w = (Ok false, w) /\
  save_funds_changes_batch [("000001", Some 5)] w = (Ok false, w) /\
  ~ (fst (save_fund_change "000001" 5 None w) = Ok true <-> in_trading_window (dt_time (now w))).
Proof.
  cbv zeta. split; [ reflexivity | ].
  assert (Hin : in_trading_window
                  (dt_time (now (store_with (artifact "2024-03-01T09:45:00")
                                   (on_2024_03_01 10 0 0) OpenFails)))).
  { unfold in_trading_window. vm_compute. split; discriminate. }
  split; [ exact Hin | ].
  split; [ reflexivity | ].
  split; [ reflexivity | ].
  intros [_ Hback]. specialize (Hback Hin). vm_compute in Hback. discriminate.
Qed.

(** C1 on 1 March 2024: a write at 09:29:59 is rejected and changes nothing,
    writes at 09:30:00 and at 15:00:00 are accepted, 15:00:01 is outside the
    window. *)
Lemma save_gated_by_window_and_write_witness :
  (let w := store_with (artifact "2024-03-01T09:20:00") (on_2024_03_01 9 29 59) WriteOk in
   save_fund_change "000001" 5 None w = (Ok false, w) /\
   save_funds_changes_batch [("000001", Some 5)] w = (Ok false, w)) /\
  (let w := store_with (artifact "2024-03-01T09:20:00") (on_2024_03_01 9 30 0) WriteOk in
   fst (save_fund_change "000001" 5 None w) = Ok true) /\
  (let w := store_with (artifact "2024-03-01T14:59:00") (on_2024_03_01 15 0 0) WriteOk in
   fst (save_funds_changes_batch [("000001", Some 5); ("000002", None)] w) = Ok true) /\
  (let w := store_with (artifact "2024-03-01T14:59:00") (on_2024_03_01 15 0 1) WriteOk in
   _is_trading_time w = false /\ ~ in_trading_window (dt_time (now w))).
Proof.
  cbv zeta. split; [ | split; [ | split ] ].
  - apply (proj1 (save_gated_by_window_and_write "000001" 5 None [("000001", Some 5)]
                    (store_with (artifact "2024-03-01T09:20:00") (on_2024_03_01 9 29 59) WriteOk))).
    reflexivity.
  - apply (proj1 (proj2 (save_gated_by_window_and_write "000001" 5 None []
                    (store_with (artifact "2024-03-01T09:20:00") (on_2024_03_01 9 30 0) WriteOk)))).
    repeat split; vm_compute; reflexivity.
  - apply (proj1 (proj2 (proj2 (save_gated_by_window_and_write "000001" 5 None
                    [("000001", Some 5); ("000002", None)]
                    (store_with (artifact "2024-03-01T14:59:00") (on_2024_03_01 15 0 0) WriteOk))))).
    repeat split; vm_compute; reflexivity.
  - pose proof (proj1 (proj2 (proj2 (proj2 (save_gated_by_window_and_write "000001" 5 None []
                    (store_with (artifact "2024-03-01T14:59:00") (on_2024_03_01 15 0 1) WriteOk))))))
      as Hw.
    assert (Hv : valid_time (dt_time (now (store_with (artifact "2024-03-01T14:59:00")
                                             (on_2024_03_01 15 0 1) WriteOk)))).
    { unfold valid_time. simpl. lia. }
    specialize (Hw Hv). split; [ reflexivity | ].
    intros Hin. apply Hw in Hin. vm_compute in Hin. discriminate.
Defined.

(** The example of the specification: [last_update] today at 08:50; a read
    at 09:05 returns the empty list, a read at 08:55 the stored samples. *)
Lemma stale_artifact_reads_empty_witness :
  (let w := store_with (artifact "2024-03-01T08:50:00") (on_2024_03_01 9 5 0) WriteOk in
   get_fund_intraday "000001" w = (Ok (JArr []), w)) /\
  (let w := store_with (artifact "2024-03-01T08:50:00") (on_2024_03_01 8 55 0) WriteOk in
   get_fund_intraday "000001" w = (Ok (JArr [point "08:49:58" 12]), w)) /\
  (let w := store_with (artifact "2024-02-29T14:58:00") (on_2024_03_01 8 55 0) WriteOk in
   get_fund_intraday "000001" w = (Ok (JArr []), w)).
Proof.
  cbv zeta. split; [ | split ].
  - refine (proj1 (proj1 (stale_artifact_reads_empty
              (store_with (artifact "2024-03-01T08:50:00") (on_2024_03_01 9 5 0) WriteOk)
              _ "2024-03-01T08:50:00" (on_2024_03_01 8 50 0) _ _ _ _) _) "000001").
    + reflexivity.
    + reflexivity.
    + discriminate.
    + reflexivity.
    + right. repeat split; vm_compute; congruence.
  - refine (proj1 (proj2 (proj2 (stale_artifact_reads_empty
              (store_with (artifact "2024-03-01T08:50:00") (on_2024_03_01 8 55 0) WriteOk)
              _ "2024-03-01T08:50:00" (on_2024_03_01 8 50 0) _ _ _ _) _)
              [("000001", JArr [point "08:49:58" 12])] _) "000001").
    + reflexivity.
    + reflexivity.
    + discriminate.
    + reflexivity.
    + intros [Hlt | (_ & _ & Hge)]; [ vm_compute in Hlt; discriminate | ].
      apply Hge. reflexivity.
    + reflexivity.
  - refine (proj1 (proj1 (stale_artifact_reads_empty
              (store_with (artifact "2024-02-29T14:58:00") (on_2024_03_01 8 55 0) WriteOk)
              _ "2024-02-29T14:58:00"
              (mk_datetime (mk_date 2024 2 29) (mk_time 14 58 0 0)) _ _ _ _) _) "000001").
    + reflexivity.
    + reflexivity.
    + discriminate.
    + reflexivity.
    + left. reflexivity.
Defined.

(** The document [clear_intraday_data] writes is never stale, and a
    successful clear makes it today's artifact. *)
Lemma no_last_update_never_stale_witness :
  (forall w : world Z,
     _should_clear_data w (JObj [("date", JStr "2024-03-01"); ("funds", JObj [])]) =
     Ok false) /\
  (let w0 := store_with (artifact "2024-03-01T10:00:00") (on_2024_03_01 10 30 0) WriteOk in
   disk (snd (clear_intraday_data w0)) !! "2024-03-01.json" = Some (Doc (empty_data w0))).
Proof.
  split.
  - intros w.
    apply (proj1 (proj1 no_last_update_never_stale
                    [("date", JStr "2024-03-01"); ("funds", JObj [])] eq_refl w)).
  - cbv zeta.
    apply (proj2 (proj2 (proj2 no_last_update_never_stale)
                    (store_with (artifact "2024-03-01T10:00:00") (on_2024_03_01 10 30 0) WriteOk)
                    eq_refl)).
Defined.

(** The example of the specification: with [keep_days = 7] the artifact of
    10 days ago goes, the one of 3 days ago stays, and the file whose name
    is no date is skipped. *)
Lemma cleanup_removes_expired_witness :
  let r := cleanup_old_files 7 sweep_dir in
  fst r = 1 /\
  disk (snd r) !! "2024-02-20.json" = None /\
  disk (snd r) !! "2024-02-27.json" = Some (Doc (JObj [])) /\
  disk (snd r) !! "notes.json" = Some Unreadable /\
  disk (snd r) !! "2024-02-20.txt" = Some Unreadable.
Proof.
  cbv zeta.
  destruct (cleanup_removes_expired 7 sweep_dir) as (_ & Hskip & _ & _ & _ & Hall & _).
  destruct Hall as [Hdisk Hcount]; [ reflexivity | ].
  split; [ rewrite Hcount; reflexivity | ].
  split; [ rewrite Hdisk; reflexivity | ].
  split; [ rewrite Hdisk; reflexivity | ].
  split; [ rewrite Hskip; reflexivity | ].
  rewrite Hdisk. reflexivity.
Defined.

(** The claim C8 as stated fails: with [keep_days = 7] the artifact of 10
    days ago is expired, but its removal is refused; the sweep keeps it,
    raises nothing and returns 0. *)
Lemma cleanup_keeps_refused_file :
  let r := cleanup_old_files 7 locked_dir in
  expired 7 locked_dir "2024-02-20.json" = true /\
  disk locked_dir !! "2024-02-20.json" = Some (Doc (JObj [])) /\
  disk (snd r) !! "2024-02-20.json" = Some (Doc (JObj [])) /\
  fst r = 0.
Proof. vm_compute. repeat split. Qed.

End IntradayStoreSpec.

(* ===================================================================== *)
(** * Facts about the market-data client                                  *)
(* ===================================================================== *)

Module EastMoneyClientSpec.
Import Py EastMoneyClient.

(** ** Strings *)

Lemma prefix_split (p s : string) :
  String.prefix p s = true <-> exists b, s = p +:+ b.
Proof.
  revert s. induction p as [|a p IH]; intros s.
  - split; [ intros _; by exists s | intros _; by destruct s ].
  - destruct s as [|c s]; simpl.
    + split; [ done | intros [b Hb]; discriminate ].
    + destruct (Ascii.ascii_dec a c) as [->|Hne].
      * rewrite IH. split; intros [b Hb]; exists b.
        -- by rewrite Hb.
        -- by injection Hb.
      * split; [ done | ]. intros [b Hb]. injection Hb as Hc _. by symmetry in Hc.
Qed.

(** [str_in] decides the substring relation. *)
Lemma str_in_spec (kw s : string) : str_in kw s = true <-> substring_of kw s.
Proof.
  unfold substring_of. induction s as [|c s IH]; cbn [str_in].
  - rewrite orb_false_r, prefix_split. split.
    + intros [b Hb]. by exists EmptyString, b.
    + intros (a & b & Hab). destruct a; [ by exists b | discriminate ].
  - rewrite orb_true_iff, prefix_split, IH. split.
    + intros [[b Hb] | (a & b & Hab)].
      * by exists EmptyString, b.
      * exists (String c a), b. simpl. by rewrite Hab.
    + intros (a & b & Hab). destruct a as [|c' a]; simpl in Hab.
      * left. by exists b.
      * right. injection Hab as _ Hs. by exists a, b.
Qed.

Lemma startswith_char (code : string) (d : ascii) :
  startswith code (String d EmptyString) = true <->
  exists rest, code = String d rest.
Proof.
  unfold startswith. destruct code as [|c rest]; simpl.
  - split; [ done | intros [? ?]; discriminate ].
  - destruct (Ascii.ascii_dec d c) as [->|Hne].
    + split; [ intros _; by exists rest | intros _; by destruct rest ].
    + split; [ done | ]. intros [r Hr]. injection Hr as Hc _. by symmetry in Hc.
Qed.

Section ClientFacts.

Context {F : Type} `{PyFloat F} `{PyText F}.

Implicit Types (w : client F) (code : string).

(** ** get_stock_quotes *)

Lemma secid_cases code :
  (first_is_659 code /\ secid code = "1." +:+ code) \/
  (~ first_is_659 code /\ secid code = "0." +:+ code).
Proof.
  unfold secid.
  destruct (startswith code "6") eqn:E6.
  { left. split; [ | done ]. apply startswith_char in E6 as [rest ->].
    exists "6"%char, rest. auto. }
  destruct (startswith code "5") eqn:E5.
  { left. split; [ | done ]. apply startswith_char in E5 as [rest ->].
    exists "5"%char, rest. auto. }
  destruct (startswith code "9") eqn:E9.
  { left. split; [ | done ]. apply startswith_char in E9 as [rest ->].
    exists "9"%char, rest. auto. }
  right. split; [ | done ].
  intros (c & rest & -> & [-> | [-> | ->]]).
  - assert (Ht : startswith (String "6" rest) "6" = true) by (apply startswith_char; eauto).
    congruence.
  - assert (Ht : startswith (String "5" rest) "5" = true) by (apply startswith_char; eauto).
    congruence.
  - assert (Ht : startswith (String "9" rest) "9" = true) by (apply startswith_char; eauto).
    congruence.
Qed.

(** C3. The identifier [get_stock_quotes] builds for a code is ["1." + code]
    exactly when the first character of the code is one of 6, 5, 9, and
    ["0." + code] otherwise; the request carries these identifiers, joined
    by commas, under [secids]. *)
Theorem exchange_prefix_rule :
  (forall code, secid code = "1." +:+ code <-> first_is_659 code) /\
  (forall code, secid code = "0." +:+ code <-> ~ first_is_659 code) /\
  secid "600519" = "1.600519" /\
  secid "000858" = "0.000858" /\
  secid "510300" = "1.510300" /\
  (forall code codes w,
     exists k,
       get_stock_quotes (code :: codes) w = (Await (quote_request (code :: codes)) k, w) /\
       dict_get "secids" (params (quote_request (code :: codes))) =
         Some (join "," (map secid (code :: codes)))).
Proof.
  split; [ | split; [ | repeat split ] ].
  - intros code. destruct (secid_cases code) as [[Hf ->] | [Hf ->]].
    + done.
    + split; [ discriminate | done ].
  - intros code. destruct (secid_cases code) as [[Hf ->] | [Hf ->]].
    + split; [ discriminate | done ].
    + done.
  - intros code codes w. eexists. split; reflexivity.
Qed.

(** C9. On the empty list [get_stock_quotes] returns the empty mapping at
    once: the coroutine never reaches its request, and the client, the log
    of requests included, is as before. *)
Theorem no_codes_no_request w :
  get_stock_quotes [] w = (Return [], w) /\
  run (get_stock_quotes []) w = ([], w) /\
  sent (snd (run (get_stock_quotes []) w)) = sent w.
Proof. repeat split. Qed.

(** ** get_fund_sector *)

Lemma matches_spec (name label : string) (keywords : list string) :
  matches name keywords = true <-> tuple_matches name (label, keywords).
Proof.
  unfold matches, tuple_matches. simpl. rewrite existsb_exists. split.
  - intros (kw & Hin & Hkw). exists kw. split.
    + by apply list_elem_of_In.
    + by apply str_in_spec.
  - intros (kw & Hin & Hkw). exists kw. split.
    + by apply list_elem_of_In.
    + by apply str_in_spec.
Qed.

Lemma scan_first_match (name label : string) keywords
    (pre post : list (string * list string)) :
  (forall t, t ∈ pre -> ~ tuple_matches name t) ->
  tuple_matches name (label, keywords) ->
  scan name (pre ++ (label, keywords) :: post) = Some label.
Proof.
  intros Hpre Hm. induction pre as [|[l ks] pre IH]; simpl.
  - apply (matches_spec name label) in Hm. by rewrite Hm.
  - destruct (matches name ks) eqn:E.
    + exfalso. apply (Hpre (l, ks)); [ by left | ]. by apply matches_spec.
    + apply IH. intros t Ht. apply Hpre. by right.
Qed.

Lemma scan_no_match (name : string) (table : list (string * list string)) :
  (forall t, t ∈ table -> ~ tuple_matches name t) ->
  scan name table = None.
Proof.
  intros Hno. induction table as [|[l ks] table IH]; simpl; [ done | ].
  destruct (matches name ks) eqn:E.
  - exfalso. apply (Hno (l, ks)); [ by left | ]. by apply matches_spec.
  - apply IH. intros t Ht. apply Hno. by right.
Qed.

(** C4. [get_fund_sector] scans the table from the top and returns the
    label of the first tuple one of whose keywords is a substring of the
    profile name; without a profile, or when no tuple matches, it returns
    the default label.  The name of the example is classified by the
    semiconductor tuple, which stands at position 5, before the technology
    tuple at position 12 and before the index tuple at position 54, whose
    keyword "ETF" the name contains as well. *)
Theorem sector_is_first_match :
  (forall (detail : fund_detail F) pre label keywords post,
     sector_keywords = pre ++ (label, keywords) :: post ->
     (forall t, t ∈ pre -> ~ tuple_matches (d_name detail) t) ->
     tuple_matches (d_name detail) (label, keywords) ->
     get_fund_sector (Some detail) = label) /\
  (forall detail : fund_detail F,
     (forall t, t ∈ sector_keywords -> ~ tuple_matches (d_name detail) t) ->
     get_fund_sector (Some detail) = "综合") /\
  get_fund_sector (@None (fund_detail F)) = "综合" /\
  (forall detail : fund_detail F,
     d_name detail = "某半导体芯片ETF" ->
     get_fund_sector (Some detail) = "半导体") /\
  sector_keywords !! 5%nat = Some ("半导体", ["半导体"; "芯片"; "集成电路"]) /\
  sector_keywords !! 12%nat = Some ("科技", ["科技"; "科创"; "创新"]) /\
  sector_keywords !! 54%nat = Some ("指数", ["指数"; "ETF"; "LOF"]) /\
  tuple_matches "某半导体芯片ETF" ("指数", ["指数"; "ETF"; "LOF"]).
Proof.
  split; [ | split; [ | split; [ | split; [ | split; [ | split; [ | split ] ] ] ] ] ].
  - intros detail pre label keywords post Htab Hpre Hm.
    unfold get_fund_sector. rewrite Htab.
    by rewrite (scan_first_match _ _ _ _ _ Hpre Hm).
  - intros detail Hno. unfold get_fund_sector. by rewrite (scan_no_match _ _ Hno).
  - reflexivity.
  - intros detail Hname. unfold get_fund_sector. rewrite Hname. by vm_compute.
  - reflexivity.
  - reflexivity.
  - reflexivity.
  - apply (matches_spec _ "指数"). by vm_compute.
Qed.

(** ** The cache *)

Lemma cache_hit {V} (c : ttl_cache V) (t : Z) (k : string) :
  cache_contains c t k = true -> exists v, cache_getitem c t k = Ok v.
Proof.
  unfold cache_contains, cache_getitem.
  destruct (cache_find c k) as [e|]; [ | done ].
  intros ->. eauto.
Qed.

(** Indexing answers with a value or with [KeyError]. *)
Lemma cache_getitem_cases {V} (c : ttl_cache V) (t : Z) (k : string) :
  (exists v, cache_getitem c t k = Ok v) \/ cache_getitem c t k = Raise KeyError.
Proof.
  unfold cache_getitem. destruct (cache_find c k) as [e|]; [ | by right ].
  destruct (fresh c t e); eauto.
Qed.

(** ** get_fund_nav_history *)

Lemma history_hit_run code page per_page start_date end_date w :
  cache_contains (_history_cache w) (timer w)
    (history_key code page per_page start_date end_date) = true ->
  run (get_fund_nav_history code page per_page start_date end_date) w =
  (cache_getitem (_history_cache w) (timer w + lapse w)
     (history_key code page per_page start_date end_date), w).
Proof.
  intros Hhit. unfold run, start, get_fund_nav_history. cbv zeta. by rewrite Hhit.
Qed.

Lemma history_miss code page per_page start_date end_date w :
  cache_contains (_history_cache w) (timer w)
    (history_key code page per_page start_date end_date) = false ->
  run (get_fund_nav_history code page per_page start_date end_date) w =
  let req := history_request code page per_page start_date end_date in
  match try_except
          (history_body (history_key code page per_page start_date end_date)
             page per_page (network w req) (send req w))
          (fun _ => None) with
  | Some (result, w') => (Ok result, w')
  | None => (Ok (empty_page page per_page), send req w)
  end.
Proof.
  intros Hmiss. unfold run, start, get_fund_nav_history. cbv zeta. by rewrite Hmiss.
Qed.

(** C7. A call of [get_fund_nav_history] that has to fetch never raises.
    When the fetch fails (the request raises, the status is not 200, the
    body is no JSON, the payload does not carry [ErrCode] 0, or the payload
    cannot be turned into a page) it returns the empty page
    [{total: 0, page, per_page, records: []}] with the page number and the
    page size of the call.  Any result other than the empty page is the
    page built from a payload that arrived with status 200.  A call that
    finds its key in the cache does not fetch: it answers with what the
    cache holds at the second reading of the clock, a page, or [KeyError]
    when the entry has expired since the membership test, which stands
    with the indexing before the [try]. *)
Theorem history_failure_gives_empty_page code page per_page start_date end_date w :
  let call := run (get_fund_nav_history code page per_page start_date end_date) w in
  let req := history_request code page per_page start_date end_date in
  let empty := (Ok (empty_page page per_page), send req w) in
  ((cache_contains (_history_cache w) (timer w)
      (history_key code page per_page start_date end_date) = false ->
    exists p, fst call = Ok p) /\
   (cache_contains (_history_cache w) (timer w)
      (history_key code page per_page start_date end_date) = true ->
    call = (cache_getitem (_history_cache w) (timer w + lapse w)
              (history_key code page per_page start_date end_date), w) /\
    ((exists p, fst call = Ok p) \/ fst call = Raise KeyError))) /\
  (cache_contains (_history_cache w) (timer w)
     (history_key code page per_page start_date end_date) = false ->
   (forall e, network w req = Raise e -> call = empty) /\
   (forall r, network w req = Ok r -> status_code r <> 200 -> call = empty) /\
   (forall r e, network w req = Ok r -> status_code r = 200 ->
      json_loads (text r) = Raise e -> call = empty) /\
   (forall r data, network w req = Ok r -> status_code r = 200 ->
      json_loads (text r) = Ok data -> err_code_is_zero data = false -> call = empty) /\
   (forall r data e, network w req = Ok r -> status_code r = 200 ->
      json_loads (text r) = Ok data -> page_of page per_page data = Raise e ->
      call = empty) /\
   (fst call = Ok (empty_page page per_page) \/
    exists r data p,
      network w req = Ok r /\ status_code r = 200 /\
      json_loads (text r) = Ok data /\ err_code_is_zero data = true /\
      page_of page per_page data = Ok p /\ fst call = Ok p)).
Proof.
  cbv zeta. split.
  - split; intros Hc.
    + rewrite (history_miss _ _ _ _ _ _ Hc). cbv zeta.
      destruct (try_except _ _) as [[p w']|]; simpl; eauto.
    + rewrite (history_hit_run _ _ _ _ _ _ Hc). split; [ done | ]. simpl.
      apply cache_getitem_cases.
  - intros Hc. rewrite (history_miss _ _ _ _ _ _ Hc). cbv zeta.
    set (req := history_request code page per_page start_date end_date).
    unfold history_body.
    repeat split.
    + intros e ->. reflexivity.
    + intros r -> Hs. simpl. apply Z.eqb_neq in Hs. by rewrite Hs.
    + intros r e -> Hs Hj. simpl. rewrite Hs, Hj. reflexivity.
    + intros r data -> Hs Hj Herr. simpl. rewrite Hs, Hj. simpl.
      unfold err_code_is_zero in Herr.
      destruct (get data "ErrCode") as [err|e']; simpl; [ | done ].
      by rewrite Herr.
    + intros r data e -> Hs Hj Hp. simpl. rewrite Hs, Hj. simpl.
      destruct (get data "ErrCode") as [err|e']; simpl; [ | done ].
      destruct (eq_zero (default JNull err)); [ | done ].
      by rewrite Hp.
    + destruct (network w req) as [r|e]; simpl; [ | by left ].
      destruct (status_code r =? 200) eqn:Hs; [ | by left ].
      apply Z.eqb_eq in Hs.
      destruct (json_loads (text r)) as [data|e] eqn:Hj; simpl; [ | by left ].
      destruct (get data "ErrCode") as [err|e'] eqn:Hg; simpl; [ | by left ].
      destruct (eq_zero (default JNull err)) eqn:Hz; [ | by left ].
      destruct (page_of page per_page data) as [p|e] eqn:Hp; simpl; [ | by left ].
      destruct (cache_setitem _ _ _ p) as [c|e] eqn:Hset; simpl; [ | by left ].
      right. exists r, data, p. repeat split; try done.
      unfold err_code_is_zero. by rewrite Hg.
Qed.

(** ** get_fund_estimate *)

Lemma estimate_hit code w :
  cache_contains (_realtime_cache w) (timer w) (estimate_key code) = true ->
  pending code w = Return (hit_answer code w) /\
  run (get_fund_estimate code) w = (hit_answer code w, w).
Proof.
  intros Hc. unfold pending, run, start, get_fund_estimate, hit_answer. cbv zeta.
  by rewrite Hc.
Qed.

Lemma hit_answer_cases code w :
  (exists q, hit_answer code w = Ok (Some q)) \/ hit_answer code w = Raise KeyError.
Proof.
  unfold hit_answer.
  destruct (cache_getitem_cases (_realtime_cache w) (timer w + lapse w) (estimate_key code))
    as [[v ->] | ->]; simpl; eauto.
Qed.

Lemma estimate_miss code w :
  cache_contains (_realtime_cache w) (timer w) (estimate_key code) = false ->
  pending code w = Await (estimate_request code) (estimate_resume code) /\
  run (get_fund_estimate code) w =
    estimate_resume code (network w (estimate_request code)) (send (estimate_request code) w).
Proof.
  intros Hc. unfold pending, run, start, get_fund_estimate. cbv zeta. by rewrite Hc.
Qed.

(** What the continuation returns depends on the answer and on whether the
    cache can hold anything, not on what the cache holds. *)
Lemma resume_result code answer w w' :
  maxsize (_realtime_cache w) = maxsize (_realtime_cache w') ->
  fst (estimate_resume code answer w) = fst (estimate_resume code answer w').
Proof.
  intros Hm. unfold estimate_resume, estimate_body.
  destruct answer as [r|e]; simpl; [ | done ].
  destruct (status_code r =? 200); [ | done ].
  destruct (search_jsonpgz (text r)) as [g|]; [ | done ].
  destruct (json_loads g) as [data|e]; simpl; [ | done ].
  destruct (estimate_of code data) as [q|e]; simpl; [ | done ].
  unfold cache_setitem. rewrite <- Hm.
  by destruct (maxsize (_realtime_cache w)).
Qed.

(** The continuation touches the quote cache only. *)
Lemma resume_world code answer w :
  let w' := snd (estimate_resume code answer w) in
  network w' = network w /\ timer w' = timer w /\ sent w' = sent w /\
  _history_cache w' = _history_cache w /\
  maxsize (_realtime_cache w') = maxsize (_realtime_cache w).
Proof.
  cbv zeta. unfold estimate_resume, estimate_body.
  destruct answer as [r|e]; simpl; [ | done ].
  destruct (status_code r =? 200); [ | done ].
  destruct (search_jsonpgz (text r)) as [g|]; [ | done ].
  destruct (json_loads g) as [data|e]; simpl; [ | done ].
  destruct (estimate_of code data) as [q|e]; simpl; [ | done ].
  unfold cache_setitem.
  destruct (maxsize (_realtime_cache w)) eqn:Em; simpl; done.
Qed.

(** A single call that has to fetch never raises. *)
Lemma estimate_miss_total code w :
  cache_contains (_realtime_cache w) (timer w) (estimate_key code) = false ->
  exists o, estimate code w = Ok o.
Proof.
  intros Hc. unfold estimate. destruct (estimate_miss code w Hc) as [_ ->].
  unfold estimate_resume. destruct (try_except _ _) as [[q w']|]; simpl; eauto.
Qed.

(** A single call returns, or raises [KeyError] on a hit whose entry has
    expired at the second reading. *)
Lemma estimate_outcome code w :
  (exists o, estimate code w = Ok o) \/
  (cache_contains (_realtime_cache w) (timer w) (estimate_key code) = true /\
   estimate code w = Raise KeyError).
Proof.
  destruct (cache_contains (_realtime_cache w) (timer w) (estimate_key code)) eqn:Hc.
  - unfold estimate. destruct (estimate_hit code w Hc) as [_ ->]. simpl.
    destruct (hit_answer_cases code w) as [[q ->] | ->]; eauto.
  - left. by apply estimate_miss_total.
Qed.

(** ** get_fund_estimates_batch *)

Lemma pending_same_state code w w' :
  same_state w w' -> pending code w' = pending code w.
Proof.
  intros (Ht & Hl & Hc & _). unfold pending, get_fund_estimate. cbv zeta.
  rewrite Ht, Hl, Hc. by destruct (cache_contains _ _ _).
Qed.

Lemma start_all_estimates w codes :
  forall w1, same_state w w1 ->
    exists w2,
      start_all (map get_fund_estimate codes) w1 = (map (fun code => pending code w) codes, w2) /\
      same_state w w2.
Proof.
  induction codes as [|code codes IH]; intros w1 Hs; simpl.
  - eauto.
  - pose proof (pending_same_state code w w1 Hs) as Hp. unfold pending in Hp.
    unfold start at 1.
    destruct (get_fund_estimate code w1) as [c w1'] eqn:Hg.
    assert (Hw : w1' = w1).
    { unfold get_fund_estimate in Hg. cbv zeta in Hg.
      destruct (cache_contains _ _ _); by injection Hg. }
    subst w1'. simpl in Hp. subst c.
    destruct (fst (get_fund_estimate code w)) as [a|req k] eqn:Hc.
    + destruct (IH w1 Hs) as (w2 & -> & Hs2). unfold pending. rewrite Hc. eauto.
    + assert (Hs' : same_state w (send req w1)).
      { destruct Hs as (? & ? & ? & ?). by repeat split. }
      destruct (IH (send req w1) Hs') as (w2 & -> & Hs2).
      unfold pending. rewrite Hc. eauto.
Qed.

Lemma finish_estimate code w w1 :
  same_env w w1 ->
  fst (finish (pending code w) w1) = estimate code w /\
  same_env w (snd (finish (pending code w) w1)).
Proof.
  intros (Hn & Hm). unfold estimate.
  destruct (cache_contains (_realtime_cache w) (timer w) (estimate_key code)) eqn:Hc.
  - destruct (estimate_hit code w Hc) as [-> ->]. simpl. by split.
  - destruct (estimate_miss code w Hc) as [-> ->]. simpl. rewrite Hn. split.
    + by apply resume_result.
    + destruct (resume_world code (network w (estimate_request code)) w1)
        as (Hn' & _ & _ & _ & Hm').
      split; congruence.
Qed.

Lemma finish_all_estimates w codes :
  forall w1, same_env w w1 ->
    fst (finish_all (map (fun code => pending code w) codes) w1) =
    map (fun code => estimate code w) codes.
Proof.
  induction codes as [|code codes IH]; intros w1 He; simpl; [ done | ].
  destruct (finish_estimate code w w1 He) as [Hr He'].
  destruct (finish (pending code w) w1) as [a w1']. simpl in Hr, He'.
  specialize (IH w1' He').
  destruct (finish_all (map (fun code => pending code w) codes) w1') as [rs w2].
  simpl in *. by rewrite Hr, IH.
Qed.

Lemma gather_estimates codes w :
  fst (gather (map get_fund_estimate codes) w) = map (fun code => estimate code w) codes.
Proof.
  unfold gather.
  destruct (start_all_estimates w codes w) as (w2 & -> & (Ht & Hl & Hc & Hn)).
  { by repeat split. }
  apply finish_all_estimates. split; [ done | by rewrite Hc ].
Qed.

Lemma valid_results_estimates codes w :
  valid_results (map (fun code => estimate code w) codes) =
  omap (fun code => quote_of code w) codes.
Proof.
  unfold valid_results, quote_of.
  induction codes as [|code codes IH]; [ done | ].
  destruct (estimate code w) as [[q|]|e] eqn:E; simpl; rewrite E;
    [ f_equal | | ]; exact IH.
Qed.

(** C5. [get_fund_estimates_batch] returns a list and nothing else; the list
    holds, in the order of the codes, the quote of every code whose single
    call yields one, and nothing for a code whose call yields [None] or
    raises.  A single call that has to fetch never raises, and one whose
    request raises yields [None]; a single call that finds its key in the
    cache returns, or raises [KeyError] when the entry has expired since
    the membership test, and the batch drops it.  So for three codes of
    which only the second fails the result is the pair of the first and
    the third quote. *)
Theorem batch_keeps_successes :
  (forall codes w,
     fst (get_fund_estimates_batch codes w) = omap (fun code => quote_of code w) codes) /\
  (forall code w,
     (cache_contains (_realtime_cache w) (timer w) (estimate_key code) = false ->
      exists o, estimate code w = Ok o) /\
     ((exists o, estimate code w = Ok o) \/
      (cache_contains (_realtime_cache w) (timer w) (estimate_key code) = true /\
       estimate code w = Raise KeyError /\ quote_of code w = None))) /\
  (forall code w e,
     cache_contains (_realtime_cache w) (timer w) (estimate_key code) = false ->
     network w (estimate_request code) = Raise e ->
     estimate code w = Ok None) /\
  (forall a b c w qa qc,
     quote_of a w = Some qa -> quote_of b w = None -> quote_of c w = Some qc ->
     fst (get_fund_estimates_batch [a; b; c] w) = [qa; qc] /\
     length (fst (get_fund_estimates_batch [a; b; c] w)) = 2%nat).
Proof.
  assert (Hbatch : forall codes w,
            fst (get_fund_estimates_batch codes w) =
            omap (fun code => quote_of code w) codes).
  { intros codes w. unfold get_fund_estimates_batch. cbv zeta.
    pose proof (gather_estimates codes w) as Hg.
    destruct (gather (map get_fund_estimate codes) w) as [rs w']. simpl in *.
    rewrite Hg. apply valid_results_estimates. }
  split; [ exact Hbatch | ]. split; [ | split ].
  - intros code w. split; [ apply estimate_miss_total | ].
    destruct (estimate_outcome code w) as [? | [Hc He]]; [ by left | right ].
    split; [ done | ]. split; [ done | ]. unfold quote_of. by rewrite He.
  - intros code w e Hc Hn. unfold estimate.
    destruct (estimate_miss code w Hc) as [_ ->]. by rewrite Hn.
  - intros a b c w qa qc Ha Hb Hc. rewrite Hbatch. simpl.
    by rewrite Ha, Hb, Hc.
Qed.

(** ** The quote cache across two calls *)

Lemma find_app_none {A} (f : A -> bool) (l1 l2 : list A) :
  (forall x, In x l1 -> f x = false) ->
  List.find f (l1 ++ l2) = List.find f l2.
Proof.
  intros Hno. induction l1 as [|a l1 IH]; simpl; [ done | ].
  rewrite (Hno a); [ | by left ]. apply IH. intros x Hx. apply Hno. by right.
Qed.

Lemma In_drop {A} (n : nat) (l : list A) (x : A) : In x (drop n l) -> In x l.
Proof.
  revert l. induction n as [|n IH]; intros l; [ done | ].
  destruct l as [|a l]; simpl; [ done | ]. intros Hx. right. by apply IH.
Qed.

(** A stored value is found under its key, stamped with the time of the
    store. *)
Lemma setitem_find {V} (c c' : ttl_cache V) (t : Z) (k : string) (v : V) :
  cache_setitem c t k v = Ok c' ->
  cache_find c' k = Some (mk_entry k v t) /\
  ttl c' = ttl c /\ serves_at_ttl c' = serves_at_ttl c /\ maxsize c' = maxsize c.
Proof.
  unfold cache_setitem. destruct (maxsize c) as [|room] eqn:Em; [ done | ].
  intros Heq. injection Heq as <-. unfold cache_find. simpl.
  split; [ | done ].
  rewrite find_app_none.
  - simpl. unfold has_key. simpl. by rewrite String.eqb_refl.
  - intros x Hx. apply In_drop in Hx. apply filter_In in Hx as [_ Hx].
    by destruct (has_key k x).
Qed.

Lemma fresh_within_ttl {V} (c : ttl_cache V) (t t' : Z) (e : entry V) :
  t' - e_inserted e < ttl c -> fresh c t' e = true.
Proof.
  intros Hlt. unfold fresh. destruct (serves_at_ttl c); lia.
Qed.

Lemma stale_beyond_ttl {V} (c : ttl_cache V) (t' : Z) (e : entry V) :
  ttl c < t' - e_inserted e -> fresh c t' e = false.
Proof.
  intros Hlt. unfold fresh. destruct (serves_at_ttl c); lia.
Qed.

(** A call that yields a quote after a fetch has stored it. *)
Lemma resume_stores code answer w q w' :
  estimate_resume code answer w = (Ok (Some q), w') ->
  exists c,
    cache_setitem (_realtime_cache w) (timer w) (estimate_key code) q = Ok c /\
    w' = set_realtime_cache c w.
Proof.
  unfold estimate_resume, estimate_body.
  destruct answer as [r|e]; simpl; [ | done ].
  destruct (status_code r =? 200); [ | done ].
  destruct (search_jsonpgz (text r)) as [g|]; [ | done ].
  destruct (json_loads g) as [data|e]; simpl; [ | done ].
  destruct (estimate_of code data) as [q'|e]; simpl; [ | done ].
  destruct (cache_setitem _ _ _ q') as [c|e] eqn:Hset; simpl; [ | done ].
  intros Heq. injection Heq as <- <-. eauto.
Qed.

(** A call that yields nothing leaves the cache as it was. *)
Lemma resume_none code answer w w' :
  estimate_resume code answer w = (Ok None, w') -> w' = w.
Proof.
  unfold estimate_resume.
  destruct (try_except _ _) as [[q w'']|]; intros Heq; by injection Heq.
Qed.

Lemma run_sends_at_most_one code w :
  (length (sent (snd (run (get_fund_estimate code) w))) <= length (sent w) + 1)%nat.
Proof.
  destruct (cache_contains (_realtime_cache w) (timer w) (estimate_key code)) eqn:Hc.
  - destruct (estimate_hit code w Hc) as [_ ->]. simpl. lia.
  - destruct (estimate_miss code w Hc) as [_ ->].
    destruct (resume_world code (network w (estimate_request code))
                (send (estimate_request code) w)) as (_ & _ & -> & _).
    simpl. rewrite length_app. simpl. lia.
Qed.

(** A call that fetched a quote at [timer w] leaves it in the cache.  A
    later call that tests the cache at [t2] and indexes it at [t2 + d2]
    is served from it as long as both readings are less than the TTL after
    [timer w]; when the entry is fresh at the first reading and beyond the
    TTL at the second, the call raises [KeyError]. *)
Lemma fetched_then_cached code w q t2 d2 net2 :
  cache_contains (_realtime_cache w) (timer w) (estimate_key code) = false ->
  estimate code w = Ok (Some q) ->
  let w1 := snd (run (get_fund_estimate code) w) in
  cache_find (_realtime_cache w1) (estimate_key code) =
    Some (mk_entry (estimate_key code) q (timer w)) /\
  sent w1 = sent w ++ [estimate_request code] /\
  (0 <= d2 -> t2 + d2 - timer w < ttl (_realtime_cache w) ->
   run (get_fund_estimate code) (later t2 d2 net2 w1) =
     (Ok (Some q), later t2 d2 net2 w1)) /\
  (t2 - timer w < ttl (_realtime_cache w) ->
   ttl (_realtime_cache w) < t2 + d2 - timer w ->
   run (get_fund_estimate code) (later t2 d2 net2 w1) =
     (Raise KeyError, later t2 d2 net2 w1)).
Proof.
  intros Hmiss Hq. cbv zeta. unfold estimate in Hq.
  destruct (estimate_miss code w Hmiss) as [_ Hrun]. rewrite Hrun in Hq |- *.
  destruct (estimate_resume code _ _) as [r w'] eqn:Hres. simpl in Hq. subst r.
  destruct (resume_stores _ _ _ _ _ Hres) as (c & Hset & ->). simpl in Hset |- *.
  destruct (setitem_find _ _ _ _ _ Hset) as (Hfind & Httl & _ & _).
  split; [ done | ]. split; [ done | ].
  set (w1 := set_realtime_cache c (send (estimate_request code) w)).
  assert (Hhit : t2 - timer w < ttl (_realtime_cache w) ->
                 run (get_fund_estimate code) (later t2 d2 net2 w1) =
                 (hit_answer code (later t2 d2 net2 w1), later t2 d2 net2 w1)).
  { intros Hlt. apply estimate_hit. simpl. unfold cache_contains. rewrite Hfind.
    apply (fresh_within_ttl c t2). simpl. rewrite Httl. lia. }
  split.
  - intros Hd Hlt. rewrite Hhit by lia. f_equal.
    unfold hit_answer, cache_getitem. simpl. rewrite Hfind.
    rewrite (fresh_within_ttl c (t2 + d2)); [ done | ]. simpl. rewrite Httl. lia.
  - intros Hlt Hold. rewrite (Hhit Hlt). f_equal.
    unfold hit_answer, cache_getitem. simpl. rewrite Hfind.
    rewrite (stale_beyond_ttl c (t2 + d2)); [ done | ]. simpl. rewrite Httl. lia.
Qed.

(** C6, as the code has it.  Let a first call at time [timer w] yield the
    quote [q].  Then a second call, whose readings [t2] and [t2 + d2] of
    the cache's clock are both less than the TTL later, and the first call
    issue at most one request between them; and when the first call
    fetched [q], the second returns [q] from the cache without any request.
    A call that finds no fresh entry issues a request; when it yields a
    quote, the quote is in the cache with the time of the call as its
    timestamp; when it yields nothing, the cache is as before, so the next
    call goes to the network again.  An entry older than the TTL is not
    fresh.  A second call that tests the cache less than the TTL later and
    indexes it more than the TTL later finds the entry and then misses it:
    it raises [KeyError] and sends no request. *)
Theorem cached_quote_served_within_ttl code w q :
  let key := estimate_key code in
  let w1 := snd (run (get_fund_estimate code) w) in
  (estimate code w = Ok (Some q) ->
   forall t2 d2 net2, 0 <= d2 -> t2 + d2 - timer w < ttl (_realtime_cache w) ->
     (length (sent (snd (run (get_fund_estimate code) (later t2 d2 net2 w1)))) <=
      length (sent w) + 1)%nat /\
     (cache_contains (_realtime_cache w) (timer w) key = false ->
      run (get_fund_estimate code) (later t2 d2 net2 w1) =
        (Ok (Some q), later t2 d2 net2 w1) /\
      sent (later t2 d2 net2 w1) = sent w ++ [estimate_request code])) /\
  (cache_contains (_realtime_cache w) (timer w) key = false ->
   sent w1 = sent w ++ [estimate_request code] /\
   (estimate code w = Ok (Some q) ->
    cache_find (_realtime_cache w1) key = Some (mk_entry key q (timer w))) /\
   (estimate code w = Ok None -> _realtime_cache w1 = _realtime_cache w)) /\
  (forall e, cache_find (_realtime_cache w) key = Some e ->
     ttl (_realtime_cache w) < timer w - e_inserted e ->
     cache_contains (_realtime_cache w) (timer w) key = false) /\
  (estimate code w = Ok (Some q) ->
   cache_contains (_realtime_cache w) (timer w) key = false ->
   forall t2 d2 net2,
     t2 - timer w < ttl (_realtime_cache w) ->
     ttl (_realtime_cache w) < t2 + d2 - timer w ->
     run (get_fund_estimate code) (later t2 d2 net2 w1) =
       (Raise KeyError, later t2 d2 net2 w1)).
Proof.
  cbv zeta. split; [ | split; [ | split ] ].
  - intros Hq t2 d2 net2 Hd Hlt.
    destruct (cache_contains (_realtime_cache w) (timer w) (estimate_key code)) eqn:Hc.
    + split; [ | done ].
      destruct (estimate_hit code w Hc) as [_ ->]. simpl.
      apply (run_sends_at_most_one code (later t2 d2 net2 w)).
    + destruct (fetched_then_cached code w q t2 d2 net2 Hc Hq) as (_ & Hsent & Hrun & _).
      specialize (Hrun Hd Hlt). split.
      * rewrite Hrun. simpl. rewrite Hsent, length_app. simpl. lia.
      * intros _. split; [ exact Hrun | exact Hsent ].
  - intros Hc. destruct (estimate_miss code w Hc) as [_ Hrun].
    split; [ | split ].
    + rewrite Hrun.
      by destruct (resume_world code (network w (estimate_request code))
                     (send (estimate_request code) w)) as (_ & _ & -> & _).
    + intros Hq. unfold estimate in Hq. rewrite Hrun in Hq |- *.
      destruct (estimate_resume code _ _) as [r w'] eqn:Hres. simpl in Hq. subst r.
      destruct (resume_stores _ _ _ _ _ Hres) as (c & Hset & ->). simpl in Hset |- *.
      by destruct (setitem_find _ _ _ _ _ Hset) as (Hfind & _).
    + intros Hq. unfold estimate in Hq. rewrite Hrun in Hq |- *.
      destruct (estimate_resume code _ _) as [r w'] eqn:Hres. simpl in Hq. subst r.
      by rewrite (resume_none _ _ _ _ Hres).
  - intros e Hfind Hold. unfold cache_contains. rewrite Hfind.
    by apply stale_beyond_ttl.
  - intros Hq Hc t2 d2 net2 Hlt Hold.
    by destruct (fetched_then_cached code w q t2 d2 net2 Hc Hq) as (_ & _ & _ & Hkey);
      apply Hkey.
Qed.

End ClientFacts.

(** ** Worked examples on the reference runtime *)

Import Reference.

(** Closes [forall t, t ∈ table -> ~ tuple_matches name t] for a concrete
    table and name by running [matches] on every tuple. *)
Ltac no_tuple_matches :=
  let t := fresh "t" in
  let Ht := fresh "Ht" in
  let Hm := fresh "Hm" in
  intros t Ht Hm; destruct t as [?l ?ks];
  apply (proj2 (matches_spec _ _ _)) in Hm; revert Hm;
  repeat (apply elem_of_cons in Ht as [Ht | Ht];
          [ injection Ht as -> ->; vm_compute; discriminate | ]);
  by apply elem_of_nil in Ht.

(** The example of the specification, and a name that no keyword matches. *)
Lemma sector_is_first_match_witness :
  get_fund_sector (Some (mk_fund_detail "512480" "某半导体芯片ETF" "" "" "" (@None Z) [])) =
    "半导体" /\
  get_fund_sector (Some (mk_fund_detail "000001" "华夏稳健回报" "" "" "" (@None Z) [])) =
    "综合".
Proof.
  split.
  - apply (proj1 (@sector_is_first_match Z)
             (mk_fund_detail "512480" "某半导体芯片ETF" "" "" "" None [])
             (take 5 sector_keywords) "半导体" ["半导体"; "芯片"; "集成电路"]
             (drop 6 sector_keywords)).
    + reflexivity.
    + simpl. no_tuple_matches.
    + apply (matches_spec _ "半导体"). by vm_compute.
  - apply (proj1 (proj2 (@sector_is_first_match Z))
             (mk_fund_detail "000001" "华夏稳健回报" "" "" "" None [])).
    simpl. unfold sector_keywords. no_tuple_matches.
Defined.

(** The example of the specification: of three codes the second fails to
    connect; the batch holds the first and the third quote.  And a batch
    in which the call for the first code finds its entry at time 9 and
    misses it at time 11: the call raises [KeyError], the batch drops
    it. *)
Lemma batch_keeps_successes_witness :
  fst (get_fund_estimates_batch ["000001"; "000002"; "000003"] (client_at 0)) =
    [served "000001"; served "000003"] /\
  length (fst (get_fund_estimates_batch ["000001"; "000002"; "000003"] (client_at 0))) = 2%nat /\
  estimate "000002" (client_at 0) = Ok None /\
  (let w1 := snd (run (get_fund_estimate "000001") (client_at 0)) in
   estimate "000001" (later 9 2 net w1) = Raise KeyError /\
   fst (get_fund_estimates_batch ["000001"; "000003"] (later 9 2 net w1)) =
     [served "000003"]).
Proof.
  split; [ | split; [ | split ] ].
  - refine (proj1 (proj2 (proj2 (proj2 (@batch_keeps_successes Z _ _)))
                     "000001" "000002" "000003" (client_at 0)
                     (served "000001") (served "000003") _ _ _));
      vm_compute; reflexivity.
  - refine (proj2 (proj2 (proj2 (proj2 (@batch_keeps_successes Z _ _)))
                     "000001" "000002" "000003" (client_at 0)
                     (served "000001") (served "000003") _ _ _));
      vm_compute; reflexivity.
  - refine (proj1 (proj2 (proj2 (@batch_keeps_successes Z _ _)))
              "000002" (client_at 0) ConnectError _ _);
      vm_compute; reflexivity.
  - cbv zeta. split; [ by vm_compute | ].
    etrans; [ apply (proj1 (@batch_keeps_successes Z _ _)) | ].
    by vm_compute.
Defined.

(** The claim C6 as stated fails: the fund 999999 is not found, nothing is
    cached, and a second call one second later, well within the TTL of ten
    seconds, issues a second request. *)
Lemma failed_fetch_is_not_cached :
  let w0 := client_at 0 in
  let w1 := snd (run (get_fund_estimate "999999") w0) in
  let second := run (get_fund_estimate "999999") (later 1 0 net w1) in
  estimate "999999" w0 = Ok None /\
  1 - timer w0 < ttl (_realtime_cache w0) /\
  fst second = Ok None /\
  sent (snd second) = [estimate_request "999999"; estimate_request "999999"] /\
  length (sent (snd second)) = 2%nat.
Proof. vm_compute. repeat split. Qed.

(** A quote fetched at time 0 is served from the cache at time 9, with the
    one request of the first call in the log; a call that tests the cache
    at time 9 and indexes it at time 11, the TTL being 10, raises
    [KeyError]. *)
Lemma cached_quote_served_within_ttl_witness :
  let w1 := snd (run (get_fund_estimate "000001") (client_at 0)) in
  run (get_fund_estimate "000001") (later 9 0 net w1) =
    (Ok (Some (served "000001")), later 9 0 net w1) /\
  sent (later 9 0 net w1) = [estimate_request "000001"] /\
  cache_find (_realtime_cache w1) (estimate_key "000001") =
    Some (mk_entry (estimate_key "000001") (served "000001") 0) /\
  run (get_fund_estimate "000001") (later 9 2 net w1) =
    (Raise KeyError, later 9 2 net w1).
Proof.
  cbv zeta.
  pose proof (@cached_quote_served_within_ttl Z _ _ "000001" (client_at 0) (served "000001"))
    as (Hfirst & Hmiss & _ & Hexpired).
  assert (Hq : estimate "000001" (client_at 0) = Ok (Some (served "000001")))
    by (vm_compute; reflexivity).
  assert (Hc : cache_contains (_realtime_cache (client_at 0)) (timer (client_at 0))
                 (estimate_key "000001") = false) by reflexivity.
  assert (Hlt : 9 + 0 - timer (client_at 0) < ttl (_realtime_cache (client_at 0)))
    by (vm_compute; reflexivity).
  destruct (Hfirst Hq 9 0 net ltac:(lia) Hlt) as [_ Hsecond].
  destruct (Hsecond Hc) as [Hrun Hsent].
  destruct (Hmiss Hc) as (_ & Hstored & _).
  split; [ exact Hrun | ]. split; [ exact Hsent | ]. split; [ exact (Hstored Hq) | ].
  apply (Hexpired Hq Hc 9 2 net); vm_compute; reflexivity.
Defined.

(** Four ways to fail: no connection, an error code in the payload, a body
    that is no JSON, a status that is not 200.  And a call that does not
    fetch: it finds the page fetched at time 0 when it tests the cache at
    time 3590, and misses it at time 3610. *)
Lemma history_failure_gives_empty_page_witness :
  run (get_fund_nav_history "000002" 3 50 (Some "2024-01-01") None) (client_at 0) =
    (Ok (empty_page 3 50),
     send (history_request "000002" 3 50 (Some "2024-01-01") None) (client_at 0)) /\
  run (get_fund_nav_history "000004" 1 20 None None) (client_at 0) =
    (Ok (empty_page 1 20), send (history_request "000004" 1 20 None None) (client_at 0)) /\
  run (get_fund_nav_history "000005" 1 20 None None) (client_at 0) =
    (Ok (empty_page 1 20), send (history_request "000005" 1 20 None None) (client_at 0)) /\
  run (get_fund_nav_history "000009" 1 20 None None) (client_at 0) =
    (Ok (empty_page 1 20), send (history_request "000009" 1 20 None None) (client_at 0)) /\
  (let w1 := snd (run (get_fund_nav_history "000001" 1 20 None None) (client_at 0)) in
   run (get_fund_nav_history "000001" 1 20 None None) (later 3590 20 net w1) =
     (Raise KeyError, later 3590 20 net w1)).
Proof.
  split; [ | split; [ | split; [ | split ] ] ].
  - refine (proj1 (proj2 (@history_failure_gives_empty_page Z _ _
              "000002" 3 50 (Some "2024-01-01") None (client_at 0)) _) ConnectError _);
      vm_compute; reflexivity.
  - refine (proj1 (proj2 (proj2 (proj2 (proj2 (@history_failure_gives_empty_page Z _ _
              "000004" 1 20 None None (client_at 0)) _))))
              (mk_response 200 history_error_text) (JObj [("ErrCode", JInt (-999))]) _ _ _ _);
      vm_compute; reflexivity.
  - refine (proj1 (proj2 (proj2 (proj2 (@history_failure_gives_empty_page Z _ _
              "000005" 1 20 None None (client_at 0)) _)))
              (mk_response 200 "<html>busy</html>") JSONDecodeError _ _ _);
      vm_compute; reflexivity.
  - refine (proj1 (proj2 (proj2 (@history_failure_gives_empty_page Z _ _
              "000009" 1 20 None None (client_at 0)) _))
              (mk_response 404 "") _ _);
      [ vm_compute; reflexivity | vm_compute; reflexivity | vm_compute; discriminate ].
  - cbv zeta.
    etrans; [ apply (proj2 (proj1 (@history_failure_gives_empty_page Z _ _
                "000001" 1 20 None None
                (later 3590 20 net
                   (snd (run (get_fund_nav_history "000001" 1 20 None None)
                           (client_at 0))))))); by vm_compute | ].
    by vm_compute.
Defined.

End EastMoneyClientSpec.
(* ===================================================================== *)
(** * More facts about the intraday store                                 *)
(* ===================================================================== *)

Module IntradayStoreMore.
Import Py IntradayStore IntradayStoreSpec.

Section MoreStoreFacts.

Context {F : Type} `{PyFloat F} `{PyDatetime}.

Implicit Types (w : world F) (kv funds : list (string * json F)) (data : json F).

(** ** Time stamps *)

Lemma isoformat_nonempty (d : datetime) : isoformat d <> "".
Proof. unfold isoformat, strftime_ymd. cbn [zpad]. simpl. discriminate. Qed.

(** Inside the trading window the time of day is after [CLEAR_TIME]. *)
Lemma trading_after_clear w :
  _is_trading_time w = true -> time_cmp (dt_time (now w)) CLEAR_TIME = Gt.
Proof.
  unfold _is_trading_time. intros Ht. apply andb_true_iff in Ht as [Ho _].
  destruct (dt_time (now w)) as [h m s u].
  unfold time_leb, time_cmp, is_le, MARKET_OPEN, CLEAR_TIME in *.
  cbn [hour minute second microsecond] in *.
  destruct (9 ?= h) eqn:Eh; [ | | discriminate Ho ].
  - apply Z.compare_eq in Eh. subst h. rewrite Z.compare_refl.
    destruct (30 ?= m) eqn:Em; [ | | discriminate Ho ].
    + apply Z.compare_eq in Em. by subst m.
    + pose proof (proj1 (Z.compare_lt_iff 30 m) Em) as Hlt.
      assert (Hm : (m ?= 0) = Gt) by (apply Z.compare_gt_iff; lia).
      by rewrite Hm.
  - pose proof (proj1 (Z.compare_lt_iff 9 h) Eh) as Hlt.
    assert (Hh : (h ?= 9) = Gt) by (apply Z.compare_gt_iff; lia).
    by rewrite Hh.
Qed.

(** A stamp written inside the trading window is not stale for the rest of
    the day. *)
Lemma trading_stamp_not_stale w (now2 : datetime) :
  _is_trading_time w = true ->
  dt_date now2 = dt_date (now w) ->
  stale (now w) now2 = false.
Proof.
  intros Ht Hd. unfold stale. rewrite Hd.
  unfold date_ltb, datetime_ltb, datetime_cmp, combine. simpl.
  rewrite date_cmp_refl, (trading_after_clear w Ht). simpl.
  by rewrite andb_false_r.
Qed.

(** ** What a writer leaves on disk *)

Lemma prepare_stamped kv (stamp : json F) :
  exists kv1,
    ensure_funds (JObj (dict_set "last_update" stamp kv)) = Ok (JObj kv1) /\
    dict_get "funds" kv1 = Some (default (JObj []) (dict_get "funds" kv)) /\
    dict_get "last_update" kv1 = Some stamp.
Proof.
  unfold ensure_funds. simpl. unfold dict_mem.
  assert (Hne : dict_get "funds" (dict_set "last_update" stamp kv) = dict_get "funds" kv).
  { by apply dict_get_set_ne. }
  rewrite Hne. destruct (dict_get "funds" kv) as [v|] eqn:Hf; simpl.
  - eexists. split; [ reflexivity | ]. split; [ done | apply dict_get_set_eq ].
  - eexists. split; [ reflexivity | ]. split; [ by rewrite dict_get_set_eq | ].
    rewrite dict_get_set_ne; [ apply dict_get_set_eq | done ].
Qed.

Lemma funds_of_default kv funds :
  funds_of (JObj kv) = Some funds ->
  default (JObj []) (dict_get "funds" kv) = JObj funds.
Proof.
  intros Hf. pose proof (funds_of_prepared kv) as Hp. by rewrite Hf in Hp.
Qed.

Lemma funds_of_dict data funds :
  funds_of data = Some funds -> exists kv, data = JObj kv.
Proof. destruct data; try done. eauto. Qed.

(** [add_point] on a mapping that holds a list, or nothing, under [code]. *)
Lemma add_point_appends timestamp code change kv funds :
  dict_get "funds" kv = Some (JObj funds) ->
  list_or_absent (dict_get code funds) = true ->
  add_point timestamp code change (JObj kv) =
  Ok (JObj (dict_set "funds"
              (JObj (dict_set code (JArr (points funds code ++ [point timestamp change])) funds))
              kv)).
Proof.
  intros Hf Hl. pose proof (add_point_spec timestamp code change kv funds Hf) as Hadd.
  unfold points. destruct (dict_get code funds) as [v|]; [ destruct v; try done | done ].
Qed.

(** A document written inside the trading window is read back unchanged
    for the rest of the day. *)
Lemma read_back w w2 kv :
  _is_trading_time w = true ->
  fromisoformat (isoformat (now w)) = IsoNaive (now w) ->
  dt_date (now w2) = dt_date (now w) ->
  disk w2 !! _get_today_file w = Some (Doc (JObj kv)) ->
  dict_get "last_update" kv = Some (JStr (isoformat (now w))) ->
  _read_intraday_data w2 = JObj kv.
Proof.
  intros Ht Hiso Hd Hdisk Hlu.
  assert (Hfile : _get_today_file w2 = _get_today_file w).
  { unfold _get_today_file. by rewrite Hd. }
  rewrite <- Hfile in Hdisk. rewrite (read_doc w2 _ Hdisk).
  rewrite (should_clear_naive w2 kv _ (now w) Hlu (isoformat_nonempty _) Hiso).
  by rewrite (trading_stamp_not_stale w (now w2) Ht Hd).
Qed.

Lemma funds_of_read w kv funds :
  _read_intraday_data w = JObj kv ->
  dict_get "funds" kv = Some (JObj funds) ->
  get_default (_read_intraday_data w) "funds" (JObj []) = Ok (JObj funds).
Proof. intros -> Hf. unfold get_default. simpl. by rewrite Hf. Qed.

(** What [save_fund_change] writes. *)
Lemma save_fund_change_writes code change timestamp w funds :
  _is_trading_time w = true ->
  write_outcome w = WriteOk ->
  funds_of (_read_intraday_data w) = Some funds ->
  list_or_absent (dict_get code funds) = true ->
  exists kv',
    save_fund_change code change timestamp w =
      (Ok true, set_disk (<[_get_today_file w := Doc (JObj kv')]> (disk w)) w) /\
    dict_get "last_update" kv' = Some (JStr (isoformat (now w))) /\
    dict_get "funds" kv' =
      Some (JObj (dict_set code
                    (JArr (points funds code ++
                           [point (default (strftime_hms (dt_time (now w))) timestamp) change]))
                    funds)).
Proof.
  intros Ht Hw Hfo Hl. unfold save_fund_change. rewrite Ht. cbn [negb].
  destruct (funds_of_dict _ _ Hfo) as [kv Hread]. rewrite Hread in Hfo |- *.
  cbn [setitem bind].
  destruct (prepare_stamped kv (JStr (isoformat (now w)))) as (kv1 & -> & Hf1 & Hlu1).
  cbn [bind]. rewrite (funds_of_default _ _ Hfo) in Hf1.
  rewrite (add_point_appends _ code change kv1 funds Hf1 Hl).
  unfold _write_intraday_data, dump. rewrite Hw. simpl.
  eexists. split; [ reflexivity | ]. split.
  - by rewrite dict_get_set_ne.
  - apply dict_get_set_eq.
Qed.

(** X1. A sample saved inside the trading window, with a write that
    succeeds, is read back for the rest of the day: a later read of the
    same code yields the samples the artifact held for it followed by the
    new one, and a read of any other code yields what it yielded before.
    [datetime.fromisoformat] is taken to read back the stamp
    [isoformat] printed. *)
Theorem saved_sample_is_read_back code change timestamp w funds :
  _is_trading_time w = true ->
  write_outcome w = WriteOk ->
  funds_of (_read_intraday_data w) = Some funds ->
  list_or_absent (dict_get code funds) = true ->
  fromisoformat (isoformat (now w)) = IsoNaive (now w) ->
  let ts := default (strftime_hms (dt_time (now w))) timestamp in
  let r := save_fund_change code change timestamp w in
  fst r = Ok true /\
  forall w2, later_same_day w (snd r) w2 ->
    get_fund_intraday code w2 =
      (Ok (JArr (points funds code ++ [point ts change])), w2) /\
    (forall c, c <> code -> get_fund_intraday c w2 = (Ok (stored funds c), w2)).
Proof.
  intros Ht Hw Hfo Hl Hiso. cbv zeta.
  destruct (save_fund_change_writes code change timestamp w funds Ht Hw Hfo Hl)
    as (kv' & -> & Hlu & Hf).
  split; [ done | ]. intros w2 [Hdisk Hd]. simpl in Hdisk.
  assert (Hread : _read_intraday_data w2 = JObj kv').
  { apply (read_back w w2 kv' Ht Hiso Hd); [ | done ].
    rewrite Hdisk. apply lookup_insert_eq. }
  pose proof (funds_of_read w2 kv' _ Hread Hf) as Hg.
  split.
  - rewrite (intraday_of_doc w2 _ code Hg). unfold stored.
    by rewrite dict_get_set_eq.
  - intros c Hne. rewrite (intraday_of_doc w2 _ c Hg). unfold stored.
    by rewrite dict_get_set_ne.
Qed.

(** ** The batch writer *)

Lemma dict_set_same {V} (k : string) (v : V) (d : list (string * V)) :
  dict_get k d = Some v -> dict_set k v d = d.
Proof.
  induction d as [|[k' v'] d IH]; simpl; [ done | ].
  destruct (String.eqb k k') eqn:E.
  - apply String.eqb_eq in E. subst k'. by intros [= ->].
  - intros Hg. by rewrite IH.
Qed.

Lemma samples_for_absent timestamp c (changes : list (string * option F)) :
  c ∉ codes_of changes -> samples_for timestamp c changes = [].
Proof.
  induction changes as [|[code [change|]] changes IH]; intros Hn; [ done | | ].
  - change (codes_of ((code, Some change) :: changes)) with (code :: codes_of changes) in Hn.
    apply not_elem_of_cons in Hn as [Hne Hn].
    unfold samples_for. simpl.
    assert (He : String.eqb code c = false) by (apply String.eqb_neq; congruence).
    rewrite He. by apply IH.
  - unfold samples_for. simpl. destruct (String.eqb code c); by apply IH.
Qed.

Lemma samples_for_same timestamp code change (changes : list (string * option F)) :
  samples_for timestamp code ((code, Some change) :: changes) =
  point timestamp change :: samples_for timestamp code changes.
Proof. unfold samples_for. simpl. by rewrite String.eqb_refl. Qed.

Lemma samples_for_other timestamp c code o (changes : list (string * option F)) :
  c <> code ->
  samples_for timestamp c ((code, o) :: changes) = samples_for timestamp c changes.
Proof.
  intros Hne. unfold samples_for. simpl.
  assert (He : String.eqb code c = false) by (apply String.eqb_neq; congruence).
  by rewrite He.
Qed.

Lemma samples_for_none timestamp c code (changes : list (string * option F)) :
  samples_for timestamp c ((code, None) :: changes) = samples_for timestamp c changes.
Proof. unfold samples_for. simpl. by destruct (String.eqb code c). Qed.

Lemma points_set_eq code (l : list (json F)) funds :
  points (dict_set code (JArr l) funds) code = l.
Proof. unfold points. by rewrite dict_get_set_eq. Qed.

Lemma points_set_ne c code (v : json F) funds :
  c <> code -> points (dict_set code v funds) c = points funds c.
Proof. intros Hne. unfold points. by rewrite dict_get_set_ne. Qed.

(** The loop of the batch writer: what each code holds when it is over. *)
Lemma fold_add_change_result timestamp (changes : list (string * option F)) :
  forall kv funds,
    dict_get "funds" kv = Some (JObj funds) ->
    forallb (fun code => list_or_absent (dict_get code funds)) (codes_of changes) = true ->
    exists funds',
      fold_left (add_change timestamp) changes (Ok (JObj kv)) =
        Ok (JObj (dict_set "funds" (JObj funds') kv)) /\
      forall c,
        dict_get c funds' =
        if decide (c ∈ codes_of changes)
        then Some (JArr (points funds c ++ samples_for timestamp c changes))
        else dict_get c funds.
Proof.
  induction changes as [|[code [change|]] changes IH]; intros kv funds Hf Hall.
  - exists funds. split; [ simpl; by rewrite dict_set_same | ].
    intros c. rewrite decide_False; [ done | apply not_elem_of_nil ].
  - rewrite fold_cons_some.
    change (codes_of ((code, Some change) :: changes)) with (code :: codes_of changes) in *.
    cbn [forallb] in Hall. apply andb_true_iff in Hall as [Hl Hall].
    rewrite (add_point_appends timestamp code change kv funds Hf Hl).
    set (l1 := points funds code ++ [point timestamp change]).
    destruct (IH (dict_set "funds" (JObj (dict_set code (JArr l1) funds)) kv)
                 (dict_set code (JArr l1) funds)) as (funds' & Hfold & Hget).
    { apply dict_get_set_eq. }
    { by rewrite list_or_absent_after_set. }
    exists funds'. split; [ by rewrite Hfold, dict_set_set | ].
    intros c. rewrite Hget. destruct (decide (c = code)) as [->|Hne].
    + rewrite (decide_True (P := code ∈ code :: _)); [ | by left ].
      rewrite samples_for_same, points_set_eq.
      destruct (decide (code ∈ codes_of changes)) as [Hin|Hnin].
      * unfold l1. by rewrite <- app_assoc.
      * rewrite dict_get_set_eq, (samples_for_absent _ _ _ Hnin). done.
    + rewrite (samples_for_other _ _ _ _ _ Hne), (points_set_ne _ _ _ _ Hne).
      rewrite (dict_get_set_ne _ _ _ _ Hne).
      destruct (decide (c ∈ codes_of changes)) as [Hin|Hnin].
      * rewrite decide_True; [ done | by right ].
      * rewrite decide_False; [ done | ].
        intros Hin. apply elem_of_cons in Hin as [?|?]; done.
  - rewrite fold_cons_none.
    change (codes_of ((code, None) :: changes)) with (codes_of changes) in *.
    destruct (IH kv funds Hf Hall) as (funds' & Hfold & Hget).
    exists funds'. split; [ done | ].
    intros c. rewrite Hget. by rewrite samples_for_none.
Qed.

(** What [save_funds_changes_batch] writes. *)
Lemma save_batch_writes changes w funds :
  _is_trading_time w = true ->
  write_outcome w = WriteOk ->
  funds_of (_read_intraday_data w) = Some funds ->
  forallb (fun code => list_or_absent (dict_get code funds)) (codes_of changes) = true ->
  exists kv' funds',
    save_funds_changes_batch changes w =
      (Ok true, set_disk (<[_get_today_file w := Doc (JObj kv')]> (disk w)) w) /\
    dict_get "last_update" kv' = Some (JStr (isoformat (now w))) /\
    dict_get "funds" kv' = Some (JObj funds') /\
    forall c,
      dict_get c funds' =
      if decide (c ∈ codes_of changes)
      then Some (JArr (points funds c ++
                       samples_for (strftime_hms (dt_time (now w))) c changes))
      else dict_get c funds.
Proof.
  intros Ht Hw Hfo Hall. unfold save_funds_changes_batch. rewrite Ht. cbn [negb].
  destruct (funds_of_dict _ _ Hfo) as [kv Hread]. rewrite Hread in Hfo |- *.
  cbn [setitem bind].
  destruct (prepare_stamped kv (JStr (isoformat (now w)))) as (kv1 & -> & Hf1 & Hlu1).
  cbn [bind]. rewrite (funds_of_default _ _ Hfo) in Hf1.
  destruct (fold_add_change_result (strftime_hms (dt_time (now w))) changes kv1 funds Hf1 Hall)
    as (funds' & -> & Hget).
  unfold _write_intraday_data, dump. rewrite Hw. simpl.
  eexists _, funds'. split; [ reflexivity | ]. split; [ | split ].
  - by rewrite dict_get_set_ne.
  - apply dict_get_set_eq.
  - exact Hget.
Qed.

(** X2. A batch saved inside the trading window, with a write that
    succeeds, is read back for the rest of the day: every code of the batch
    that carries a value holds its former samples followed by the samples
    of the batch for it, all with the one time stamp of the call; a code
    the batch names with [None], or does not name, reads as before. *)
Theorem saved_batch_is_read_back changes w funds :
  _is_trading_time w = true ->
  write_outcome w = WriteOk ->
  funds_of (_read_intraday_data w) = Some funds ->
  forallb (fun code => list_or_absent (dict_get code funds)) (codes_of changes) = true ->
  fromisoformat (isoformat (now w)) = IsoNaive (now w) ->
  let ts := strftime_hms (dt_time (now w)) in
  let r := save_funds_changes_batch changes w in
  fst r = Ok true /\
  forall w2, later_same_day w (snd r) w2 ->
    forall c,
      get_fund_intraday c w2 =
      (Ok (if decide (c ∈ codes_of changes)
           then JArr (points funds c ++ samples_for ts c changes)
           else stored funds c), w2).
Proof.
  intros Ht Hw Hfo Hall Hiso. cbv zeta.
  destruct (save_batch_writes changes w funds Ht Hw Hfo Hall)
    as (kv' & funds' & -> & Hlu & Hf & Hget).
  split; [ done | ]. intros w2 [Hdisk Hd] c. simpl in Hdisk.
  assert (Hread : _read_intraday_data w2 = JObj kv').
  { apply (read_back w w2 kv' Ht Hiso Hd); [ | done ].
    rewrite Hdisk. apply lookup_insert_eq. }
  rewrite (intraday_of_doc w2 _ c (funds_of_read w2 kv' _ Hread Hf)).
  unfold stored. rewrite Hget. by destruct (decide (c ∈ codes_of changes)).
Qed.

(** ** The files a writer touches *)

Lemma write_frame data w name :
  name <> _get_today_file w ->
  disk (snd (_write_intraday_data data w)) !! name = disk w !! name.
Proof.
  intros Hne. unfold _write_intraday_data, dump.
  destruct (write_outcome w); simpl; [ | done | ]; by rewrite lookup_insert_ne.
Qed.

(** The world a writer leaves is the one it found, or the one
    [_write_intraday_data] leaves on some document. *)
Lemma save_fund_change_world code change timestamp w :
  snd (save_fund_change code change timestamp w) = w \/
  exists data, snd (save_fund_change code change timestamp w) =
               snd (_write_intraday_data data w).
Proof.
  unfold save_fund_change. destruct (_is_trading_time w); simpl; [ | by left ].
  match goal with
  | |- context [match ?r with Ok _ => _ | Raise _ => _ end] => destruct r as [data|e]
  end; [ | by left ].
  right. exists data. by destruct (_write_intraday_data data w).
Qed.

Lemma save_batch_world changes w :
  snd (save_funds_changes_batch changes w) = w \/
  exists data, snd (save_funds_changes_batch changes w) =
               snd (_write_intraday_data data w).
Proof.
  unfold save_funds_changes_batch. destruct (_is_trading_time w); simpl; [ | by left ].
  match goal with
  | |- context [match ?r with Ok _ => _ | Raise _ => _ end] => destruct r as [data|e]
  end; [ | by left ].
  right. exists data. by destruct (_write_intraday_data data w).
Qed.

(** X3. The two writers and [clear_intraday_data] touch no file but
    today's: whatever they are given and whatever the outcome, every other
    file of the directory is as it was, no file is removed other than by
    being overwritten, and the readers leave the whole directory as it
    was. *)
Theorem writers_touch_only_today code change timestamp changes codes w name :
  name <> _get_today_file w ->
  disk (snd (save_fund_change code change timestamp w)) !! name = disk w !! name /\
  disk (snd (save_funds_changes_batch changes w)) !! name = disk w !! name /\
  disk (snd (clear_intraday_data w)) !! name = disk w !! name /\
  disk (snd (get_fund_intraday code w)) = disk w /\
  disk (snd (get_funds_intraday_batch codes w)) = disk w.
Proof.
  intros Hne. split; [ | split; [ | split; [ | split ] ] ].
  - destruct (save_fund_change_world code change timestamp w) as [-> | [data ->]];
      [ done | by apply write_frame ].
  - destruct (save_batch_world changes w) as [-> | [data ->]];
      [ done | by apply write_frame ].
  - by apply write_frame.
  - done.
  - done.
Qed.

(** ** Clearing *)

Lemma read_fresh_document w w2 :
  dt_date (now w2) = dt_date (now w) ->
  disk w2 !! _get_today_file w = Some (Doc (empty_data w)) ->
  get_default (_read_intraday_data w2) "funds" (JObj []) = Ok (JObj []).
Proof.
  intros Hd Hdisk.
  assert (Hfile : _get_today_file w2 = _get_today_file w).
  { unfold _get_today_file. by rewrite Hd. }
  rewrite <- Hfile in Hdisk. rewrite (read_doc w2 _ Hdisk).
  unfold empty_data. by rewrite should_clear_absent.
Qed.

(** X4. [clear_intraday_data] is not gated by the trading window: at any
    time of day, when the write succeeds, it returns [True] and every read
    of the rest of the day yields the empty list for every code, until a
    writer adds a sample. *)
Theorem clear_discards_samples w :
  write_outcome w = WriteOk ->
  let r := clear_intraday_data w in
  fst r = true /\
  forall w2, later_same_day w (snd r) w2 ->
    (forall code, get_fund_intraday code w2 = (Ok (JArr []), w2)) /\
    (forall codes, exists res,
       get_funds_intraday_batch codes w2 = (Ok res, w2) /\
       forall code, code ∈ codes -> dict_get code res = Some (JArr [])).
Proof.
  intros Hw. cbv zeta. unfold clear_intraday_data, _write_intraday_data, dump.
  rewrite Hw. simpl. split; [ done | ]. intros w2 [Hdisk Hd]. simpl in Hdisk.
  assert (Hf : get_default (_read_intraday_data w2) "funds" (JObj []) = Ok (JObj [])).
  { apply (read_fresh_document w w2 Hd). rewrite Hdisk. apply lookup_insert_eq. }
  split.
  - intros code. by rewrite (intraday_of_doc w2 [] code Hf).
  - intros codes. destruct (batch_of_doc w2 [] codes Hf) as (res & Hr & Hall).
    exists res. split; [ done | ]. intros code Hin. by rewrite (Hall code Hin).
Qed.

(** ** Writes that fail *)

Lemma read_unreadable w w2 :
  dt_date (now w2) = dt_date (now w) ->
  disk w2 !! _get_today_file w = Some Unreadable ->
  _read_intraday_data w2 = empty_data w2.
Proof.
  intros Hd Hdisk.
  assert (Hfile : _get_today_file w2 = _get_today_file w).
  { unfold _get_today_file. by rewrite Hd. }
  rewrite <- Hfile in Hdisk. unfold _read_intraday_data. by rewrite Hdisk.
Qed.

Lemma save_fund_change_runs code change timestamp w :
  _is_trading_time w = true ->
  appendable [code] (_read_intraday_data w) = true ->
  exists data,
    save_fund_change code change timestamp w =
    (Ok (fst (_write_intraday_data data w)), snd (_write_intraday_data data w)).
Proof.
  intros Ht Ha. unfold save_fund_change. rewrite Ht. cbn [negb].
  destruct (read_is_dict w) as [kv Hread]. rewrite Hread in Ha |- *.
  pose proof (single_update (default (strftime_hms (dt_time (now w))) timestamp)
                code change kv (JStr (isoformat (now w)))) as Hu.
  cbv zeta in Hu |- *. rewrite Ha in Hu. destruct Hu as [data ->].
  exists data. by destruct (_write_intraday_data data w).
Qed.

Lemma save_batch_runs changes w :
  _is_trading_time w = true ->
  appendable (codes_of changes) (_read_intraday_data w) = true ->
  exists data,
    save_funds_changes_batch changes w =
    (Ok (fst (_write_intraday_data data w)), snd (_write_intraday_data data w)).
Proof.
  intros Ht Ha. unfold save_funds_changes_batch. rewrite Ht. cbn [negb].
  destruct (read_is_dict w) as [kv Hread]. rewrite Hread in Ha |- *.
  pose proof (batch_update changes (strftime_hms (dt_time (now w)))
                kv (JStr (isoformat (now w)))) as Hu.
  cbv zeta in Hu |- *. rewrite Ha in Hu. destruct Hu as [data ->].
  exists data. by destruct (_write_intraday_data data w).
Qed.

Lemma write_open_fails data w :
  write_outcome w = OpenFails -> _write_intraday_data data w = (false, w).
Proof. intros Hw. unfold _write_intraday_data, dump. by rewrite Hw. Qed.

Lemma write_dump_fails data w :
  write_outcome w = DumpFails ->
  _write_intraday_data data w =
  (false, set_disk (<[_get_today_file w := Unreadable]> (disk w)) w).
Proof. intros Hw. unfold _write_intraday_data, dump. by rewrite Hw. Qed.

(** X5. What a failed write costs, inside the trading window on an
    artifact that can be appended to.  When the file cannot be opened both
    writers return [False] and nothing changes, so the samples saved before
    are still read.  When the file is opened, which truncates it, and the
    dump fails, both writers return [False] and today's samples are lost:
    every read of the rest of the day yields the empty list. *)
Theorem failed_write_effects code change timestamp changes w :
  _is_trading_time w = true ->
  appendable [code] (_read_intraday_data w) = true ->
  appendable (codes_of changes) (_read_intraday_data w) = true ->
  (write_outcome w = OpenFails ->
     save_fund_change code change timestamp w = (Ok false, w) /\
     save_funds_changes_batch changes w = (Ok false, w)) /\
  (write_outcome w = DumpFails ->
     fst (save_fund_change code change timestamp w) = Ok false /\
     fst (save_funds_changes_batch changes w) = Ok false /\
     forall w1,
       w1 = snd (save_fund_change code change timestamp w) \/
       w1 = snd (save_funds_changes_batch changes w) ->
       disk w1 !! _get_today_file w = Some Unreadable /\
       forall w2, later_same_day w w1 w2 ->
         forall c, get_fund_intraday c w2 = (Ok (JArr []), w2)).
Proof.
  intros Ht Ha Hb.
  destruct (save_fund_change_runs code change timestamp w Ht Ha) as [d1 ->].
  destruct (save_batch_runs changes w Ht Hb) as [d2 ->].
  split; intros Hw.
  - by rewrite !write_open_fails.
  - rewrite !write_dump_fails by done. simpl.
    split; [ done | ]. split; [ done | ].
    assert (Hlost : forall w1,
              w1 = set_disk (<[_get_today_file w := Unreadable]> (disk w)) w ->
              disk w1 !! _get_today_file w = Some Unreadable /\
              forall w2, later_same_day w w1 w2 ->
                forall c, get_fund_intraday c w2 = (Ok (JArr []), w2)).
    { intros w1 ->. simpl. split; [ apply lookup_insert_eq | ].
      intros w2 [Hdisk Hd] c. simpl in Hdisk.
      assert (Hread : _read_intraday_data w2 = empty_data w2).
      { apply (read_unreadable w w2 Hd). rewrite Hdisk. apply lookup_insert_eq. }
      apply (intraday_of_doc w2 [] c). by rewrite Hread. }
    intros w1 [-> | ->]; by apply Hlost.
Qed.

(** ** The first write of a day *)

Lemma read_gives_fresh w :
  disk w !! _get_today_file w = None \/
  disk w !! _get_today_file w = Some Unreadable \/
  (exists data, disk w !! _get_today_file w = Some (Doc data) /\
                _should_clear_data w data <> Ok false) ->
  _read_intraday_data w = empty_data w.
Proof.
  intros [Hd | [Hd | (data & Hd & Hc)]].
  - unfold _read_intraday_data. by rewrite Hd.
  - unfold _read_intraday_data. by rewrite Hd.
  - rewrite (read_doc w _ Hd).
    destruct (_should_clear_data w data) as [[|]|]; done.
Qed.

(** X6. The first write of a day.  When today's file does not exist, or
    holds no JSON text, or holds a document that is to be cleared (stale,
    or not a mapping), [save_fund_change] inside the trading window starts
    from the fresh document: with a write that succeeds, the file holds
    afterwards exactly the keys [date], [funds] and [last_update], in this
    order, and under [funds] the one code with the one new sample; nothing
    of the former content survives. *)
Theorem first_write_starts_afresh code change timestamp w :
  _is_trading_time w = true ->
  write_outcome w = WriteOk ->
  disk w !! _get_today_file w = None \/
  disk w !! _get_today_file w = Some Unreadable \/
  (exists data, disk w !! _get_today_file w = Some (Doc data) /\
                _should_clear_data w data <> Ok false) ->
  let ts := default (strftime_hms (dt_time (now w))) timestamp in
  save_fund_change code change timestamp w =
  (Ok true,
   set_disk (<[_get_today_file w :=
                 Doc (fresh_with w [(code, JArr [point ts change])])]> (disk w)) w).
Proof.
  intros Ht Hw Hfresh. cbv zeta. unfold save_fund_change. rewrite Ht. cbn [negb].
  rewrite (read_gives_fresh w Hfresh).
  unfold empty_data, add_point, ensure_funds. simpl.
  unfold dict_mem. simpl. rewrite String.eqb_refl. simpl.
  unfold _write_intraday_data, dump. rewrite Hw. reflexivity.
Qed.

(** ** The readers *)

Lemma dict_set_keys {V} (k : string) (v : V) (d : list (string * V)) :
  map fst (dict_set k v d) = if dict_mem k d then map fst d else map fst d ++ [k].
Proof.
  unfold dict_mem. induction d as [|[k' v'] d IH]; simpl; [ done | ].
  destruct (String.eqb k k') eqn:E; simpl.
  - apply String.eqb_eq in E. by subst.
  - rewrite IH. by destruct (dict_get k d).
Qed.

Lemma dict_get_keys {V} (k : string) (d : list (string * V)) :
  dict_get k d = None -> k ∉ map fst d.
Proof.
  induction d as [|[k' v'] d IH]; simpl; [ intros _; apply not_elem_of_nil | ].
  destruct (String.eqb k k') eqn:E; [ done | ].
  intros Hg. apply not_elem_of_cons. split; [ | by apply IH ].
  by apply String.eqb_neq.
Qed.

Lemma dict_set_nodup {V} (k : string) (v : V) (d : list (string * V)) :
  NoDup (map fst d) -> NoDup (map fst (dict_set k v d)).
Proof.
  intros Hnd. rewrite dict_set_keys. unfold dict_mem.
  destruct (dict_get k d) eqn:Hg; [ done | ].
  apply NoDup_app. split; [ done | ]. split.
  - intros x Hx Hk. apply list_elem_of_singleton in Hk. subst x.
    by apply (dict_get_keys k d Hg).
  - apply NoDup_singleton.
Qed.

Lemma fold_dict_set_nodup {V} (g : string -> V) codes (acc : list (string * V)) :
  NoDup (map fst acc) ->
  NoDup (map fst (fold_left (fun acc c => dict_set c (g c) acc) codes acc)).
Proof.
  revert acc. induction codes as [|c codes IH]; intros acc Hnd; simpl; [ done | ].
  apply IH. by apply dict_set_nodup.
Qed.

Lemma collect_fold_raise (v : json F) codes e :
  fold_left (collect v) codes (Raise e) = Raise e.
Proof. induction codes as [|c codes IH]; simpl; done. Qed.

Lemma get_default_not_a_dict (v : json F) code dflt :
  (forall kv, v <> JObj kv) -> get_default v code dflt = Raise AttributeError.
Proof. intros Hv. destruct v; try done. by destruct (Hv kv). Qed.

(** What the readers find under ["funds"]. *)
Lemma funds_of_cases kv :
  match funds_of (JObj kv) with
  | Some funds => get_default (JObj kv) "funds" (JObj []) = Ok (JObj funds)
  | None => exists v, get_default (JObj kv) "funds" (JObj []) = Ok v /\
                      forall kv', v <> JObj kv'
  end.
Proof.
  unfold funds_of, get_default. simpl.
  destruct (dict_get "funds" kv) as [v|]; simpl; [ | done ].
  destruct v; try done; eexists; split; try reflexivity; done.
Qed.

(** X7. The two readers agree, and never change the world.  When the
    resolved artifact holds a mapping under ["funds"] (or no such key),
    [get_fund_intraday] returns for every code what is stored under it, the
    empty list when nothing is, and [get_funds_intraday_batch] returns that
    same value for each requested code, one entry for each distinct code
    and no other entry.  When ["funds"] holds anything else, every single
    read raises [AttributeError], and so does the batch read unless it is
    asked for no code, in which case it returns the empty mapping. *)
Theorem readers_agree codes w :
  match funds_of (_read_intraday_data w) with
  | Some funds =>
      (forall code, get_fund_intraday code w = (Ok (stored funds code), w)) /\
      exists res,
        get_funds_intraday_batch codes w = (Ok res, w) /\
        (forall code, code ∈ codes -> dict_get code res = Some (stored funds code)) /\
        (forall code, code ∉ codes -> dict_get code res = None) /\
        NoDup (map fst res)
  | None =>
      (forall code, get_fund_intraday code w = (Raise AttributeError, w)) /\
      get_funds_intraday_batch codes w =
        (match codes with [] => Ok [] | _ => Raise AttributeError end, w)
  end.
Proof.
  destruct (read_is_dict w) as [kv Hread].
  pose proof (funds_of_cases kv) as Hc. rewrite Hread.
  destruct (funds_of (JObj kv)) as [funds|].
  - rewrite <- Hread in Hc. split.
    + intros code. by apply intraday_of_doc.
    + unfold get_funds_intraday_batch. rewrite Hc. simpl. rewrite collect_fold.
      eexists. split; [ reflexivity | ]. split; [ | split ].
      * intros code Hin. rewrite fold_dict_set_get. by rewrite decide_True.
      * intros code Hin. rewrite fold_dict_set_get. by rewrite decide_False.
      * apply fold_dict_set_nodup. apply NoDup_nil_2.
  - destruct Hc as (v & Hv & Hnd). split.
    + intros code. unfold get_fund_intraday. rewrite Hread, Hv. simpl.
      by rewrite get_default_not_a_dict.
    + unfold get_funds_intraday_batch. rewrite Hread, Hv. simpl.
      destruct codes as [|c codes]; [ done | ]. simpl.
      rewrite get_default_not_a_dict by done. simpl.
      by rewrite collect_fold_raise.
Qed.

(** ** The staleness test, case by case *)

(** X8. [_should_clear_data] never raises on a [dict] and answers [True]
    only when [last_update] is a non-empty string that
    [datetime.fromisoformat] accepts.  A naive stamp is tested against the
    date and against 09:00; for a stamp with a UTC offset only the date
    counts, since its comparison with 09:00 raises [TypeError], which is
    swallowed; a stamp that is no string, or does not parse, is never
    stale.  On a document that is no [dict] the test raises, and
    [_read_intraday_data] then hands out the fresh document. *)
Theorem should_clear_cases w :
  (forall kv,
     _should_clear_data w (JObj kv) =
     Ok match dict_get "last_update" kv with
        | Some (JStr s) =>
            negb (String.eqb s "") &&
            match fromisoformat s with
            | IsoNaive d => stale d (now w)
            | IsoAware d => date_ltb (dt_date d) (dt_date (now w))
            | IsoInvalid => false
            end
        | _ => false
        end) /\
  (forall data, (forall kv, data <> JObj kv) ->
     _should_clear_data w data = Raise AttributeError /\
     (disk w !! _get_today_file w = Some (Doc data) ->
      _read_intraday_data w = empty_data w)).
Proof.
  split.
  - intros kv. unfold _should_clear_data. simpl.
    destruct (dict_get "last_update" kv) as [v|]; simpl; [ | done ].
    destruct v as [ | b | z | f | s | l | kv0 ]; simpl; try done.
    + by destruct b.
    + by destruct (negb (z =? 0)).
    + by destruct (negb (float_is_zero f)).
    + destruct (String.eqb s ""); simpl; [ done | ].
      destruct (fromisoformat s) as [d|d|]; simpl; [ | | done ].
      * unfold stale. f_equal.
        destruct (date_ltb (dt_date d) (dt_date (now w))); simpl; [ done | ].
        destruct (datetime_leb _ (now w)); simpl; [ | done ].
        by destruct (datetime_ltb d _).
      * destruct (date_ltb (dt_date d) (dt_date (now w))); simpl; [ done | ].
        by destruct (datetime_leb _ (now w)).
    + by destruct l.
    + by destruct kv0.
  - intros data Hnd.
    assert (Hr : _should_clear_data w data = Raise AttributeError).
    { destruct data; try done. by destruct (Hnd kv). }
    split; [ done | ]. intros Hdisk.
    by rewrite (read_doc w _ Hdisk), Hr.
Qed.

(** ** The retention sweep and today's artifact *)

Lemma rfind_dot_json (s : string) :
  rfind_dot (s +:+ ".json") = Some (String.length s).
Proof.
  induction s as [|c s IH]; [ reflexivity | ].
  simpl. simpl in IH. by rewrite IH.
Qed.

Lemma substring_prefix (s t : string) :
  substring 0 (String.length s) (s +:+ t) = s.
Proof.
  induction s as [|c s IH]; simpl.
  - by destruct t.
  - simpl in IH. by rewrite IH.
Qed.

Lemma length_append (s t : string) :
  String.length (s +:+ t) = (String.length s + String.length t)%nat.
Proof. induction s as [|c s IH]; simpl; [ done | ]. simpl in IH. by rewrite IH. Qed.

(** [Path(s + ".json").stem] is [s], for a non-empty [s]. *)
Lemma stem_json (s : string) : s <> "" -> stem (s +:+ ".json") = s.
Proof.
  intros Hs. unfold stem. rewrite rfind_dot_json, length_append.
  destruct s as [|c s]; [ done | ]. cbn [String.length].
  assert (H1 : (0 <? S (String.length s))%nat = true) by (apply Nat.ltb_lt; lia).
  assert (H2 : (S (String.length s) <? S (String.length s) + 5 - 1)%nat = true)
    by (apply Nat.ltb_lt; lia).
  change (String.length ".json") with 5%nat. rewrite H1, H2. cbn [andb].
  apply (substring_prefix (String c s) ".json").
Qed.

Lemma endswith_json (s : string) : endswith (s +:+ ".json") ".json" = true.
Proof.
  unfold endswith. rewrite length_append. change (String.length ".json") with 5%nat.
  apply andb_true_iff. split; [ apply Nat.leb_le; lia | ].
  replace (String.length s + 5 - 5)%nat with (String.length s) by lia.
  apply String.eqb_eq. induction s as [|c s IH]; [ reflexivity | ].
  simpl. simpl in IH. exact IH.
Qed.

Lemma strftime_ymd_nonempty (d : date) : strftime_ymd d <> "".
Proof. unfold strftime_ymd. cbn [zpad]. simpl. discriminate. Qed.

(** The sweep, file by file. *)
Lemma cleanup_lookup keep_days w name :
  disk (snd (cleanup_old_files keep_days w)) !! name =
  if removed keep_days w name then None else disk w !! name.
Proof. by destruct (cleanup_spec keep_days w) as (Hdisk & _). Qed.

Lemma cleanup_clock keep_days w :
  now (snd (cleanup_old_files keep_days w)) = now w /\
  write_outcome (snd (cleanup_old_files keep_days w)) = write_outcome w /\
  unlink_fails (snd (cleanup_old_files keep_days w)) = unlink_fails w.
Proof. by destruct (cleanup_spec keep_days w) as (_ & _ & _ & Hrest). Qed.

(** X9. The sweep and today's artifact.  With a retention of zero days or
    more, [cleanup_old_files] leaves today's artifact in place, so every
    read returns after the sweep what it returned before; with a negative
    retention it removes today's artifact, unless the removal is refused,
    in which case the artifact stays.  [datetime.strptime] is taken to
    read back the date [strftime] printed. *)
Theorem cleanup_and_todays_artifact keep_days w :
  strptime_ymd (strftime_ymd (dt_date (now w))) = Some (dt_date (now w)) ->
  let w1 := snd (cleanup_old_files keep_days w) in
  disk w1 !! _get_today_file w =
    (if (keep_days <? 0) && negb (unlink_fails w (_get_today_file w))
     then None else disk w !! _get_today_file w) /\
  (0 <= keep_days ->
     _read_intraday_data w1 = _read_intraday_data w /\
     forall code, fst (get_fund_intraday code w1) = fst (get_fund_intraday code w)).
Proof.
  intros Hparse. cbv zeta.
  assert (Hexp : expired keep_days w (_get_today_file w) = (keep_days <? 0)).
  { unfold expired, _get_today_file.
    rewrite endswith_json, (stem_json _ (strftime_ymd_nonempty _)), Hparse.
    unfold days_between. by rewrite Z.sub_diag. }
  assert (Hdisk : disk (snd (cleanup_old_files keep_days w)) !! _get_today_file w =
                  if (keep_days <? 0) && negb (unlink_fails w (_get_today_file w))
                  then None else disk w !! _get_today_file w).
  { rewrite cleanup_lookup. unfold removed. by rewrite Hexp. }
  split; [ done | ]. intros Hk.
  assert (Hlt : (keep_days <? 0) = false) by (apply Z.ltb_ge; lia).
  rewrite Hlt in Hdisk. cbn [andb] in Hdisk.
  destruct (cleanup_clock keep_days w) as [Hnow _].
  assert (Hread : _read_intraday_data (snd (cleanup_old_files keep_days w)) =
                  _read_intraday_data w).
  { unfold _read_intraday_data, _get_today_file, empty_data, _should_clear_data.
    rewrite Hnow. fold (_get_today_file w). by rewrite Hdisk. }
  split; [ done | ]. intros code. unfold get_fund_intraday. simpl. by rewrite Hread.
Qed.



(** ** Minutes of the day *)

(** X11. [_time_to_minutes] counts the minutes since midnight: between 0
    and 1439, and never decreasing as the time of day advances.  The
    trading window in its terms: a time is inside the window exactly when
    its minute count is from 570 up to 899, or the time is 15:00:00
    sharp; the other times of the minute 900 are outside. *)
Theorem time_to_minutes_and_window (a b : time) w :
  valid_time a -> valid_time b -> valid_time (dt_time (now w)) ->
  0 <= _time_to_minutes a <= 1439 /\
  (time_leb a b = true -> _time_to_minutes a <= _time_to_minutes b) /\
  (_is_trading_time w = true <->
     570 <= _time_to_minutes (dt_time (now w)) <= 899 \/
     (_time_to_minutes (dt_time (now w)) = 900 /\
      second (dt_time (now w)) = 0 /\ microsecond (dt_time (now w)) = 0)).
Proof.
  intros Ha Hb Hw. split; [ | split ].
  - destruct Ha as (? & ? & _). unfold _time_to_minutes. lia.
  - intros Hle. apply (time_leb_us a b Ha Hb) in Hle.
    destruct Ha as (? & ? & ? & ?), Hb as (? & ? & ? & ?).
    unfold us_of_day, _time_to_minutes in *. nia.
  - rewrite (trading_window_spec w Hw).
    destruct Hw as (? & ? & ? & ?).
    unfold in_trading_window, us_of_day, _time_to_minutes, MARKET_OPEN, MARKET_CLOSE.
    cbn [hour minute second microsecond]. split; [ intros [? ?] | intros [ [? ?] | (? & ? & ?) ] ]; nia.
Qed.

End MoreStoreFacts.

(** ** Worked examples on the reference runtime *)

Import Reference.

(** A sample saved at 10:00 is read back at 14:00 behind the sample the
    artifact held. *)
Lemma saved_sample_is_read_back_witness :
  let w := store_with (artifact "2024-03-01T09:45:00") (on_2024_03_01 10 0 0) WriteOk in
  let r := save_fund_change "000001" 5 None w in
  let w2 := mk_world (on_2024_03_01 14 0 0) (disk (snd r)) OpenFails removals_succeed in
  fst r = Ok true /\
  get_fund_intraday "000001" w2 =
    (Ok (JArr [point "08:49:58" 12; point "10:00:00" 5]), w2) /\
  get_fund_intraday "000002" w2 = (Ok (JArr []), w2).
Proof.
  cbv zeta.
  pose proof (saved_sample_is_read_back "000001" 5 None
                (store_with (artifact "2024-03-01T09:45:00") (on_2024_03_01 10 0 0) WriteOk)
                [("000001", JArr [point "08:49:58" 12])]
                eq_refl eq_refl eq_refl eq_refl eq_refl) as [Hok Hread].
  split; [ exact Hok | ].
  specialize (Hread (mk_world (on_2024_03_01 14 0 0) _ OpenFails removals_succeed) (conj eq_refl eq_refl)).
  destruct Hread as [Hsame Hother].
  split; [ exact Hsame | ].
  exact (Hother "000002" ltac:(discriminate)).
Defined.

(** A batch saved at 10:00: the code with a value gets a sample, the code
    with [None] gets none, a new code starts its list. *)
Lemma saved_batch_is_read_back_witness :
  let w := store_with (artifact "2024-03-01T09:45:00") (on_2024_03_01 10 0 0) WriteOk in
  let r := save_funds_changes_batch
             [("000001", Some 5); ("000002", None); ("000003", Some 7)] w in
  let w2 := mk_world (on_2024_03_01 14 0 0) (disk (snd r)) OpenFails removals_succeed in
  fst r = Ok true /\
  get_fund_intraday "000001" w2 =
    (Ok (JArr [point "08:49:58" 12; point "10:00:00" 5]), w2) /\
  get_fund_intraday "000002" w2 = (Ok (JArr []), w2) /\
  get_fund_intraday "000003" w2 = (Ok (JArr [point "10:00:00" 7]), w2).
Proof.
  cbv zeta.
  pose proof (saved_batch_is_read_back
                [("000001", Some 5); ("000002", None); ("000003", Some 7)]
                (store_with (artifact "2024-03-01T09:45:00") (on_2024_03_01 10 0 0) WriteOk)
                [("000001", JArr [point "08:49:58" 12])]
                eq_refl eq_refl eq_refl eq_refl eq_refl) as [Hok Hread].
  split; [ exact Hok | ].
  specialize (Hread (mk_world (on_2024_03_01 14 0 0) _ OpenFails removals_succeed) (conj eq_refl eq_refl)).
  split; [ | split ]; (etrans; [ apply Hread | vm_compute; reflexivity ]).
Defined.

(** A write at noon leaves the artifact of 27 February as it was. *)
Lemma writers_touch_only_today_witness :
  "2024-02-27.json" <> _get_today_file sweep_dir /\
  disk (snd (save_fund_change "000001" 5 None sweep_dir)) !! "2024-02-27.json" =
    Some (Doc (JObj [])) /\
  disk (snd (clear_intraday_data sweep_dir)) !! "notes.json" = Some Unreadable.
Proof.
  split; [ discriminate | ]. split.
  - etrans; [ apply (writers_touch_only_today "000001" 5 None [] [] sweep_dir
                       "2024-02-27.json"); discriminate | reflexivity ].
  - etrans; [ apply (writers_touch_only_today "000001" 5 None [] [] sweep_dir
                       "notes.json"); discriminate | reflexivity ].
Defined.

(** A clear at 20:00, outside the trading window: the sample of the
    morning is gone at 21:00. *)
Lemma clear_discards_samples_witness :
  let w := store_with (artifact "2024-03-01T14:59:00") (on_2024_03_01 20 0 0) WriteOk in
  let r := clear_intraday_data w in
  let w2 := mk_world (on_2024_03_01 21 0 0) (disk (snd r)) WriteOk removals_succeed in
  get_fund_intraday "000001" w = (Ok (JArr [point "08:49:58" 12]), w) /\
  fst r = true /\
  get_fund_intraday "000001" w2 = (Ok (JArr []), w2).
Proof.
  cbv zeta. split; [ reflexivity | ].
  pose proof (clear_discards_samples
                (store_with (artifact "2024-03-01T14:59:00") (on_2024_03_01 20 0 0) WriteOk)
                eq_refl) as [Hok Hread].
  split; [ exact Hok | ].
  exact (proj1 (Hread (mk_world (on_2024_03_01 21 0 0) _ WriteOk removals_succeed) (conj eq_refl eq_refl))
           "000001").
Defined.

(** At 10:00 a write that cannot open the file changes nothing; a dump
    that fails loses the sample of the morning. *)
Lemma failed_write_effects_witness :
  (let w := store_with (artifact "2024-03-01T09:45:00") (on_2024_03_01 10 0 0) OpenFails in
   save_fund_change "000001" 5 None w = (Ok false, w)) /\
  (let w := store_with (artifact "2024-03-01T09:45:00") (on_2024_03_01 10 0 0) DumpFails in
   let w1 := snd (save_fund_change "000001" 5 None w) in
   let w2 := mk_world (on_2024_03_01 10 5 0) (disk w1) WriteOk removals_succeed in
   get_fund_intraday "000001" w = (Ok (JArr [point "08:49:58" 12]), w) /\
   get_fund_intraday "000001" w2 = (Ok (JArr []), w2)).
Proof.
  cbv zeta.
  assert (Hopen := failed_write_effects "000001" 5 None []
            (store_with (artifact "2024-03-01T09:45:00") (on_2024_03_01 10 0 0) OpenFails)).
  assert (Hdump := failed_write_effects "000001" 5 None []
            (store_with (artifact "2024-03-01T09:45:00") (on_2024_03_01 10 0 0) DumpFails)).
  split.
  - apply Hopen; vm_compute; reflexivity.
  - split; [ reflexivity | ].
    destruct Hdump as [_ Hdump]; [ vm_compute; reflexivity .. | ].
    destruct (Hdump eq_refl) as (_ & _ & Hlost).
    destruct (Hlost _ (or_introl eq_refl)) as [_ Hread].
    exact (Hread (mk_world (on_2024_03_01 10 5 0) _ WriteOk removals_succeed) (conj eq_refl eq_refl) "000001").
Defined.

(** The first write of 1 March, at 10:00: on an empty directory, and on
    the artifact last updated the evening before. *)
Lemma first_write_starts_afresh_witness :
  (let w := mk_world (on_2024_03_01 10 0 0) ∅ WriteOk removals_succeed in
   disk (snd (save_fund_change "000002" 5 None w)) !! "2024-03-01.json" =
   Some (Doc (JObj [("date", JStr "2024-03-01");
                    ("funds", JObj [("000002", JArr [point "10:00:00" 5])]);
                    ("last_update", JStr "2024-03-01T10:00:00")]))) /\
  (let w := store_with (artifact "2024-02-29T14:58:00") (on_2024_03_01 10 0 0) WriteOk in
   disk (snd (save_fund_change "000002" 5 (Some "09:59:59") w)) !! "2024-03-01.json" =
   Some (Doc (JObj [("date", JStr "2024-03-01");
                    ("funds", JObj [("000002", JArr [point "09:59:59" 5])]);
                    ("last_update", JStr "2024-03-01T10:00:00")]))).
Proof.
  cbv zeta. split.
  - rewrite (first_write_starts_afresh "000002" 5 None
               (mk_world (on_2024_03_01 10 0 0) ∅ WriteOk removals_succeed)).
    + reflexivity.
    + reflexivity.
    + reflexivity.
    + left. reflexivity.
  - rewrite (first_write_starts_afresh "000002" 5 (Some "09:59:59")
               (store_with (artifact "2024-02-29T14:58:00") (on_2024_03_01 10 0 0) WriteOk)).
    + reflexivity.
    + reflexivity.
    + reflexivity.
    + right. right. eexists. split; [ reflexivity | ]. vm_compute. discriminate.
Defined.

(** On 1 March a sweep that keeps zero days leaves the artifact of the day
    and removes the one of 27 February; a sweep with a negative retention
    removes the artifact of the day as well, unless its removal is
    refused. *)
Lemma cleanup_and_todays_artifact_witness :
  let locked := mk_world (now sweep_dir) (disk sweep_dir) WriteOk
                  (fun name => String.eqb name "2024-03-01.json") in
  disk (snd (cleanup_old_files 0 sweep_dir)) !! "2024-03-01.json" =
    Some (Doc (artifact "2024-03-01T10:00:00")) /\
  disk (snd (cleanup_old_files 0 sweep_dir)) !! "2024-02-27.json" = None /\
  fst (get_fund_intraday "000001" (snd (cleanup_old_files 0 sweep_dir))) =
    Ok (JArr [point "08:49:58" 12]) /\
  disk (snd (cleanup_old_files (-1) sweep_dir)) !! "2024-03-01.json" = None /\
  disk (snd (cleanup_old_files (-1) locked)) !! "2024-03-01.json" =
    Some (Doc (artifact "2024-03-01T10:00:00")).
Proof.
  cbv zeta.
  assert (Hkeep := cleanup_and_todays_artifact 0 sweep_dir eq_refl).
  assert (Hdrop := cleanup_and_todays_artifact (-1) sweep_dir eq_refl).
  assert (Hlock := cleanup_and_todays_artifact (-1)
                     (mk_world (now sweep_dir) (disk sweep_dir) WriteOk
                        (fun name => String.eqb name "2024-03-01.json")) eq_refl).
  cbv zeta in Hkeep, Hdrop, Hlock.
  destruct Hkeep as [Hk Hreads], Hdrop as [Hd _], Hlock as [Hl _].
  split; [ etrans; [ exact Hk | reflexivity ] | ].
  split; [ vm_compute; reflexivity | ].
  split; [ | split; [ etrans; [ exact Hd | reflexivity ]
                    | etrans; [ exact Hl | reflexivity ] ] ].
  destruct Hreads as [_ Hread]; [ lia | ].
  etrans; [ apply Hread | reflexivity ].
Defined.

(** 15:00:30 is in the minute 900 and outside the trading window; 15:00:00
    is inside. *)
Lemma time_to_minutes_and_window_witness :
  _time_to_minutes (mk_time 9 29 59 0) <= _time_to_minutes (mk_time 15 0 30 0) /\
  _time_to_minutes (mk_time 15 0 30 0) = 900 /\
  _is_trading_time (mk_world (on_2024_03_01 15 0 30) ∅ WriteOk removals_succeed : world Z) = false /\
  _is_trading_time (mk_world (on_2024_03_01 15 0 0) ∅ WriteOk removals_succeed : world Z) = true.
Proof.
  assert (Hv : forall h m s, 0 <= h < 24 -> 0 <= m < 60 -> 0 <= s < 60 ->
                             valid_time (mk_time h m s 0)).
  { intros h m s ? ? ?. unfold valid_time. simpl. lia. }
  assert (H1 := time_to_minutes_and_window (F := Z) (mk_time 9 29 59 0) (mk_time 15 0 30 0)
                  (mk_world (on_2024_03_01 15 0 30) ∅ WriteOk removals_succeed)
                  (Hv 9 29 59 ltac:(lia) ltac:(lia) ltac:(lia))
                  (Hv 15 0 30 ltac:(lia) ltac:(lia) ltac:(lia))
                  (Hv 15 0 30 ltac:(lia) ltac:(lia) ltac:(lia))).
  assert (H2 := time_to_minutes_and_window (F := Z) (mk_time 9 29 59 0) (mk_time 15 0 30 0)
                  (mk_world (on_2024_03_01 15 0 0) ∅ WriteOk removals_succeed)
                  (Hv 9 29 59 ltac:(lia) ltac:(lia) ltac:(lia))
                  (Hv 15 0 30 ltac:(lia) ltac:(lia) ltac:(lia))
                  (Hv 15 0 0 ltac:(lia) ltac:(lia) ltac:(lia))).
  destruct H1 as (_ & Hmono & Hwin1), H2 as (_ & _ & Hwin2).
  split; [ apply Hmono; reflexivity | ].
  split; [ reflexivity | ].
  split.
  - apply not_true_is_false. intros E.
    apply Hwin1 in E. vm_compute in E.
    destruct E as [[_ E] | (_ & E & _)]; [ by destruct E | discriminate ].
  - apply Hwin2. right. vm_compute. repeat split.
Defined.

End IntradayStoreMore.
(* ===================================================================== *)
(** * More facts about the market-data client                             *)
(* ===================================================================== *)

Module EastMoneyClientMore.
Import Py EastMoneyClient EastMoneyClientSpec.

(** ** Strings *)

Lemma string_append_assoc (a b c : string) : (a +:+ b) +:+ c = a +:+ b +:+ c.
Proof.
  induction a as [|x a IH]; [ done | ].
  change (String x ((a +:+ b) +:+ c) = String x (a +:+ b +:+ c)). by rewrite IH.
Qed.

Lemma substring_of_trans (a b c : string) :
  substring_of a b -> substring_of b c -> substring_of a c.
Proof.
  intros (p & q & ->) (r & s & ->). exists (r +:+ p), (q +:+ s).
  by rewrite !string_append_assoc.
Qed.

Lemma str_in_trans (a b c : string) :
  str_in a b = true -> str_in b c = true -> str_in a c = true.
Proof.
  rewrite !str_in_spec. apply substring_of_trans.
Qed.

Section MoreClientFacts.

Context {F : Type} `{PyFloat F} `{PyText F}.

Implicit Types (w : client F) (code : string).

(** ** The table of get_fund_sector *)

Lemma scan_app (name : string) (l1 l2 : list (string * list string)) :
  scan name (l1 ++ l2) =
  match scan name l1 with
  | Some label => Some label
  | None => scan name l2
  end.
Proof.
  induction l1 as [|[l ks] l1 IH]; simpl; [ done | ].
  by destruct (matches name ks).
Qed.

Lemma scan_label_in (name label : string) (table : list (string * list string)) :
  scan name table = Some label -> label ∈ map fst table.
Proof.
  induction table as [|[l ks] table IH]; simpl; [ done | ].
  destruct (matches name ks).
  - intros [= ->]. by left.
  - intros Hs. right. by apply IH.
Qed.

Lemma scan_none_matches (name : string) (table : list (string * list string)) t :
  scan name table = None -> t ∈ table -> matches name (snd t) = false.
Proof.
  induction table as [|[l ks] table IH]; simpl; intros Hs Ht.
  - by apply elem_of_nil in Ht.
  - destruct (matches name ks) eqn:E; [ done | ].
    apply elem_of_cons in Ht as [-> | Ht]; [ done | by apply IH ].
Qed.

Lemma matches_keyword (name kw : string) (keywords : list string) :
  kw ∈ keywords -> str_in kw name = true -> matches name keywords = true.
Proof.
  intros Hin Hkw. unfold matches. apply existsb_exists. exists kw.
  split; [ by apply list_elem_of_In | done ].
Qed.

(** A name that holds a keyword of the tuple at position [i] is classified
    by that tuple or by one before it. *)
Lemma scan_decided_by (name kw label : string) (ks : list string) (i n : nat) :
  sector_keywords !! i = Some (label, ks) ->
  (i < n)%nat ->
  kw ∈ ks ->
  str_in kw name = true ->
  exists l, scan name sector_keywords = Some l /\ l ∈ labels_upto n.
Proof.
  intros Hi Hlt Hin Hkw.
  assert (Hsplit : scan name sector_keywords =
                   scan name (take n sector_keywords ++ drop n sector_keywords))
    by (by rewrite take_drop).
  rewrite Hsplit, scan_app.
  destruct (scan name (take n sector_keywords)) as [l|] eqn:Hs.
  - exists l. split; [ done | ]. by apply scan_label_in in Hs.
  - exfalso.
    assert (Ht : (label, ks) ∈ take n sector_keywords).
    { apply list_elem_of_lookup. exists i. by rewrite lookup_take_lt. }
    pose proof (scan_none_matches name _ _ Hs Ht) as Hm. simpl in Hm.
    by rewrite (matches_keyword name kw ks Hin Hkw) in Hm.
Qed.

(** X12. Three entries of the table that never decide.  The label 煤炭
    is never returned: its only keyword is also a keyword of the 钢铁 tuple,
    which stands before it, so a name that holds it is classified by that
    tuple or an earlier one.  A name that holds 创新药 is classified by one
    of the first 13 tuples, up to 科技 with its keyword 创新, and never as
    创新药; a name that holds 酒店 is classified by one of the first 19
    tuples, up to 白酒 with its keyword 酒, and never as 旅游. *)
Theorem sector_table_shadowing :
  (forall detail : option (fund_detail F), get_fund_sector detail <> "煤炭") /\
  (forall detail : fund_detail F,
     substring_of "煤炭" (d_name detail) ->
     get_fund_sector (Some detail) ∈ labels_upto 35) /\
  (forall detail : fund_detail F,
     substring_of "创新药" (d_name detail) ->
     get_fund_sector (Some detail) ∈ labels_upto 13 /\
     get_fund_sector (Some detail) <> "创新药") /\
  (forall detail : fund_detail F,
     substring_of "酒店" (d_name detail) ->
     get_fund_sector (Some detail) ∈ labels_upto 19 /\
     get_fund_sector (Some detail) <> "旅游") /\
  sector_keywords !! 34%nat = Some ("钢铁", ["钢铁"; "有色"; "煤炭"]) /\
  sector_keywords !! 43%nat = Some ("煤炭", ["煤炭"]) /\
  sector_keywords !! 12%nat = Some ("科技", ["科技"; "科创"; "创新"]) /\
  sector_keywords !! 13%nat = Some ("创新药", ["创新药"; "生物医药"; "生物制药"]) /\
  sector_keywords !! 18%nat = Some ("白酒", ["白酒"; "酒"]) /\
  sector_keywords !! 23%nat = Some ("旅游", ["旅游"; "酒店"; "餐饮"; "免税"]).
Proof.
  assert (Hnot : forall (l : string) (ls : list string),
            bool_decide (l ∈ ls) = false -> l ∉ ls).
  { intros l ls Hb Hin. apply (bool_decide_eq_false (l ∈ ls)) in Hb. done. }
  assert (Hearly : forall (detail : fund_detail F) kw kw' label ks i n,
            sector_keywords !! i = Some (label, ks) -> (i < n)%nat -> kw' ∈ ks ->
            str_in kw' kw = true ->
            substring_of kw (d_name detail) ->
            get_fund_sector (Some detail) ∈ labels_upto n).
  { intros detail kw kw' label ks i n Hi Hlt Hin Hsub Hname.
    apply str_in_spec in Hname.
    destruct (scan_decided_by (d_name detail) kw' label ks i n Hi Hlt Hin
                (str_in_trans _ _ _ Hsub Hname)) as (l & Hs & Hl).
    unfold get_fund_sector. by rewrite Hs. }
  split; [ | split; [ | split; [ | split ] ] ].
  - intros [detail|]; [ | discriminate ].
    unfold get_fund_sector. set (name := d_name detail).
    assert (Hsplit : scan name sector_keywords =
                     scan name (take 43 sector_keywords ++ drop 43 sector_keywords))
      by (by rewrite take_drop).
    rewrite Hsplit, scan_app.
    destruct (scan name (take 43 sector_keywords)) as [l|] eqn:Hs.
    + apply scan_label_in in Hs. simpl. intros ->. revert Hs.
      apply Hnot. by vm_compute.
    + assert (Ht : ("钢铁", ["钢铁"; "有色"; "煤炭"]) ∈ take 43 sector_keywords).
      { apply list_elem_of_lookup. by exists 34%nat. }
      pose proof (scan_none_matches name _ _ Hs Ht) as Hm. cbn [snd] in Hm.
      assert (Hkw : str_in "煤炭" name = false).
      { destruct (str_in "煤炭" name) eqn:E; [ | done ].
        rewrite (matches_keyword name "煤炭") in Hm; [ done | | done ].
        apply list_elem_of_In. simpl. tauto. }
      change (drop 43 sector_keywords)
        with (("煤炭", ["煤炭"]) :: drop 44 sector_keywords).
      cbn [scan matches existsb]. rewrite Hkw. cbn [orb].
      destruct (scan name (drop 44 sector_keywords)) as [l|] eqn:Hs2; simpl;
        [ | discriminate ].
      apply scan_label_in in Hs2. intros ->. revert Hs2.
      apply Hnot. by vm_compute.
  - intros detail Hname.
    apply (Hearly detail "煤炭" "煤炭" "钢铁" ["钢铁"; "有色"; "煤炭"] 34%nat 35%nat);
      [ done | lia | | by vm_compute | done ].
    apply list_elem_of_In. simpl. tauto.
  - intros detail Hname.
    assert (Hin : get_fund_sector (Some detail) ∈ labels_upto 13).
    { apply (Hearly detail "创新药" "创新" "科技" ["科技"; "科创"; "创新"] 12%nat 13%nat);
        [ done | lia | | by vm_compute | done ].
      apply list_elem_of_In. simpl. tauto. }
    split; [ done | ]. intros Heq. rewrite Heq in Hin. revert Hin.
    apply Hnot. by vm_compute.
  - intros detail Hname.
    assert (Hin : get_fund_sector (Some detail) ∈ labels_upto 19).
    { apply (Hearly detail "酒店" "酒" "白酒" ["白酒"; "酒"] 18%nat 19%nat);
        [ done | lia | | by vm_compute | done ].
      apply list_elem_of_In. simpl. tauto. }
    split; [ done | ]. intros Heq. rewrite Heq in Hin. revert Hin.
    apply Hnot. by vm_compute.
  - repeat split.
Qed.

(** ** The requests of a batch *)

Lemma start_estimate code w w1 :
  same_state w w1 ->
  snd (start (get_fund_estimate code) w1) =
  if cache_contains (_realtime_cache w) (timer w) (estimate_key code)
  then w1 else send (estimate_request code) w1.
Proof.
  intros (Ht & Hl & Hc & _). unfold start, get_fund_estimate. cbv zeta.
  rewrite Ht, Hc. by destruct (cache_contains _ _ _).
Qed.

Lemma same_state_send w w1 req : same_state w w1 -> same_state w (send req w1).
Proof. intros (? & ? & ? & ?). by repeat split. Qed.

Lemma start_all_cons {A} (f : @task F A) (tasks : list (@task F A)) w :
  snd (start_all (f :: tasks) w) = snd (start_all tasks (snd (start f w))).
Proof.
  simpl. destruct (start f w) as [c w1]. simpl.
  by destruct (start_all tasks w1).
Qed.

Lemma finish_all_cons {A} (c : @coro F A) (cs : list (@coro F A)) w :
  snd (finish_all (c :: cs) w) = snd (finish_all cs (snd (finish c w))).
Proof.
  simpl. destruct (finish c w) as [a w1]. simpl.
  by destruct (finish_all cs w1).
Qed.

(** Starting the tasks of a batch sends one request for every code that
    misses the cache, in the order of the codes. *)
Lemma start_all_sent w codes :
  forall w1, same_state w w1 ->
    sent (snd (start_all (map get_fund_estimate codes) w1)) =
    sent w1 ++ map estimate_request (uncached codes w).
Proof.
  induction codes as [|code codes IH]; intros w1 Hs.
  - simpl. by rewrite app_nil_r.
  - cbn [map]. rewrite start_all_cons, (start_estimate code w w1 Hs).
    unfold uncached. cbn [List.filter].
    destruct (cache_contains (_realtime_cache w) (timer w) (estimate_key code));
      cbn [negb].
    + by apply IH.
    + rewrite (IH _ (same_state_send w w1 _ Hs)). simpl.
      by rewrite <- app_assoc.
Qed.

Lemma finish_pending_sent code w w1 :
  sent (snd (finish (pending code w) w1)) = sent w1.
Proof.
  unfold pending, get_fund_estimate. cbv zeta.
  destruct (cache_contains _ _ _); simpl; [ done | ].
  by destruct (resume_world code (network w1 (estimate_request code)) w1)
    as (_ & _ & -> & _).
Qed.

Lemma finish_all_sent w codes :
  forall w1,
    sent (snd (finish_all (map (fun code => pending code w) codes) w1)) = sent w1.
Proof.
  induction codes as [|code codes IH]; intros w1; [ done | ].
  cbn [map]. by rewrite finish_all_cons, IH, finish_pending_sent.
Qed.

(** X13. The requests of a batch.  [get_fund_estimates_batch] sends
    exactly one request for each code of the list that misses the quote
    cache when the batch starts, in the order of the list, and none for a
    code that hits it.  All the tasks look into the cache before any answer
    has come in, so a code that misses the cache and stands twice in the
    list is requested twice. *)
Theorem batch_sends_one_request_per_miss codes w :
  sent (snd (get_fund_estimates_batch codes w)) =
    sent w ++ map estimate_request (uncached codes w) /\
  (length (sent (snd (get_fund_estimates_batch codes w))) <=
   length (sent w) + length codes)%nat /\
  (forall code,
     cache_contains (_realtime_cache w) (timer w) (estimate_key code) = false ->
     sent (snd (get_fund_estimates_batch [code; code] w)) =
     sent w ++ [estimate_request code; estimate_request code]).
Proof.
  assert (Hsent : forall codes,
            sent (snd (get_fund_estimates_batch codes w)) =
            sent w ++ map estimate_request (uncached codes w)).
  { intros cs. unfold get_fund_estimates_batch, gather. cbv zeta.
    destruct (start_all_estimates w cs w) as (w2 & Hstart & _); [ by repeat split | ].
    pose proof (start_all_sent w cs w) as Hs. rewrite Hstart in Hs |- *. simpl in Hs.
    pose proof (finish_all_sent w cs w2) as Hf.
    destruct (finish_all _ w2) as [rs w3]. simpl in *.
    rewrite Hf. apply Hs. by repeat split. }
  split; [ apply Hsent | ]. split.
  - rewrite Hsent, length_app, length_map. unfold uncached.
    pose proof (List.filter_length_le
                  (fun code => negb (cache_contains (_realtime_cache w) (timer w)
                                       (estimate_key code))) codes).
    lia.
  - intros code Hc. rewrite Hsent. unfold uncached. simpl. by rewrite Hc.
Qed.

(** ** get_stock_quotes *)

Lemma quotes_miss code codes w :
  run (get_stock_quotes (code :: codes)) w =
  (default [] (try_except (quotes_body (network w (quote_request (code :: codes))))
                 (fun _ => None)),
   send (quote_request (code :: codes)) w).
Proof. reflexivity. Qed.

Lemma add_quote_raise (items : list (json F)) e :
  fold_left add_quote items (Raise e) = Raise e.
Proof. induction items as [|a items IH]; simpl; done. Qed.

(** Whether an item makes the loop raise does not depend on what the loop
    has collected. *)
Lemma add_quote_raise_indep (acc acc' : list (json F * F)) (item : json F) e :
  add_quote (Ok acc) item = Raise e -> add_quote (Ok acc') item = Raise e.
Proof.
  unfold add_quote. cbn [bind].
  destruct (get_default item "f12" (JStr "")) as [c|e1]; cbn [bind]; [ | done ].
  destruct (get item "f3") as [[change|]|e2]; cbn [bind]; try done.
  destruct (truthy c && negb _); [ | done ].
  destruct (py_float change) as [v|e3]; cbn [bind]; [ | done ].
  by destruct c.
Qed.

Lemma fold_add_quote_raise (items : list (json F)) (item : json F) e :
  item ∈ items ->
  add_quote (Ok []) item = Raise e ->
  forall acc, exists e', fold_left add_quote items (Ok acc) = Raise e'.
Proof.
  intros Hin Hbad. induction items as [|a items IH]; intros acc.
  - by apply elem_of_nil in Hin.
  - cbn [fold_left]. apply elem_of_cons in Hin as [<- | Hin].
    + rewrite (add_quote_raise_indep [] acc item e Hbad), add_quote_raise. eauto.
    + destruct (add_quote (Ok acc) a) as [acc'|e'].
      * by apply IH.
      * rewrite add_quote_raise. eauto.
Qed.

(** An item with a code and a change that [float] rejects. *)
Lemma bad_item ki (c change : json F) e :
  dict_get "f12" ki = Some c ->
  truthy c = true ->
  dict_get "f3" ki = Some change ->
  change <> JNull ->
  py_float change = Raise e ->
  add_quote (Ok []) (JObj ki) = Raise e.
Proof.
  intros Hc Ht Hf Hn He. unfold add_quote, get_default. simpl.
  rewrite Hc, Hf. simpl. rewrite Ht, He.
  by destruct change.
Qed.

(** X14. One bad item costs the whole answer.  When the payload of the
    quote endpoint holds, anywhere in its list, an item with a code and a
    change that [float] rejects, [get_stock_quotes] returns the empty
    mapping: the quotes of the other items, those before the bad item
    included, are dropped with it. *)
Theorem one_bad_item_drops_all_quotes code codes w r kv kd items ki c change e :
  network w (quote_request (code :: codes)) = Ok r ->
  status_code r = 200 ->
  json_loads (text r) = Ok (JObj kv) ->
  dict_get "data" kv = Some (JObj kd) ->
  dict_get "diff" kd = Some (JArr items) ->
  JObj ki ∈ items ->
  dict_get "f12" ki = Some c ->
  truthy c = true ->
  dict_get "f3" ki = Some change ->
  change <> JNull ->
  py_float change = Raise e ->
  run (get_stock_quotes (code :: codes)) w =
  ([], send (quote_request (code :: codes)) w).
Proof.
  intros Hn Hs Hj Hd Hdiff Hin Hc Ht Hf Hnn He.
  rewrite quotes_miss, Hn. unfold quotes_body. simpl. rewrite Hs, Hj. simpl.
  unfold quotes_of. simpl. rewrite Hd. simpl.
  destruct kd as [|p kd']; [ done | ]. cbn [truthy]. cbn [bind].
  change (get (JObj (p :: kd')) "diff") with (Ok (dict_get "diff" (p :: kd')) : result _).
  rewrite Hdiff. simpl.
  destruct items as [|a items']; [ by apply elem_of_nil in Hin | ].
  destruct (fold_add_quote_raise (a :: items') (JObj ki) e Hin
              (bad_item ki c change e Hc Ht Hf Hnn He) []) as [e' He'].
  by rewrite He'.
Qed.

(** X15. [get_stock_quotes] never raises, and for a non-empty list of
    codes it sends exactly one request, whatever the number of codes.  It
    returns the empty mapping when the request raises, when the status is
    not 200, when the body is no JSON, and when the payload has no
    ["data"], or a falsy one. *)
Theorem stock_quotes_failures code codes w :
  let req := quote_request (code :: codes) in
  let call := run (get_stock_quotes (code :: codes)) w in
  snd call = send req w /\
  sent (snd call) = sent w ++ [req] /\
  (forall e, network w req = Raise e -> fst call = []) /\
  (forall r, network w req = Ok r -> status_code r <> 200 -> fst call = []) /\
  (forall r e, network w req = Ok r -> json_loads (text r) = Raise e -> fst call = []) /\
  (forall r kv, network w req = Ok r -> status_code r = 200 ->
     json_loads (text r) = Ok (JObj kv) ->
     truthy (default JNull (dict_get "data" kv)) = false ->
     fst call = []).
Proof.
  cbv zeta. rewrite quotes_miss. simpl.
  split; [ done | ]. split; [ done | ]. unfold quotes_body. repeat split.
  - intros e ->. reflexivity.
  - intros r -> Hs. simpl. apply Z.eqb_neq in Hs. by rewrite Hs.
  - intros r e -> Hj. simpl. rewrite Hj. by destruct (status_code r =? 200).
  - intros r kv -> Hs Hj Hd. simpl. rewrite Hs, Hj. simpl.
    unfold quotes_of. simpl. by rewrite Hd.
Qed.

(** ** The history cache across two calls *)

(** A hit is served when the entry is fresh at both readings of the
    clock. *)
Lemma history_hit code page per_page start_date end_date w p :
  cache_find (_history_cache w) (history_key code page per_page start_date end_date) =
    Some p ->
  fresh (_history_cache w) (timer w) p = true ->
  fresh (_history_cache w) (timer w + lapse w) p = true ->
  run (get_fund_nav_history code page per_page start_date end_date) w =
  (Ok (e_value p), w).
Proof.
  intros Hfind Hfresh Hlater. unfold run, start, get_fund_nav_history. cbv zeta.
  unfold cache_contains, cache_getitem. by rewrite Hfind, Hfresh, Hlater.
Qed.

(** A fetch that goes through stores the page it returns. *)
Lemma history_fetch_stores code page per_page start_date end_date w r data p :
  cache_contains (_history_cache w) (timer w)
    (history_key code page per_page start_date end_date) = false ->
  network w (history_request code page per_page start_date end_date) = Ok r ->
  status_code r = 200 ->
  json_loads (text r) = Ok data ->
  err_code_is_zero data = true ->
  page_of page per_page data = Ok p ->
  maxsize (_history_cache w) <> 0%nat ->
  exists c,
    cache_setitem (_history_cache w) (timer w)
      (history_key code page per_page start_date end_date) p = Ok c /\
    run (get_fund_nav_history code page per_page start_date end_date) w =
    (Ok p, set_history_cache c
             (send (history_request code page per_page start_date end_date) w)).
Proof.
  intros Hmiss Hn Hs Hj Herr Hp Hm.
  rewrite (history_miss _ _ _ _ _ _ Hmiss). cbv zeta.
  unfold history_body. rewrite Hn. simpl. rewrite Hs, Hj. simpl.
  unfold err_code_is_zero in Herr.
  destruct (get data "ErrCode") as [err|e']; simpl; [ | done ].
  rewrite Herr, Hp. simpl. unfold cache_setitem.
  destruct (maxsize (_history_cache w)) as [|room] eqn:Em; [ done | ].
  simpl. eexists. split; reflexivity.
Qed.

(** X16. A history page that was fetched is served from the cache.  After
    a call that fetched a page (status 200, [ErrCode] 0, a payload that
    makes a page), every later call whose cache key is the same and whose
    readings [t2] and [t2 + d2] of the cache's clock are both less than the
    TTL later returns that page without a request, whatever the network
    would answer.  The key is the text
    [history_{code}_{page}_{per_page}_{start_date}_{end_date}], in which a
    missing date prints as [None]: a call without a start date and a call
    with the start date ["None"] share their key, hence their cached page,
    although their requests differ. *)
Theorem history_page_served_from_cache code page per_page start_date end_date w r data p :
  let key := history_key code page per_page start_date end_date in
  let req := history_request code page per_page start_date end_date in
  let call := run (get_fund_nav_history code page per_page start_date end_date) w in
  cache_contains (_history_cache w) (timer w) key = false ->
  network w req = Ok r ->
  status_code r = 200 ->
  json_loads (text r) = Ok data ->
  err_code_is_zero data = true ->
  page_of page per_page data = Ok p ->
  maxsize (_history_cache w) <> 0%nat ->
  fst call = Ok p /\
  sent (snd call) = sent w ++ [req] /\
  (forall t2 d2 net2 start_date' end_date',
     0 <= d2 ->
     t2 + d2 - timer w < ttl (_history_cache w) ->
     history_key code page per_page start_date' end_date' = key ->
     run (get_fund_nav_history code page per_page start_date' end_date')
       (later t2 d2 net2 (snd call)) =
     (Ok p, later t2 d2 net2 (snd call))) /\
  history_key code page per_page None end_date =
    history_key code page per_page (Some "None") end_date /\
  history_request code page per_page None end_date <>
    history_request code page per_page (Some "None") end_date.
Proof.
  cbv zeta. intros Hmiss Hn Hs Hj Herr Hp Hm.
  destruct (history_fetch_stores _ _ _ _ _ _ _ _ _ Hmiss Hn Hs Hj Herr Hp Hm)
    as (c & Hset & ->).
  destruct (setitem_find _ _ _ _ _ Hset) as (Hfind & Httl & _ & _).
  split; [ done | ]. split; [ done | ]. split; [ | split ].
  - intros t2 d2 net2 sd' ed' Hd Hlt Hkey.
    pose proof (history_hit code page per_page sd' ed'
                  (later t2 d2 net2 (set_history_cache c
                     (send (history_request code page per_page start_date end_date) w)))
                  (mk_entry (history_key code page per_page start_date end_date) p (timer w)))
      as Hhit.
    simpl in Hhit. rewrite Hkey in Hhit. apply Hhit; [ done | | ].
    + apply (fresh_within_ttl c t2). simpl. rewrite Httl. lia.
    + apply (fresh_within_ttl c (t2 + d2)). simpl. rewrite Httl. lia.
  - reflexivity.
  - unfold history_request. intros Heq. discriminate Heq.
Qed.

(** ** Payloads that cannot be read *)

Lemma float_or_none_raises kv (k : string) (v : json F) e :
  dict_get k kv = Some v ->
  truthy v = true ->
  py_float v = Raise e ->
  float_or_none (JObj kv) k = Raise e.
Proof.
  intros Hk Ht He. unfold float_or_none, get_default. simpl. rewrite Hk. simpl.
  by rewrite Ht, He.
Qed.

Lemma float_or_none_total kv (k : string) :
  (exists o, float_or_none (JObj kv) k = Ok o) \/
  (exists e, float_or_none (JObj kv) k = Raise e).
Proof. destruct (float_or_none (JObj kv) k); eauto. Qed.

(** A number that [float] rejects leaves no quote. *)
Lemma estimate_of_raises code kv (k : string) (v : json F) e :
  k ∈ ["dwjz"; "gsz"; "gszzl"] ->
  dict_get k kv = Some v ->
  truthy v = true ->
  py_float v = Raise e ->
  exists e', estimate_of code (JObj kv) = Raise e'.
Proof.
  intros Hin Hk Ht He.
  pose proof (float_or_none_raises kv k v e Hk Ht He) as Hbad.
  unfold estimate_of, get_default. cbn [get bind].
  destruct (float_or_none (JObj kv) "dwjz") as [nav|e1] eqn:E1; cbn [bind]; [ | eauto ].
  destruct (float_or_none (JObj kv) "gsz") as [gsz|e2] eqn:E2; cbn [bind]; [ | eauto ].
  destruct (float_or_none (JObj kv) "gszzl") as [gszzl|e3] eqn:E3; cbn [bind]; [ | eauto ].
  exfalso. repeat (apply elem_of_cons in Hin as [-> | Hin]; [ congruence | ]).
  by apply elem_of_nil in Hin.
Qed.

(** X20. A payload that cannot be read leaves no quote and no cache
    entry.  When the estimate endpoint answers with a payload in which the
    unit value, the estimate or the estimated change is present, truthy
    and rejected by [float], or with a payload that is no [dict],
    [get_fund_estimate] returns [None]; the request has been sent, the
    cache is as it was, so the next call sends the request again.  A
    number that is 0, an empty text or a missing key is no error: the
    field is [None]. *)
Theorem unreadable_estimate_gives_none code w r g :
  cache_contains (_realtime_cache w) (timer w) (estimate_key code) = false ->
  network w (estimate_request code) = Ok r ->
  status_code r = 200 ->
  search_jsonpgz (text r) = Some g ->
  (forall kv k v e,
     json_loads g = Ok (JObj kv) ->
     k ∈ ["dwjz"; "gsz"; "gszzl"] ->
     dict_get k kv = Some v -> truthy v = true -> py_float v = Raise e ->
     run (get_fund_estimate code) w = (Ok None, send (estimate_request code) w)) /\
  (forall data,
     json_loads g = Ok data -> (forall kv, data <> JObj kv) ->
     run (get_fund_estimate code) w = (Ok None, send (estimate_request code) w)) /\
  (forall kv k,
     float_or_none (JObj kv) k =
     match dict_get k kv with
     | Some v => if truthy v then (f <- py_float v ;; Ok (Some f)) else Ok None
     | None => Ok None
     end).
Proof.
  intros Hmiss Hn Hs Hg.
  destruct (estimate_miss code w Hmiss) as [_ Hrun]. rewrite Hrun, Hn.
  unfold estimate_resume, estimate_body. cbn [bind]. rewrite Hs, Hg.
  change (200 =? 200) with true. cbv iota.
  split; [ | split ].
  - intros kv k v e Hj Hin Hk Ht He. rewrite Hj. cbn [bind].
    destruct (estimate_of_raises code kv k v e Hin Hk Ht He) as [e' ->]. reflexivity.
  - intros data Hj Hnd. rewrite Hj. cbn [bind].
    assert (Hr : estimate_of code data = Raise AttributeError).
    { destruct data; try done. by destruct (Hnd kv). }
    by rewrite Hr.
  - intros kv k. unfold float_or_none, get_default. simpl.
    destruct (dict_get k kv) as [v|]; simpl; [ | done ].
    by destruct (truthy v).
Qed.

Lemma mapM_raises {A B} (f : A -> result B) (l : list A) (x : A) e :
  x ∈ l -> f x = Raise e -> exists e', mapM f l = Raise e'.
Proof.
  intros Hin Hx. induction l as [|a l IH]; [ by apply elem_of_nil in Hin | ].
  simpl. apply elem_of_cons in Hin as [<- | Hin].
  - rewrite Hx. simpl. eauto.
  - destruct (f a) as [b|e1]; simpl; [ | eauto ].
    destruct (IH Hin) as [e' ->]. simpl. eauto.
Qed.

Lemma record_of_raises ki (k : string) (v : json F) e :
  k ∈ ["DWJZ"; "LJJZ"; "JZZZL"] ->
  dict_get k ki = Some v ->
  truthy v = true ->
  py_float v = Raise e ->
  exists e', record_of (JObj ki) = Raise e'.
Proof.
  intros Hin Hk Ht He.
  pose proof (float_or_none_raises ki k v e Hk Ht He) as Hbad.
  unfold record_of, get_default. cbn [get bind].
  destruct (float_or_none (JObj ki) "DWJZ") as [a|e1] eqn:E1; cbn [bind]; [ | eauto ].
  destruct (float_or_none (JObj ki) "LJJZ") as [b|e2] eqn:E2; cbn [bind]; [ | eauto ].
  destruct (float_or_none (JObj ki) "JZZZL") as [c|e3] eqn:E3; cbn [bind]; [ | eauto ].
  exfalso. repeat (apply elem_of_cons in Hin as [-> | Hin]; [ congruence | ]).
  by apply elem_of_nil in Hin.
Qed.

Lemma history_page_raises code page per_page start_date end_date w r data e :
  cache_contains (_history_cache w) (timer w)
    (history_key code page per_page start_date end_date) = false ->
  network w (history_request code page per_page start_date end_date) = Ok r ->
  status_code r = 200 ->
  json_loads (text r) = Ok data ->
  page_of page per_page data = Raise e ->
  run (get_fund_nav_history code page per_page start_date end_date) w =
  (Ok (empty_page page per_page),
   send (history_request code page per_page start_date end_date) w).
Proof.
  intros Hmiss Hn Hs Hj Hp. rewrite (history_miss _ _ _ _ _ _ Hmiss). cbv zeta.
  unfold history_body. rewrite Hn. simpl. rewrite Hs, Hj. simpl.
  destruct (get data "ErrCode") as [err|e']; simpl; [ | done ].
  destruct (eq_zero (default JNull err)); [ | done ].
  by rewrite Hp.
Qed.

(** X21. One bad record costs the whole page.  When the payload of the
    history endpoint holds, anywhere in its list, a record in which the
    unit value, the accumulated value or the change is present, truthy and
    rejected by [float], [get_fund_nav_history] returns the empty page
    with total 0: the other records are dropped, and nothing is cached.
    The same holds when ["Data"] is present and no [dict] (for instance
    [null]). *)
Theorem one_bad_record_drops_the_page code page per_page start_date end_date w r kv :
  let req := history_request code page per_page start_date end_date in
  let call := run (get_fund_nav_history code page per_page start_date end_date) w in
  cache_contains (_history_cache w) (timer w)
    (history_key code page per_page start_date end_date) = false ->
  network w req = Ok r ->
  status_code r = 200 ->
  json_loads (text r) = Ok (JObj kv) ->
  (forall kd items ki k v e,
     dict_get "Data" kv = Some (JObj kd) ->
     dict_get "LSJZList" kd = Some (JArr items) ->
     JObj ki ∈ items ->
     k ∈ ["DWJZ"; "LJJZ"; "JZZZL"] ->
     dict_get k ki = Some v -> truthy v = true -> py_float v = Raise e ->
     call = (Ok (empty_page page per_page), send req w)) /\
  (forall v,
     dict_get "Data" kv = Some v -> (forall kd, v <> JObj kd) ->
     call = (Ok (empty_page page per_page), send req w)).
Proof.
  cbv zeta. intros Hmiss Hn Hs Hj. split.
  - intros kd items ki k v e Hd Hl Hin Hk Hv Ht He.
    destruct (record_of_raises ki k v e Hk Hv Ht He) as [e1 He1].
    destruct (mapM_raises record_of items (JObj ki) e1 Hin He1) as [e2 He2].
    apply (history_page_raises _ _ _ _ _ _ r (JObj kv) e2 Hmiss Hn Hs Hj).
    unfold page_of, get_default. simpl. rewrite Hd. simpl. rewrite Hl. simpl.
    by rewrite He2.
  - intros v Hd Hnd.
    apply (history_page_raises _ _ _ _ _ _ r (JObj kv) AttributeError Hmiss Hn Hs Hj).
    unfold page_of, get_default. simpl. rewrite Hd. simpl.
    destruct v; try done. by destruct (Hnd kv0).
Qed.

End MoreClientFacts.

(** ** search_funds *)

Section SearchFacts.

Context {F : Type} `{PyFloat F} `{PyStr}.

Lemma hit_searchable (keyword_lower : string) (fund : json F) :
  searchable keyword_lower fund ->
  fund_matches keyword_lower fund = Ok (hit keyword_lower fund).
Proof. intros [b Hb]. unfold hit. rewrite Hb. by destruct b. Qed.

(** The loop, from any point where it has not yet reached the limit. *)
Lemma search_loop_spec (keyword_lower : string) (limit : Z) (all_funds : list (json F)) :
  forall matched,
    Forall (searchable keyword_lower) all_funds ->
    Z.of_nat (length matched) < Z.max 1 limit ->
    search_loop keyword_lower limit all_funds matched =
    Ok (matched ++ take (Z.to_nat (Z.max 1 limit) - length matched)
                     (List.filter (hit keyword_lower) all_funds)).
Proof.
  induction all_funds as [|fund rest IH]; intros matched Hall Hlt.
  - simpl. by rewrite take_nil, app_nil_r.
  - apply Forall_cons in Hall as [Hf Hall]. cbn [search_loop List.filter].
    rewrite (hit_searchable _ _ Hf). cbn [bind].
    destruct (hit keyword_lower fund); [ | by apply IH ].
    cbv zeta. rewrite length_app. cbn [length].
    destruct (limit <=? Z.of_nat (length matched + 1)) eqn:El.
    + apply Z.leb_le in El.
      replace (Z.to_nat (Z.max 1 limit) - length matched)%nat with 1%nat by lia.
      reflexivity.
    + apply Z.leb_gt in El. rewrite IH; [ | done | rewrite length_app; simpl; lia ].
      rewrite length_app. cbn [length]. rewrite <- app_assoc. f_equal. simpl.
      replace (Z.to_nat (Z.max 1 limit) - length matched)%nat
        with (S (Z.to_nat (Z.max 1 limit) - (length matched + 1)))%nat by lia.
      reflexivity.
Qed.

(** X17. [search_funds] returns the first funds of the list that match,
    in the order of the list, up to [limit] of them, and one of them when
    [limit] is 0 or negative: the loop tests the limit only after it has
    appended a match.  A fund matches when the lowered keyword is a
    substring of its lowered code, name or abbreviation; the entries
    [get_fund_list] builds from strings can all be tested.  An entry whose
    code is no string makes the search raise [AttributeError] as soon as
    the loop reaches it. *)
Theorem search_returns_first_matches (all_funds : list (json F)) (keyword : string)
    (limit : Z) :
  let kl := str_lower keyword in
  (Forall (searchable kl) all_funds ->
     search_funds all_funds keyword limit =
       Ok (take (Z.to_nat (Z.max 1 limit)) (List.filter (hit kl) all_funds)) /\
     (limit <= 0 -> forall fund rest,
        List.filter (hit kl) all_funds = fund :: rest ->
        search_funds all_funds keyword limit = Ok [fund])) /\
  (forall (code abbr name : string) (type : json F),
     searchable kl (fund_entry (JStr code) (JStr abbr) (JStr name) type) /\
     hit kl (fund_entry (JStr code) (JStr abbr) (JStr name) type) =
       str_in kl (str_lower code) || str_in kl (str_lower name) ||
       str_in kl (str_lower abbr)) /\
  (forall (code abbr name type : json F) rest,
     (forall s, code <> JStr s) ->
     search_funds (fund_entry code abbr name type :: rest) keyword limit =
       Raise AttributeError).
Proof.
  cbv zeta. split; [ | split ].
  - intros Hall.
    assert (Hs : search_funds all_funds keyword limit =
                 Ok (take (Z.to_nat (Z.max 1 limit))
                       (List.filter (hit (str_lower keyword)) all_funds))).
    { unfold search_funds. cbv zeta. rewrite search_loop_spec; [ | done | simpl; lia ].
      simpl. by rewrite Nat.sub_0_r. }
    split; [ done | ]. intros Hle fund rest Hf. rewrite Hs, Hf.
    replace (Z.to_nat (Z.max 1 limit)) with 1%nat by lia.
    reflexivity.
  - intros code abbr name type. unfold searchable, hit, fund_matches, fund_entry.
    simpl. destruct (str_in (str_lower keyword) (str_lower code)); simpl; [ eauto | ].
    destruct (str_in (str_lower keyword) (str_lower name)); simpl; [ eauto | ].
    destruct (str_in (str_lower keyword) (str_lower abbr)); simpl; eauto.
  - intros code abbr name type rest Hcode. unfold search_funds, fund_entry. simpl.
    destruct code; try done. by destruct (Hcode s).
Qed.

End SearchFacts.

(** ** get_fund_holdings *)

Section HoldingsFacts.

Context {F : Type} `{PyFloat F} `{PyText F} `{PyHtml}.

Implicit Types (w : client F) (code : string).

Lemma holdings_run code w :
  run (get_fund_holdings code) w =
  (default [] (try_except (holdings_body (network w (holdings_request code)))
                 (fun _ => None)),
   send (holdings_request code) w).
Proof. reflexivity. Qed.

Lemma holding_of_row_named (row : string) (h : holding F) :
  holding_of_row row = Some h ->
  stock_name h <> "" /\
  (exists group1, search_stock_name row = Some group1 /\ stock_name h = strip group1) /\
  stock_code h = default "" (search_stock_code row) /\
  ratio h = ratio_of (findall_ratios row).
Proof.
  unfold holding_of_row. destruct (search_stock_name row) as [g|]; [ | done ].
  destruct (String.eqb (strip g) "") eqn:E; simpl; [ done | ].
  intros [= <-]. simpl. split; [ by apply String.eqb_neq | ]. eauto.
Qed.

Lemma ratio_of_cases (ratio_matches : list string) :
  ratio_of ratio_matches = JInt 0 \/
  exists m f, m ∈ ratio_matches /\ str_in "%" m = true /\
              float_of_str (remove_percent m) = Ok f /\
              ratio_of ratio_matches = JFloat f.
Proof.
  induction ratio_matches as [|m rest IH]; simpl; [ by left | ].
  assert (Hrest : ratio_of rest = JInt 0 \/
                  exists m' f, m' ∈ m :: rest /\ str_in "%" m' = true /\
                               float_of_str (remove_percent m') = Ok f /\
                               ratio_of rest = JFloat f).
  { destruct IH as [? | (m' & f & ? & ? & ? & ?)]; [ by left | right ].
    exists m', f. split; [ by right | done ]. }
  destruct (str_in "%" m) eqn:Ep; [ | done ].
  destruct (float_of_str (remove_percent m)) as [f|e] eqn:Ef; [ | done ].
  right. exists m, f. split; [ by left | done ].
Qed.

Lemma holdings_of_named (text : string) :
  Forall (fun h : holding F =>
            stock_name h <> "" /\
            (ratio h = JInt 0 \/ exists f, ratio h = JFloat f))
    (holdings_of text).
Proof.
  unfold holdings_of. destruct (search_tbody text) as [tbody|]; [ | done ].
  induction (findall_rows tbody) as [|row rows IH]; [ done | ].
  simpl. destruct (holding_of_row row) as [h|] eqn:Eh; [ | done ].
  apply Forall_cons. split; [ | done ].
  destruct (holding_of_row_named row h Eh) as (Hn & _ & _ & Hr).
  split; [ done | ]. rewrite Hr.
  destruct (ratio_of_cases (findall_ratios row)) as [? | (m & f & _ & _ & _ & ?)]; eauto.
Qed.

(** X18. [get_fund_holdings] never raises and sends exactly one request.
    It returns at most ten holdings, each with a name that is not empty,
    and with a ratio that is the integer 0 or a float: with status 200 the
    first ten of the rows that carry a name, in the order of the table;
    the empty list when the request raises or the status is not 200. *)
Theorem holdings_at_most_ten code w :
  let req := holdings_request code in
  let call := run (get_fund_holdings code) w in
  (length (fst call) <= 10)%nat /\
  Forall (fun h => stock_name h <> "" /\
                   (ratio h = JInt 0 \/ exists f, ratio h = JFloat f)) (fst call) /\
  snd call = send req w /\
  (forall e, network w req = Raise e -> fst call = []) /\
  (forall r, network w req = Ok r -> status_code r <> 200 -> fst call = []) /\
  (forall r, network w req = Ok r -> status_code r = 200 ->
     fst call = take 10 (holdings_of (text r)) /\
     (forall h, h ∈ fst call ->
        exists row, holding_of_row row = Some h)).
Proof.
  cbv zeta. rewrite holdings_run. cbn [fst snd]. unfold holdings_body.
  destruct (network w (holdings_request code)) as [r|e]; simpl.
  - destruct (status_code r =? 200) eqn:Es; simpl.
    + split; [ rewrite length_take; lia | ].
      split; [ apply Forall_take, holdings_of_named | ].
      split; [ done | ]. split; [ done | ]. split.
      * intros r' [= <-] Hne. apply Z.eqb_eq in Es. done.
      * intros r' [= <-] _. split; [ done | ].
        intros h Hin. apply elem_of_take in Hin as (i & Hi & _).
        unfold holdings_of in Hi. destruct (search_tbody (text r)) as [tbody|]; [ | done ].
        apply list_elem_of_lookup_2 in Hi. apply list_elem_of_omap in Hi as (row & _ & Hrow).
        eauto.
    + split; [ lia | ]. split; [ done | ]. split; [ done | ]. split; [ done | ]. split.
      * done.
      * intros r' [= <-] Hs. apply Z.eqb_neq in Es. done.
  - split; [ lia | ]. repeat split; done.
Qed.

(** ** get_fund_holdings_with_quotes *)

Lemma quotes_run_nonempty c cs w :
  run (get_stock_quotes (c :: cs)) w =
  (default [] (try_except (quotes_body (network w (quote_request (c :: cs))))
                 (fun _ => None)),
   send (quote_request (c :: cs)) w).
Proof. reflexivity. Qed.

(** X19. [get_fund_holdings_with_quotes] returns the holdings of
    [get_fund_holdings], in the same order and with the same name, code and
    ratio, each with a [change].  It asks for the quotes of the holdings
    whose code is not empty, in one request after the request for the
    holdings; without holdings, or when no holding has a code, that second
    request is not sent.  When the request for the quotes raises, the
    holdings are returned all the same, every [change] being [None]. *)
Theorem holdings_keep_their_fields code w :
  let holdings := fst (run (get_fund_holdings code) w) in
  let stock_codes := codes_of_holdings holdings in
  let call := get_fund_holdings_with_quotes code w in
  map hq_holding (fst call) = holdings /\
  sent (snd call) =
    sent w ++ holdings_request code ::
    match stock_codes with
    | [] => []
    | _ => [quote_request stock_codes]
    end /\
  (stock_codes = [] -> Forall (fun hq => hq_change hq = None) (fst call)) /\
  (forall e, network w (quote_request stock_codes) = Raise e ->
     Forall (fun hq => hq_change hq = None) (fst call)).
Proof.
  cbv zeta. unfold get_fund_holdings_with_quotes. rewrite holdings_run.
  cbn [fst snd].
  set (hs := default [] (try_except (holdings_body _) _)).
  destruct hs as [|h hs'] eqn:Ehs; [ simpl; repeat split; done | ].
  rewrite <- Ehs. set (cs := codes_of_holdings hs).
  assert (Hmap : forall q : list (json F * F),
            map hq_holding
              (map (fun h0 => mk_holding_quote h0 (quotes_get q (JStr (stock_code h0)))) hs) = hs).
  { intros q. rewrite map_map. simpl. apply map_id. }
  assert (Hnone : Forall (fun hq : holding_quote F => hq_change hq = None)
                    (map (fun h0 => mk_holding_quote h0 (quotes_get [] (JStr (stock_code h0)))) hs)).
  { apply Forall_map. by apply Forall_forall. }
  destruct cs as [|c cs'] eqn:Ecs.
  - change (run (get_stock_quotes []) (send (holdings_request code) w))
      with (@nil (json F * F), send (holdings_request code) w).
    cbn [fst snd]. split; [ apply Hmap | ]. split; [ done | ]. split; done.
  - rewrite quotes_run_nonempty. cbn [fst snd].
    split; [ apply Hmap | ]. split; [ simpl; by rewrite <- app_assoc | ].
    split; [ done | ]. intros e He. simpl in He |- *. rewrite He. exact Hnone.
Qed.

End HoldingsFacts.

(** ** get_fund_detail *)

Section DetailFacts.

Context {F : Type} `{PyFloat F} `{PyDetailHtml}.

Lemma add_period_change_raise (html : string) (keys : list string) e :
  fold_left (add_period_change html) keys (Raise e) = (Raise e : result (list (string * F))).
Proof. induction keys as [|k keys IH]; simpl; done. Qed.

(** A change that [float] rejects makes the loop raise. *)
Lemma period_changes_raise (html key g : string) e (keys : list string) :
  key ∈ keys ->
  search_change key html = Some g ->
  float_of_str g = Raise e ->
  forall acc : list (string * F),
    exists e', fold_left (add_period_change html) keys (Ok acc) = Raise e'.
Proof.
  intros Hin Hs Hf. induction keys as [|k keys IH]; intros acc.
  - by apply elem_of_nil in Hin.
  - cbn [fold_left]. apply elem_of_cons in Hin as [<- | Hin].
    + unfold add_period_change at 2. cbn [bind]. rewrite Hs, Hf. cbn [bind].
      rewrite add_period_change_raise. eauto.
    + destruct (add_period_change html (Ok acc) k) as [acc'|e'].
      * by apply IH.
      * rewrite add_period_change_raise. eauto.
Qed.

(** The keys the loop leaves: those it found, behind those it started
    with. *)
Lemma period_changes_keys (html : string) (keys : list string) :
  forall acc res : list (string * F),
    NoDup (map fst acc ++ keys) ->
    fold_left (add_period_change html) keys (Ok acc) = Ok res ->
    map fst res = map fst acc ++ List.filter (period_found html) keys.
Proof.
  induction keys as [|k keys IH]; intros acc res Hnd Hfold.
  - simpl in Hfold |- *. injection Hfold as <-. by rewrite app_nil_r.
  - cbn [fold_left] in Hfold. cbn [List.filter]. unfold period_found at 1.
    unfold add_period_change at 2 in Hfold. cbn [bind] in Hfold.
    apply NoDup_app in Hnd as (Hacc & Hdis & Hkeys).
    apply NoDup_cons in Hkeys as [Hk Hkeys].
    destruct (search_change k html) as [g|].
    + destruct (float_of_str g) as [f|e]; cbn [bind] in Hfold;
        [ | by rewrite add_period_change_raise in Hfold ].
      assert (Hset : map fst (dict_set k f acc) = map fst acc ++ [k]).
      { rewrite IntradayStoreMore.dict_set_keys. unfold dict_mem.
        destruct (dict_get k acc) eqn:Hg; [ | done ].
        exfalso. apply (Hdis k); [ | by left ].
        clear -Hg. induction acc as [|[k' v'] acc IHa]; simpl in *; [ done | ].
        destruct (String.eqb k k') eqn:E.
        - apply String.eqb_eq in E. subst. by left.
        - right. by apply IHa. }
      assert (Hnd' : NoDup (map fst (dict_set k f acc) ++ keys)).
      { rewrite Hset, <- app_assoc. simpl. apply NoDup_app. split; [ done | ].
        split; [ done | by apply NoDup_cons ]. }
      rewrite (IH _ _ Hnd' Hfold), Hset. by rewrite <- app_assoc.
    + apply IH; [ | done ]. apply NoDup_app. split; [ done | ]. split; [ | done ].
      intros x Hx Hin. apply (Hdis x Hx). by right.
Qed.

(** X22. [get_fund_detail], for a call that has to fetch.  A page in
    which the pattern of some period finds a text that [float] rejects
    (for instance [--] for a fund younger than the period) leaves no
    detail at all: the call returns [None], and [get_fund_sector], which
    builds on it, then answers with the default label.  When the call
    returns a detail, its code is the code that was asked for, a field
    whose pattern finds nothing is the empty text, and the changes are
    those of the periods whose pattern found something, in the order of
    the table of patterns.  When the request raises or the status is not
    200 the call returns [None]. *)
Theorem detail_needs_every_change code :
  (forall r key g e,
     status_code r = 200 ->
     key ∈ change_keys ->
     search_change key (text r) = Some g ->
     float_of_str g = Raise e ->
     detail_resume code (Ok r) = None /\
     get_fund_sector (detail_resume code (Ok r)) = "综合") /\
  (forall r d,
     detail_resume code (Ok r) = Some d ->
     status_code r = 200 /\
     d_code d = code /\
     d_name d = default "" (search_fund_name (text r)) /\
     d_type d = default "" (search_fund_type (text r)) /\
     map fst (d_changes d) = List.filter (period_found (text r)) change_keys) /\
  (forall e, detail_resume code (Raise e) = None) /\
  (forall r, status_code r <> 200 -> detail_resume code (Ok r) = None).
Proof.
  split; [ | split; [ | split ] ].
  - intros r key g e Hs Hin Hfound Hf.
    assert (Hnone : detail_resume code (Ok r) = None).
    { unfold detail_resume, detail_body. cbn [bind]. rewrite Hs.
      change (200 =? 200) with true. cbv iota. unfold detail_of.
      destruct (match search_scale (text r) with Some _ => _ | None => _ end)
        as [scale|e1]; cbn [bind]; [ | done ].
      destruct (period_changes_raise (text r) key g e change_keys Hin Hfound Hf [])
        as [e' ->].
      reflexivity. }
    split; [ done | ]. by rewrite Hnone.
  - intros r d. unfold detail_resume, detail_body. cbn [bind].
    destruct (status_code r =? 200) eqn:Es; [ | done ].
    apply Z.eqb_eq in Es. unfold detail_of.
    destruct (match search_scale (text r) with Some _ => _ | None => _ end)
      as [scale|e1]; cbn [bind]; [ | done ].
    destruct (fold_left (add_period_change (text r)) change_keys (Ok []))
      as [changes|e2] eqn:Ef; cbn [bind try_except]; [ | done ].
    intros [= <-]. simpl. repeat split; try done.
    apply (period_changes_keys (text r) change_keys [] changes); [ | done ].
    simpl. apply NoDup_ListNoDup. repeat constructor; simpl; intuition discriminate.
  - done.
  - intros r Hs. unfold detail_resume, detail_body. cbn [bind].
    apply Z.eqb_neq in Hs. by rewrite Hs.
Qed.

End DetailFacts.

(** ** Worked examples on the reference runtime *)

Import Reference.

(** A coal fund is classified as 钢铁, a fund of innovative drugs as 科技,
    a hotel fund as 白酒. *)
Lemma sector_table_shadowing_witness :
  let coal := mk_fund_detail "161032" "富国中证煤炭指数" "" "" "" (@None Z) [] in
  let drug := mk_fund_detail "006113" "汇添富创新药" "" "" "" (@None Z) [] in
  let hotel := mk_fund_detail "000000" "某酒店餐饮" "" "" "" (@None Z) [] in
  get_fund_sector (Some coal) = "钢铁" /\
  get_fund_sector (Some coal) ∈ labels_upto 35 /\
  get_fund_sector (Some drug) = "科技" /\
  get_fund_sector (Some drug) <> "创新药" /\
  get_fund_sector (Some hotel) = "白酒" /\
  get_fund_sector (Some hotel) <> "旅游".
Proof.
  cbv zeta.
  destruct (@sector_table_shadowing Z) as (_ & Hcoal & Hdrug & Hhotel & _).
  split; [ by vm_compute | ].
  split; [ apply Hcoal; apply str_in_spec; by vm_compute | ].
  split; [ by vm_compute | ].
  split; [ apply Hdrug; apply str_in_spec; by vm_compute | ].
  split; [ by vm_compute | ].
  apply Hhotel. apply str_in_spec. by vm_compute.
Defined.

(** A batch that names the fund 000001 twice, on an empty cache, sends two
    requests for it; once the quote is cached, a batch sends none. *)
Lemma batch_sends_one_request_per_miss_witness :
  sent (snd (get_fund_estimates_batch ["000001"; "000001"] (client_at 0))) =
    [estimate_request "000001"; estimate_request "000001"] /\
  (let w1 := snd (run (get_fund_estimate "000001") (client_at 0)) in
   sent (snd (get_fund_estimates_batch ["000001"; "000001"] (later 5 0 net w1))) =
     [estimate_request "000001"]).
Proof.
  split.
  - apply (proj2 (proj2 (batch_sends_one_request_per_miss [] (client_at 0))) "000001").
    reflexivity.
  - cbv zeta.
    etrans; [ apply (proj1 (batch_sends_one_request_per_miss ["000001"; "000001"] _)) | ].
    by vm_compute.
Defined.

(** Two quotes arrive; when the change of the second is ["-"], which
    [float] rejects, the first is dropped with it. *)
Lemma one_bad_item_drops_all_quotes_witness :
  fst (run (get_stock_quotes ["600519"; "000858"]) (quote_client (quotes_text "-2"))) =
    [(JStr "600519", 1); (JStr "000858", -2)] /\
  run (get_stock_quotes ["600519"; "000858"]) (quote_client (quotes_text (quoted "-"))) =
    ([], send (quote_request ["600519"; "000858"]) (quote_client (quotes_text (quoted "-")))).
Proof.
  split; [ by vm_compute | ].
  refine (one_bad_item_drops_all_quotes "600519" ["000858"]
            (quote_client (quotes_text (quoted "-")))
            (mk_response 200 (quotes_text (quoted "-")))
            [("data", JObj [("diff", JArr [JObj [("f12", JStr "600519"); ("f3", JInt 1)];
                                           JObj [("f12", JStr "000858"); ("f3", JStr "-")]])])]
            [("diff", JArr [JObj [("f12", JStr "600519"); ("f3", JInt 1)];
                            JObj [("f12", JStr "000858"); ("f3", JStr "-")]])]
            [JObj [("f12", JStr "600519"); ("f3", JInt 1)];
             JObj [("f12", JStr "000858"); ("f3", JStr "-")]]
            [("f12", JStr "000858"); ("f3", JStr "-")]
            (JStr "000858") (JStr "-") ValueError _ _ _ _ _ _ _ _ _ _ _);
    try (vm_compute; reflexivity).
  - right. left.
  - discriminate.
Defined.

(** The quote endpoint is not found: the empty mapping, one request. *)
Lemma stock_quotes_failures_witness :
  run (get_stock_quotes ["600519"; "000858"; "300750"]) (client_at 0) =
    ([], send (quote_request ["600519"; "000858"; "300750"]) (client_at 0)) /\
  length (sent (snd (run (get_stock_quotes ["600519"; "000858"; "300750"]) (client_at 0)))) =
    1%nat.
Proof.
  destruct (stock_quotes_failures "600519" ["000858"; "300750"] (client_at 0))
    as (Hw & Hsent & _ & Hstatus & _).
  split.
  - apply injective_projections; [ | exact Hw ].
    apply (Hstatus (mk_response 404 "")); [ reflexivity | discriminate ].
  - by rewrite Hsent.
Defined.

(** The history of the fund 000001, fetched at time 0, is served from the
    cache to a call that reads the clock at 3590 and at 3599, also when its
    start date is the text ["None"], and no second request goes out. *)
Lemma history_page_served_from_cache_witness :
  let p := mk_nav_page (JInt 1) 1 20 [mk_nav_record (JStr "2024-02-29") (Some 10) None None] in
  let w1 := snd (run (get_fund_nav_history "000001" 1 20 None None) (client_at 0)) in
  fst (run (get_fund_nav_history "000001" 1 20 None None) (client_at 0)) = Ok p /\
  run (get_fund_nav_history "000001" 1 20 (Some "None") None) (later 3590 9 net w1) =
    (Ok p, later 3590 9 net w1) /\
  sent (later 3590 9 net w1) = [history_request "000001" 1 20 None None].
Proof.
  cbv zeta.
  assert (Hc := history_page_served_from_cache "000001" 1 20 None None (client_at 0)
                  (mk_response 200 history_text)
                  (JObj [("ErrCode", JInt 0); ("TotalCount", JInt 1);
                         ("Data", JObj [("LSJZList",
                            JArr [JObj [("FSRQ", JStr "2024-02-29");
                                        ("DWJZ", JStr "10")]])])])
                  (mk_nav_page (JInt 1) 1 20
                     [mk_nav_record (JStr "2024-02-29") (Some 10) None None])).
  cbv zeta in Hc.
  destruct Hc as (Hfirst & Hsent & Hsecond & _);
    [ vm_compute; reflexivity .. | discriminate | ].
  split; [ exact Hfirst | ]. split.
  - apply Hsecond; [ lia | vm_compute; reflexivity | reflexivity ].
  - exact Hsent.
Defined.

(** A search for [HX] finds the fund whose abbreviation holds it; with
    the limit 0 the search still returns one fund; with the limit 2 the
    search for [1] stops after two of three matches. *)
Lemma search_returns_first_matches_witness :
  search_funds three_funds "HX" 20 =
    Ok [fund_entry (JStr "000001") (JStr "HXCZHH") (JStr "华夏成长混合") (JStr "混合型")] /\
  search_funds three_funds "" 0 =
    Ok [fund_entry (JStr "000001") (JStr "HXCZHH") (JStr "华夏成长混合") (JStr "混合型")] /\
  search_funds three_funds "1" 2 = Ok (take 2 three_funds).
Proof.
  assert (Hall : forall kw, Forall (searchable (F := Z) (str_lower kw)) three_funds).
  { intros kw. unfold three_funds.
    repeat (apply Forall_cons; split;
            [ apply (proj1 (proj2 (search_returns_first_matches [] kw 0))) | ]).
    apply Forall_nil_2. }
  split; [ | split ].
  - etrans; [ apply (proj1 (proj1 (search_returns_first_matches three_funds "HX" 20)
                               (Hall "HX"))) | ].
    by vm_compute.
  - apply (proj2 (proj1 (search_returns_first_matches three_funds "" 0) (Hall ""))
             ltac:(lia) _ (drop 1 three_funds)).
    by vm_compute.
  - etrans; [ apply (proj1 (proj1 (search_returns_first_matches three_funds "1" 2)
                               (Hall "1"))) | ].
    by vm_compute.
Defined.

(** The page of three rows gives two holdings: the row whose name is
    blank is left out, the row without a code keeps an empty code, and a
    cell that is no number is passed over for the next one. *)
Lemma holdings_at_most_ten_witness :
  let w := holdings_client (Ok (mk_response 200 holdings_page)) (quotes_text "-2") in
  fst (run (get_fund_holdings "000001") w) =
    [mk_holding "贵州茅台" "600519" (JFloat 9); mk_holding "某债券" "" (JFloat 5)] /\
  fst (run (get_fund_holdings "000001") (holdings_client (Raise ConnectError) "")) = [].
Proof.
  cbv zeta. split.
  - destruct (holdings_at_most_ten "000001"
                (holdings_client (Ok (mk_response 200 holdings_page)) (quotes_text "-2")))
      as (_ & _ & _ & _ & _ & Hok).
    destruct (Hok (mk_response 200 holdings_page) eq_refl eq_refl) as [Hh _].
    etrans; [ exact Hh | by vm_compute ].
  - destruct (holdings_at_most_ten "000001" (holdings_client (Raise ConnectError) ""))
      as (_ & _ & _ & Hraise & _).
    apply (Hraise ConnectError). reflexivity.
Defined.

(** The two holdings with their quotes: one request for the holdings, one
    for the quote of the one code; and when the quote endpoint is not
    reachable the holdings come back without a change. *)
Lemma holdings_keep_their_fields_witness :
  let w := holdings_client (Ok (mk_response 200 holdings_page)) (quotes_text "-2") in
  let call := get_fund_holdings_with_quotes "000001" w in
  fst call =
    [mk_holding_quote (mk_holding "贵州茅台" "600519" (JFloat 9)) (Some 1);
     mk_holding_quote (mk_holding "某债券" "" (JFloat 5)) None] /\
  map hq_holding (fst call) = fst (run (get_fund_holdings "000001") w) /\
  sent (snd call) = [holdings_request "000001"; quote_request ["600519"]].
Proof.
  cbv zeta.
  destruct (holdings_keep_their_fields "000001"
              (holdings_client (Ok (mk_response 200 holdings_page)) (quotes_text "-2")))
    as (Hmap & Hsent & _).
  split; [ by vm_compute | ]. split; [ exact Hmap | ].
  etrans; [ exact Hsent | by vm_compute ].
Defined.

(** An estimate that reads [abc] leaves no quote and no cache entry; an
    estimate that is the number 0 gives a quote whose estimate is [None]. *)
Lemma unreadable_estimate_gives_none_witness :
  (let w := odd_client (odd_estimate_text (quoted "abc")) in
   run (get_fund_estimate "000007") w = (Ok None, send (estimate_request "000007") w)) /\
  (let w := odd_client (odd_estimate_text "0") in
   fst (run (get_fund_estimate "000007") w) =
   Ok (Some (mk_quote (JStr "000007") (JStr "") None (JStr "") None None (JStr "")))).
Proof.
  cbv zeta. split; [ | by vm_compute ].
  refine (proj1 (unreadable_estimate_gives_none "000007"
                   (odd_client (odd_estimate_text (quoted "abc")))
                   (mk_response 200 (odd_estimate_text (quoted "abc")))
                   _ _ _ _ _)
            [("fundcode", JStr "000007"); ("gsz", JStr "abc")] "gsz" (JStr "abc") ValueError
            _ _ _ _ _);
    try (vm_compute; reflexivity).
  right. left.
Defined.

(** Two records arrive; when the change of the second reads [--], the
    page is empty; when it reads [3], the page holds both.  A payload whose
    data is [null] gives the empty page as well. *)
Lemma one_bad_record_drops_the_page_witness :
  (let w := history_client (odd_history_text (quoted "3")) in
   fst (run (get_fund_nav_history "000001" 1 20 None None) w) =
   Ok (mk_nav_page (JInt 2) 1 20
         [mk_nav_record (JStr "2024-02-29") (Some 10) None None;
          mk_nav_record (JStr "2024-02-28") (Some 10) None (Some 3)])) /\
  (let w := history_client (odd_history_text (quoted "--")) in
   run (get_fund_nav_history "000001" 1 20 None None) w =
   (Ok (empty_page 1 20), send (history_request "000001" 1 20 None None) w)) /\
  (let w := history_client null_history_text in
   run (get_fund_nav_history "000001" 1 20 None None) w =
   (Ok (empty_page 1 20), send (history_request "000001" 1 20 None None) w)).
Proof.
  cbv zeta. split; [ by vm_compute | ]. split.
  - assert (Hbad := one_bad_record_drops_the_page "000001" 1 20 None None
                      (history_client (odd_history_text (quoted "--")))
                      (mk_response 200 (odd_history_text (quoted "--")))
                      [("ErrCode", JInt 0); ("TotalCount", JInt 2);
                       ("Data", JObj [("LSJZList",
                          JArr [JObj [("FSRQ", JStr "2024-02-29"); ("DWJZ", JStr "10")];
                                JObj [("FSRQ", JStr "2024-02-28"); ("DWJZ", JStr "10");
                                      ("JZZZL", JStr "--")]])])]).
    cbv zeta in Hbad.
    destruct Hbad as [Hrec _]; [ vm_compute; reflexivity .. | ].
    refine (Hrec _ _ [("FSRQ", JStr "2024-02-28"); ("DWJZ", JStr "10"); ("JZZZL", JStr "--")]
              "JZZZL" (JStr "--") ValueError eq_refl eq_refl _ _ eq_refl eq_refl _).
    + right. left.
    + right. right. left.
    + vm_compute. reflexivity.
  - assert (Hnull := one_bad_record_drops_the_page "000001" 1 20 None None
                       (history_client null_history_text)
                       (mk_response 200 null_history_text)
                       [("ErrCode", JInt 0); ("Data", JNull)]).
    cbv zeta in Hnull.
    destruct Hnull as [_ Hdata]; [ vm_compute; reflexivity .. | ].
    apply (Hdata JNull eq_refl). discriminate.
Defined.

(** A profile page with the changes of one month and of three years gives
    a detail with these two changes, and the sector 白酒; when the change of
    three years reads [--], there is no detail, and the sector is the
    default one. *)
Lemma detail_needs_every_change_witness :
  (let r := mk_response 200 (detail_page "7") in
   detail_resume "161725" (Ok r) =
     Some (mk_fund_detail "161725" "招商中证白酒指数" "指数型" "" "" (Some 120)
             [("change_1m", 2); ("change_3y", 7)]) /\
   get_fund_sector (detail_resume (F := Z) "161725" (Ok r)) = "白酒") /\
  (let r := mk_response 200 (detail_page "--") in
   detail_resume (F := Z) "161725" (Ok r) = None /\
   get_fund_sector (detail_resume (F := Z) "161725" (Ok r)) = "综合").
Proof.
  cbv zeta. split; [ split; by vm_compute | ].
  apply (proj1 (detail_needs_every_change (F := Z) "161725")
           (mk_response 200 (detail_page "--")) "change_3y" "--" ValueError).
  - reflexivity.
  - apply list_elem_of_In. simpl. tauto.
  - by vm_compute.
  - reflexivity.
Defined.

End EastMoneyClientMore.
